(** * Document extractor: extraction pipeline, templates and status machine

    A shallow embedding of the decision logic of the document extractor
    (src/extraction/ocr_engine.py, src/extraction/llm_extractor.py,
    src/templates/*.py, src/processor.py, src/output/schemas.py,
    src/ingestion/loader.py, src/config.py, src/main.py, src/tasks.py) and
    the properties of its specification that concern it.

    Conventions of the embedding:
    - Python [float] confidences are rationals ([Q], compared with [==]):
      the rounding of floating point sums and quotients is not modelled,
      nor the [OverflowError] of [float()] on an integer beyond its range;
    - Python [str] is [string], the text in UTF-8. [PyStr] has the case
      mapping and the white space of ASCII for [str.strip], [str.upper],
      [str.lower], [str.title], which are Python's on ASCII text; the
      idempotence of the post-processing rules, which depends on them, is
      stated for ASCII text. [PyText.py_len] and [PyText.strip] count
      characters and strip the white space of Unicode;
    - Python [dict] with string keys is [gmap string _];
    - a call that may raise returns an [outcome];
    - interpreter and library functions that the repository only calls
      ([str()] on non-strings, [float()] on strings, [json.loads], the
      [.2f] format) are the fields of a [PyRuntime]. *)

From Stdlib Require Import QArith Qminmax Lia List Ascii String Bool.
From Stdlib Require Import Qround DecimalString Sorted Permutation.
From Stdlib.Strings Require Import Byte.
From stdpp Require Import gmap strings list fin_maps option.

Local Open Scope Q_scope.
Set Warnings "-register-all,-clear-no-such-hyp".

(** ** Exceptions and outcomes *)

Inductive exn_class :=
  | JSONDecodeError | ValueError | TypeError | AttributeError
  | RuntimeError | ValidationError | IndexError | EngineError.

Record exn := Exn { exn_kind : exn_class; exn_msg : string }.

Inductive outcome (A : Type) :=
  | Returned (a : A)
  | Raised (e : exn).
Arguments Returned {A} a.
Arguments Raised {A} e.

Definition obind {A B} (m : outcome A) (k : A -> outcome B) : outcome B :=
  match m with
  | Returned a => k a
  | Raised e => Raised e
  end.

(** ** Comparisons on confidences *)

Definition Qltb (a b : Q) : bool := negb (Qle_bool b a).

(** ** Engine invocations

    The engines are external collaborators and may answer differently
    from one invocation to the next: an engine is the sequence of the
    outcomes of its invocations, and a pipeline run threads the number of
    invocations made so far. *)

Module Exec.

Record calls := Calls { primary_calls : nat; fallback_calls : nat }.

Definition no_calls : calls := Calls 0 0.

Definition M (A : Type) : Type := calls -> outcome A * calls.

Definition ret {A} (a : A) : M A := fun c => (Returned a, c).

Definition throw {A} (e : exn) : M A := fun c => (Raised e, c).

Definition bind {A B} (m : M A) (k : A -> M B) : M B :=
  fun c => match m c with
           | (Returned a, c') => k a c'
           | (Raised e, c') => (Raised e, c')
           end.

(** [try: ... except Exception as e: ...] *)
Definition try_except {A} (m : M A) (handler : exn -> M A) : M A :=
  fun c => match m c with
           | (Returned a, c') => (Returned a, c')
           | (Raised e, c') => handler e c'
           end.

Definition call_primary {A} (engine : nat -> outcome A) : M A :=
  fun c => (engine (primary_calls c),
            Calls (S (primary_calls c)) (fallback_calls c)).

Definition call_fallback {A} (engine : nat -> outcome A) : M A :=
  fun c => (engine (fallback_calls c),
            Calls (primary_calls c) (S (fallback_calls c))).

Definition run {A} (m : M A) : outcome A * calls := m no_calls.

End Exec.

Notation "'do' x <- m ; k" := (Exec.bind m (fun x => k))
  (at level 10, x name, m at level 100, k at level 200).

(** ** OCR pipeline (src/extraction/ocr_engine.py) *)

Module OCR.
Import Exec.

Record OCRWord := {
  text : string;
  word_confidence : Q;
  bbox : Z * Z * Z * Z
}.

Record OCRResult := {
  full_text : string;
  words : list OCRWord;
  confidence : Q;
  language : string;
  engine_used : string
}.

(** An engine, at one image: the outcomes of its successive
    [recognize(image)] invocations. *)
Definition OCREngine := nat -> outcome OCRResult.

(** The pipeline after [_ensure_primary] and [_ensure_fallback]: the
    fallback is [None] when none is configured or Tesseract cannot be
    constructed ([_fallback_available] is false). *)
Record OCRPipeline := {
  primary_engine : OCREngine;
  fallback_engine : option OCREngine;
  confidence_threshold : Q
}.

Definition both_failed (e fallback_error : exn) : exn :=
  Exn RuntimeError
    ("Both OCR engines failed. Primary: " ++ exn_msg e
       ++ ", Fallback: " ++ exn_msg fallback_error).

Definition primary_failed (e : exn) : exn :=
  Exn RuntimeError ("OCR failed: " ++ exn_msg e).

Definition process (self : OCRPipeline) : M OCRResult :=
  try_except
    (do result <- call_primary (primary_engine self);
     if Qle_bool (confidence_threshold self) (confidence result)
     then ret result
     else
       match fallback_engine self with
       | Some fallback =>
           try_except
             (do fallback_result <- call_fallback fallback;
              if Qltb (confidence result) (confidence fallback_result)
              then ret fallback_result
              else ret result)
             (fun _ => ret result)
       | None => ret result
       end)
    (fun e =>
       match fallback_engine self with
       | Some fallback =>
           try_except (call_fallback fallback)
             (fun fallback_error => throw (both_failed e fallback_error))
       | None => throw (primary_failed e)
       end).

End OCR.


(** ** Python strings (ASCII model) *)

Module PyStr.

Definition code (c : ascii) : nat := nat_of_ascii c.

(** White space of [str.strip()]: tab, LF, VT, FF, CR, FS..US, space. *)
Definition isspace (c : ascii) : bool :=
  ((9 <=? code c)%nat && (code c <=? 13)%nat)
  || ((28 <=? code c)%nat && (code c <=? 32)%nat).

Definition isupper (c : ascii) : bool :=
  (65 <=? code c)%nat && (code c <=? 90)%nat.

Definition islower (c : ascii) : bool :=
  (97 <=? code c)%nat && (code c <=? 122)%nat.

Definition iscased (c : ascii) : bool := isupper c || islower c.

Definition isdigit_char (c : ascii) : bool :=
  (48 <=? code c)%nat && (code c <=? 57)%nat.

Definition to_upper (c : ascii) : ascii :=
  if islower c then ascii_of_nat (code c - 32) else c.

Definition to_lower (c : ascii) : ascii :=
  if isupper c then ascii_of_nat (code c + 32) else c.

Fixpoint smap (f : ascii -> ascii) (s : string) : string :=
  match s with
  | EmptyString => EmptyString
  | String c s' => String (f c) (smap f s')
  end.

Definition upper (s : string) : string := smap to_upper s.

Definition lower (s : string) : string := smap to_lower s.

Fixpoint lstrip (s : string) : string :=
  match s with
  | EmptyString => EmptyString
  | String c s' => if isspace c then lstrip s' else s
  end.

Fixpoint rstrip (s : string) : string :=
  match s with
  | EmptyString => EmptyString
  | String c s' =>
      match rstrip s' with
      | EmptyString => if isspace c then EmptyString else String c EmptyString
      | r => String c r
      end
  end.

Definition strip (s : string) : string := rstrip (lstrip s).

(** [str.title()]: a cased character is upper-cased after an uncased one
    (or at the start) and lower-cased after a cased one. *)
Fixpoint title_from (previous_is_cased : bool) (s : string) : string :=
  match s with
  | EmptyString => EmptyString
  | String c s' =>
      if iscased c
      then String (if previous_is_cased then to_lower c else to_upper c)
                  (title_from true s')
      else String c (title_from false s')
  end.

Definition title (s : string) : string := title_from false s.

(** [s.replace(old, "")] for a one-character [old]. *)
Fixpoint remove (old : ascii) (s : string) : string :=
  match s with
  | EmptyString => EmptyString
  | String c s' =>
      if Ascii.eqb c old then remove old s' else String c (remove old s')
  end.

Fixpoint all_digits (s : string) : bool :=
  match s with
  | EmptyString => true
  | String c s' => isdigit_char c && all_digits s'
  end.

(** [str.isdigit()]: non-empty and only digits. *)
Definition isdigit (s : string) : bool :=
  match s with
  | EmptyString => false
  | _ => all_digits s
  end.

Definition startswith (s p : string) : bool := String.prefix p s.

(** [s[n:]] *)
Fixpoint drop (n : nat) (s : string) : string :=
  match n, s with
  | O, _ => s
  | S n', String _ s' => drop n' s'
  | S _, EmptyString => EmptyString
  end.

(** [s[:n]] *)
Fixpoint take (n : nat) (s : string) : string :=
  match n, s with
  | S n', String c s' => String c (take n' s')
  | _, _ => EmptyString
  end.

(** [s[i:j]] for [i <= j] *)
Definition slice (i j : nat) (s : string) : string := take (j - i) (drop i s).

(** [kw in text] *)
Fixpoint contains (kw text : string) : bool :=
  String.prefix kw text
  || match text with
     | EmptyString => false
     | String _ text' => contains kw text'
     end.

(** The longest prefix of [s] that ends with a closing brace. *)
Fixpoint upto_last_brace (s : string) : option string :=
  match s with
  | EmptyString => None
  | String c s' =>
      match upto_last_brace s' with
      | Some r => Some (String c r)
      | None => if Ascii.eqb c "}" then Some (String c EmptyString) else None
      end
  end.

(** [re.search(r'\{[\s\S]*\}', s)]: from the first opening brace to the
    last closing brace after it. *)
Fixpoint search_json_object (s : string) : option string :=
  match s with
  | EmptyString => None
  | String c s' =>
      if Ascii.eqb c "{"
      then match upto_last_brace s' with
           | Some r => Some (String c r)
           | None => None
           end
      else search_json_object s'
  end.

Fixpoint take_digits (s : string) : string :=
  match s with
  | String c s' => if isdigit_char c then String c (take_digits s') else EmptyString
  | EmptyString => EmptyString
  end.

Fixpoint drop_digits (s : string) : string :=
  match s with
  | String c s' => if isdigit_char c then drop_digits s' else s
  | EmptyString => EmptyString
  end.

(** [re.search] for digits, an optional dot, digits (the pattern of
    [TranscriptTemplate.post_process]): the first run of digits, with a
    following dot and the digits after it. *)
Fixpoint search_number (s : string) : option string :=
  match s with
  | EmptyString => None
  | String c s' =>
      if isdigit_char c
      then Some (take_digits s ++
                 match drop_digits s with
                 | String "."%char rest => String "."%char (take_digits rest)
                 | _ => EmptyString
                 end)%string
      else search_number s'
  end.

End PyStr.

(** ** Python values (what [json.loads] produces) *)

Inductive value :=
  | VNone
  | VBool (b : bool)
  | VInt (z : Z)
  | VFloat (q : Q)
  | VStr (s : string)
  | VList (items : list value)
  | VDict (entries : list (string * value)).

(** Truth value of an object in a condition. *)
Definition truthy (v : value) : bool :=
  match v with
  | VNone => false
  | VBool b => b
  | VInt z => negb (z =? 0)%Z
  | VFloat q => negb (Qeq_bool q 0)
  | VStr s => negb (String.eqb s EmptyString)
  | VList items => match items with [] => false | _ => true end
  | VDict entries => match entries with [] => false | _ => true end
  end.

(** [type(v).__name__] *)
Definition type_name (v : value) : string :=
  match v with
  | VNone => "NoneType"
  | VBool _ => "bool"
  | VInt _ => "int"
  | VFloat _ => "float"
  | VStr _ => "str"
  | VList _ => "list"
  | VDict _ => "dict"
  end.

(** The [AttributeError] of [v.attr] for an attribute that [v] lacks. *)
Definition no_attribute (v : value) (attr : string) : exn :=
  Exn AttributeError
    ("'" ++ type_name v ++ "' object has no attribute '" ++ attr ++ "'").

Definition is_none (v : value) : bool :=
  match v with VNone => true | _ => false end.

(** [v == ""] *)
Definition is_empty_str (v : value) : bool :=
  match v with VStr EmptyString => true | _ => false end.

(** The interpreter and library functions that the repository calls. The
    text of the messages of [ValueError] and [TypeError] is abbreviated. *)
Class PyRuntime := {
  (** [str(v)] for a [v] that is not a string *)
  py_repr : value -> string;
  (** [float(s)]; [None] when it raises [ValueError] *)
  float_of_str : string -> option Q;
  (** [json.loads(s)] *)
  json_loads : string -> outcome value;
  (** the format [.2f] *)
  format_2f : Q -> string
}.

(** [str(v)], also the conversion of an f-string field *)
Definition py_str `{PyRuntime} (v : value) : string :=
  match v with
  | VStr s => s
  | _ => py_repr v
  end.

(** [float(v)] *)
Definition py_float `{PyRuntime} (v : value) : outcome Q :=
  match v with
  | VInt z => Returned (inject_Z z)
  | VFloat q => Returned q
  | VBool b => Returned (if b then 1 else 0)
  | VStr s =>
      match float_of_str s with
      | Some q => Returned q
      | None => Raised (Exn ValueError "could not convert string to float")
      end
  | _ => Raised (Exn TypeError "float() argument must be a string or a real number")
  end.

Fixpoint assoc (k : string) (entries : list (string * value)) : option value :=
  match entries with
  | [] => None
  | (k', v) :: rest => if String.eqb k k' then Some v else assoc k rest
  end.

(** [d.get(k, default)] on an object that should be a [dict] *)
Definition py_get (d : value) (k : string) (default : value) : outcome value :=
  match d with
  | VDict entries => Returned (from_option id default (assoc k entries))
  | _ => Raised (no_attribute d "get")
  end.

(** [d.items()] *)
Definition py_items (d : value) : outcome (list (string * value)) :=
  match d with
  | VDict entries => Returned entries
  | _ => Raised (no_attribute d "items")
  end.

(** ** LLM extraction (src/extraction/llm_extractor.py) *)

Module LLM.
Import Exec.

Record ExtractedField := {
  name : string;
  field_value : value;
  confidence : Q;
  source_text : value
}.

Record ExtractionResult := {
  document_type : value;
  fields : gmap string ExtractedField;
  raw_response : string;
  model_used : string;
  success : bool;
  error : string
}.

Definition with_model_used (result : ExtractionResult) (m : string)
  : ExtractionResult :=
  {| document_type := document_type result;
     fields := fields result;
     raw_response := raw_response result;
     model_used := m;
     success := success result;
     error := error result |}.

(** One entry of the [fields] object of the response. *)
Definition parse_field `{PyRuntime} (field_name : string) (field_data : value)
  : outcome ExtractedField :=
  match field_data with
  | VDict entries =>
      obind (py_float (from_option id (VFloat (1#2)) (assoc "confidence" entries)))
        (fun conf =>
           Returned {| name := field_name;
                       field_value := from_option id VNone (assoc "value" entries);
                       confidence := conf;
                       source_text :=
                         from_option id (VStr "") (assoc "source_text" entries) |})
  | _ =>
      Returned {| name := field_name;
                  field_value := field_data;
                  confidence := 1#2;
                  source_text := VStr "" |}
  end.

(** The loop over [data.get("fields", {}).items()]. *)
Fixpoint parse_fields `{PyRuntime} (entries : list (string * value))
    (acc : gmap string ExtractedField) : outcome (gmap string ExtractedField) :=
  match entries with
  | [] => Returned acc
  | (field_name, field_data) :: rest =>
      obind (parse_field field_name field_data)
        (fun f => parse_fields rest (<[field_name := f]> acc))
  end.

Definition _parse_response `{PyRuntime} (response : string)
    (doc_type : string) : outcome ExtractionResult :=
  match PyStr.search_json_object response with
  | None =>
      Returned {| document_type := VStr doc_type;
                  fields := ∅;
                  raw_response := response;
                  model_used := "";
                  success := false;
                  error := "No JSON found in response" |}
  | Some json_text =>
      match json_loads json_text with
      | Raised (Exn JSONDecodeError msg) =>
          Returned {| document_type := VStr doc_type;
                      fields := ∅;
                      raw_response := response;
                      model_used := "";
                      success := false;
                      error := "JSON parse error: " ++ msg |}
      | Raised e => Raised e
      | Returned data =>
          obind (py_get data "fields" (VDict [])) (fun fields_obj =>
          obind (py_items fields_obj) (fun entries =>
          obind (parse_fields entries ∅) (fun fs =>
          obind (py_get data "document_type" (VStr doc_type)) (fun dt =>
          Returned {| document_type := dt;
                      fields := fs;
                      raw_response := response;
                      model_used := "";
                      success := true;
                      error := "" |}))))
      end
  end.

(** [OllamaExtractor.extract], given the outcome of [client.chat] (the
    text of the reply, or the exception it raised). *)
Definition OllamaExtractor_extract `{PyRuntime} (model : string)
    (chat : outcome string) (doc_type : string) : ExtractionResult :=
  match obind chat (fun response_text => _parse_response response_text doc_type) with
  | Returned result => with_model_used result ("ollama/" ++ model)
  | Raised e =>
      {| document_type := VStr doc_type;
         fields := ∅;
         raw_response := "";
         model_used := "ollama/" ++ model;
         success := false;
         error := "Ollama error: " ++ exn_msg e |}
  end.

(** [GeminiExtractor.extract], given the outcome of
    [model.generate_content]. *)
Definition GeminiExtractor_extract `{PyRuntime} (model_name : string)
    (generate_content : outcome string) (doc_type : string) : ExtractionResult :=
  match obind generate_content
          (fun response_text => _parse_response response_text doc_type) with
  | Returned result => with_model_used result ("gemini/" ++ model_name)
  | Raised e =>
      {| document_type := VStr doc_type;
         fields := ∅;
         raw_response := "";
         model_used := "gemini/" ++ model_name;
         success := false;
         error := "Gemini error: " ++ exn_msg e |}
  end.

(** An extractor, at the arguments of one [extract] call of the pipeline:
    the outcomes of its successive [extract(text, document_type,
    expected_fields)] invocations. *)
Definition LLMExtractor := nat -> outcome ExtractionResult.

(** The pipeline after [_ensure_primary] and [_ensure_fallback]: the
    fallback is [None] when no fallback is given and the Gemini extractor
    cannot be constructed (no API key). *)
Record LLMPipeline := {
  primary : LLMExtractor;
  fallback : option LLMExtractor;
  use_fallback_on_low_confidence : bool;
  confidence_threshold : Q
}.

Definition sumQ (l : list Q) : Q := foldr Qplus 0 l.

(** [sum(l) / len(l)] *)
Definition meanQ (l : list Q) : Q := sumQ l / inject_Z (Z.of_nat (length l)).

Definition field_confidence_values (result : ExtractionResult) : list Q :=
  map (fun kv => confidence (snd kv)) (map_to_list (fields result)).

Definition _average_confidence (result : ExtractionResult) : Q :=
  match field_confidence_values result with
  | [] => 0
  | l => meanQ l
  end.

Definition all_failed (doc_type : string) (e : exn) : ExtractionResult :=
  {| document_type := VStr doc_type;
     fields := ∅;
     raw_response := "";
     model_used := "";
     success := false;
     error := "All extractors failed: " ++ exn_msg e |}.

Definition extract (self : LLMPipeline) (doc_type : string) : M ExtractionResult :=
  try_except
    (do result <- call_primary (primary self);
     if success result then
       let avg_confidence := _average_confidence result in
       if Qle_bool (confidence_threshold self) avg_confidence
       then ret result
       else
         if use_fallback_on_low_confidence self then
           match fallback self with
           | Some fb =>
               do fallback_result <- call_fallback fb;
               if success fallback_result
                  && Qltb avg_confidence (_average_confidence fallback_result)
               then ret fallback_result
               else ret result
           | None => ret result
           end
         else ret result
     else
       match fallback self with
       | Some fb => call_fallback fb
       | None => ret result
       end)
    (fun e =>
       match fallback self with
       | Some fb => call_fallback fb
       | None => ret (all_failed doc_type e)
       end).

End LLM.

(** ** Templates (src/templates/) *)

Module Templates.
Import PyStr.

(** [DocumentCategory], with its string values. *)
Inductive DocumentCategory :=
  | TRANSCRIPT | ID_DOCUMENT | CERTIFICATE | RECOMMENDATION | ESSAY | UNKNOWN.

Definition category_value (c : DocumentCategory) : string :=
  match c with
  | TRANSCRIPT => "transcript"
  | ID_DOCUMENT => "id_document"
  | CERTIFICATE => "certificate"
  | RECOMMENDATION => "recommendation"
  | ESSAY => "essay"
  | UNKNOWN => "unknown"
  end.

(** [FieldDefinition]; [validation_pattern] and [description] are read by
    no code of the repository and are left out. *)
Record FieldDefinition := fd {
  name : string;
  display_name : string;
  field_type : string;
  required : bool
}.

(** A template class: its overridden members. [classify] and [validate]
    are never overridden and are the functions of [BaseTemplate] below. *)
Record Template := {
  class_name : string;
  category : DocumentCategory;
  field_definitions : list FieldDefinition;
  classification_keywords : list string;
  post_process : gmap string value -> outcome (gmap string value)
}.

Definition field_names (t : Template) : list string :=
  map name (field_definitions t).

Definition required_fields (t : Template) : list string :=
  map name (List.filter required (field_definitions t)).

(** [BaseTemplate.classify] *)
Definition classify (t : Template) (text : string) : Q :=
  let text_lower := lower text in
  let matches :=
    length (List.filter (fun kw => contains kw text_lower)
                        (classification_keywords t)) in
  Qmin (inject_Z (Z.of_nat matches)
          / inject_Z (Z.of_nat (Nat.max (length (classification_keywords t)) 1)))
       1.

(** The body of the loop of [BaseTemplate.validate]. *)
Definition validate_field `{PyRuntime} (fields : gmap string value)
    (field_def : FieldDefinition) : list string :=
  let v := from_option id VNone (fields !! name field_def) in
  ((if required field_def && (is_none v || is_empty_str v)
    then [("Required field '" ++ display_name field_def ++ "' is missing")%string]
    else [])
   ++
   (if negb (is_none v) && negb (is_empty_str v)
       && String.eqb (field_type field_def) "number"
    then match float_of_str (remove "," (py_str v)) with
         | Some _ => []
         | None =>
             [("Field '" ++ display_name field_def ++ "' should be a number")%string]
         end
    else []))%list.

(** [BaseTemplate.validate] *)
Definition validate `{PyRuntime} (t : Template) (fields : gmap string value)
  : list string :=
  flat_map (validate_field fields) (field_definitions t).

(** [BaseTemplate.post_process] *)
Definition base_post_process (fields : gmap string value)
  : outcome (gmap string value) :=
  Returned fields.

(** ["k" in processed and processed["k"]] *)
Definition present_and_truthy (processed : gmap string value) (k : string) : bool :=
  match processed !! k with
  | Some v => truthy v
  | None => false
  end.

(** [v.strip()] *)
Definition py_strip (v : value) : outcome string :=
  match v with
  | VStr s => Returned (strip s)
  | _ => Raised (no_attribute v "strip")
  end.

(** [if k in processed and processed[k]:
       processed[k] = processed[k].strip().title()] *)
Definition normalize_name (k : string) (processed : gmap string value)
  : outcome (gmap string value) :=
  if present_and_truthy processed k
  then obind (py_strip (from_option id VNone (processed !! k)))
         (fun s => Returned (<[k := VStr (title s)]> processed))
  else Returned processed.

(** The gender block of the Aadhaar and ID document templates; [males]
    and [females] are the two tuples of accepted spellings. *)
Definition normalize_gender `{PyRuntime} (males females : list string)
    (processed : gmap string value) : gmap string value :=
  if present_and_truthy processed "gender"
  then
    let gender := strip (upper (py_str (from_option id VNone (processed !! "gender")))) in
    if existsb (String.eqb gender) males
    then <["gender" := VStr "Male"]> processed
    else if existsb (String.eqb gender) females
         then <["gender" := VStr "Female"]> processed
         else processed
  else processed.

(** The name-combining block of [IDDocumentTemplate.post_process]. *)
Definition combine_names `{PyRuntime} (processed : gmap string value)
  : gmap string value :=
  if negb (truthy (from_option id VNone (processed !! "full_name")))
  then
    let first := from_option id (VStr "") (processed !! "first_name") in
    let last := from_option id (VStr "") (processed !! "last_name") in
    if truthy first || truthy last
    then <["full_name" := VStr (strip (py_str first ++ " " ++ py_str last))]> processed
    else processed
  else processed.

Definition IDDocument_post_process `{PyRuntime} (fields : gmap string value)
  : outcome (gmap string value) :=
  obind (normalize_name "full_name" (combine_names fields)) (fun p1 =>
  obind (normalize_name "first_name" p1) (fun p2 =>
  obind (normalize_name "last_name" p2) (fun p3 =>
  Returned (normalize_gender ["M"; "MALE"]%string ["F"; "FEMALE"]%string p3)))).

(** The Aadhaar number block. *)
Definition format_aadhaar `{PyRuntime} (processed : gmap string value)
  : gmap string value :=
  if present_and_truthy processed "aadhaar_number"
  then
    let aadhaar :=
      remove "-" (remove " "
        (py_str (from_option id VNone (processed !! "aadhaar_number")))) in
    if (String.length aadhaar =? 12)%nat && isdigit aadhaar
    then <["aadhaar_number" :=
             VStr (take 4 aadhaar ++ " " ++ slice 4 8 aadhaar ++ " " ++ drop 8 aadhaar)]>
           processed
    else processed
  else processed.

Definition Aadhaar_post_process `{PyRuntime} (fields : gmap string value)
  : outcome (gmap string value) :=
  Returned (normalize_gender ["M"; "MALE"; "पुरुष"]%string
                             ["F"; "FEMALE"; "महिला"]%string
                             (format_aadhaar fields)).

Definition PAN_post_process `{PyRuntime} (fields : gmap string value)
  : outcome (gmap string value) :=
  if present_and_truthy fields "pan_number"
  then Returned (<["pan_number" :=
                    VStr (strip (upper (py_str (from_option id VNone
                                                  (fields !! "pan_number")))))]>
                   fields)
  else Returned fields.

(** The UAN number block. *)
Definition format_uan `{PyRuntime} (processed : gmap string value)
  : gmap string value :=
  if present_and_truthy processed "uan_number"
  then
    let uan :=
      remove "-" (remove " "
        (py_str (from_option id VNone (processed !! "uan_number")))) in
    if isdigit uan then <["uan_number" := VStr uan]> processed else processed
  else processed.

Definition UAN_post_process `{PyRuntime} (fields : gmap string value)
  : outcome (gmap string value) :=
  obind (normalize_name "member_name" fields) (fun p =>
  Returned (format_uan p)).

(** The GPA block of [TranscriptTemplate.post_process]. *)
Definition normalize_gpa `{PyRuntime} (processed : gmap string value)
  : outcome (gmap string value) :=
  if present_and_truthy processed "gpa"
  then
    match search_number (py_str (from_option id VNone (processed !! "gpa"))) with
    | Some m =>
        match float_of_str m with
        | Some q => Returned (<["gpa" := VFloat q]> processed)
        | None => Raised (Exn ValueError "could not convert string to float")
        end
    | None => Returned processed
    end
  else Returned processed.

Definition Transcript_post_process `{PyRuntime} (fields : gmap string value)
  : outcome (gmap string value) :=
  obind (normalize_gpa fields) (fun p => normalize_name "student_name" p).

(** One turn of the loop over the prefixes of a certificate title. *)
Definition strip_prefix (prefix title : string) : string :=
  if startswith (lower title) (lower prefix)
  then drop (String.length prefix) title
  else title.

(** The title block of [CertificateTemplate.post_process]. *)
Definition clean_title (processed : gmap string value)
  : outcome (gmap string value) :=
  if present_and_truthy processed "certificate_title"
  then obind (py_strip (from_option id VNone (processed !! "certificate_title")))
         (fun title =>
            Returned (<["certificate_title" :=
                         VStr (strip_prefix "Certificate for "
                                 (strip_prefix "Certificate of " title))]>
                        processed))
  else Returned processed.

Definition Certificate_post_process (fields : gmap string value)
  : outcome (gmap string value) :=
  obind (normalize_name "recipient_name" fields) clean_title.

Definition UANCardTemplate `{PyRuntime} : Template :=
  {| class_name := "UANCardTemplate";
     category := ID_DOCUMENT;
     field_definitions :=
       [fd "member_name" "Member Name" "string" true;
        fd "uan_number" "UAN Number" "string" true;
        fd "date_of_birth" "Date of Birth" "date" true;
        fd "gender" "Gender" "string" false;
        fd "fathers_name" "Father's/Husband's Name" "string" false;
        fd "aadhaar_verified" "Aadhaar Verified" "string" false;
        fd "pan_verified" "PAN Verified" "string" false;
        fd "bank_verified" "Bank Verified" "string" false;
        fd "employer_name" "Employer Name" "string" false;
        fd "establishment_id" "Establishment ID" "string" false;
        fd "address" "Address" "string" false];
     classification_keywords :=
       ["uan";
        "universal account number";
        "epfo";
        "epf";
        "provident fund";
        "shram";
        "e-shram";
        "ministry of labour";
        "श्रम कार्ड";
        "member id";
        "unorganised worker"]%string;
     post_process := UAN_post_process |}.

Definition AadhaarCardTemplate `{PyRuntime} : Template :=
  {| class_name := "AadhaarCardTemplate";
     category := ID_DOCUMENT;
     field_definitions :=
       [fd "full_name" "Full Name" "string" true;
        fd "aadhaar_number" "Aadhaar Number" "string" true;
        fd "date_of_birth" "Date of Birth" "date" true;
        fd "gender" "Gender" "string" false;
        fd "address" "Address" "string" false;
        fd "pincode" "PIN Code" "string" false;
        fd "vid" "Virtual ID (VID)" "string" false];
     classification_keywords :=
       ["aadhaar";
        "uidai";
        "unique identification";
        "भारत सरकार";
        "government of india";
        "enrolment";
        "vid";
        "आधार"]%string;
     post_process := Aadhaar_post_process |}.

Definition PANCardTemplate `{PyRuntime} : Template :=
  {| class_name := "PANCardTemplate";
     category := ID_DOCUMENT;
     field_definitions :=
       [fd "full_name" "Full Name" "string" true;
        fd "pan_number" "PAN Number" "string" true;
        fd "fathers_name" "Father's Name" "string" false;
        fd "date_of_birth" "Date of Birth" "date" true;
        fd "signature_name" "Name on Signature" "string" false];
     classification_keywords :=
       ["permanent account number";
        "pan";
        "income tax";
        "आयकर विभाग";
        "govt. of india";
        "NSDL";
        "UTI"]%string;
     post_process := PAN_post_process |}.

Definition VoterIDTemplate : Template :=
  {| class_name := "VoterIDTemplate";
     category := ID_DOCUMENT;
     field_definitions :=
       [fd "elector_name" "Elector's Name" "string" true;
        fd "epic_number" "EPIC Number" "string" true;
        fd "fathers_name" "Father's/Husband's Name" "string" false;
        fd "date_of_birth" "Date of Birth" "date" false;
        fd "age" "Age" "number" false;
        fd "gender" "Gender" "string" false;
        fd "address" "Address" "string" false;
        fd "polling_station" "Polling Station" "string" false;
        fd "constituency" "Assembly Constituency" "string" false];
     classification_keywords :=
       ["voter";
        "epic";
        "election commission";
        "elector";
        "polling";
        "निर्वाचन";
        "मतदाता";
        "assembly constituency"]%string;
     post_process := base_post_process |}.

Definition DrivingLicenseTemplate : Template :=
  {| class_name := "DrivingLicenseTemplate";
     category := ID_DOCUMENT;
     field_definitions :=
       [fd "holder_name" "Name of Holder" "string" true;
        fd "license_number" "License Number" "string" true;
        fd "date_of_birth" "Date of Birth" "date" true;
        fd "blood_group" "Blood Group" "string" false;
        fd "fathers_name" "Father's/Husband's Name" "string" false;
        fd "address" "Address" "string" false;
        fd "issue_date" "Date of Issue" "date" false;
        fd "valid_till" "Valid Till" "date" false;
        fd "vehicle_classes" "Vehicle Class(es)" "string" false;
        fd "issuing_authority" "Issuing Authority (RTO)" "string" false];
     classification_keywords :=
       ["driving";
        "license";
        "licence";
        "motor vehicle";
        "rto";
        "transport";
        "lmv";
        "mcwg";
        "valid till";
        "blood group"]%string;
     post_process := base_post_process |}.

Definition TranscriptTemplate `{PyRuntime} : Template :=
  {| class_name := "TranscriptTemplate";
     category := TRANSCRIPT;
     field_definitions :=
       [fd "student_name" "Student Name" "string" true;
        fd "student_id" "Student ID" "string" false;
        fd "institution_name" "Institution Name" "string" true;
        fd "date_of_birth" "Date of Birth" "date" false;
        fd "graduation_date" "Graduation Date" "date" false;
        fd "gpa" "GPA" "number" false;
        fd "gpa_scale" "GPA Scale" "string" false;
        fd "class_rank" "Class Rank" "string" false;
        fd "total_credits" "Total Credits" "number" false;
        fd "courses" "Courses" "array" false;
        fd "degree_type" "Degree Type" "string" false];
     classification_keywords :=
       ["transcript";
        "academic record";
        "grade point average";
        "gpa";
        "credits";
        "course";
        "semester";
        "cumulative";
        "official transcript";
        "registrar"]%string;
     post_process := Transcript_post_process |}.

Definition IDDocumentTemplate `{PyRuntime} : Template :=
  {| class_name := "IDDocumentTemplate";
     category := ID_DOCUMENT;
     field_definitions :=
       [fd "full_name" "Full Name" "string" true;
        fd "first_name" "First Name" "string" false;
        fd "last_name" "Last Name" "string" false;
        fd "date_of_birth" "Date of Birth" "date" true;
        fd "document_number" "Document Number" "string" true;
        fd "document_type" "Document Type" "string" false;
        fd "issue_date" "Issue Date" "date" false;
        fd "expiry_date" "Expiry Date" "date" false;
        fd "nationality" "Nationality" "string" false;
        fd "gender" "Gender" "string" false;
        fd "address" "Address" "string" false;
        fd "place_of_birth" "Place of Birth" "string" false;
        fd "issuing_authority" "Issuing Authority" "string" false];
     classification_keywords :=
       ["passport";
        "driver";
        "license";
        "identity";
        "id card";
        "national id";
        "date of birth";
        "dob";
        "expiry";
        "nationality";
        "place of issue"]%string;
     post_process := IDDocument_post_process |}.

Definition CertificateTemplate : Template :=
  {| class_name := "CertificateTemplate";
     category := CERTIFICATE;
     field_definitions :=
       [fd "recipient_name" "Recipient Name" "string" true;
        fd "certificate_title" "Certificate Title" "string" true;
        fd "issuing_organization" "Issuing Organization" "string" true;
        fd "issue_date" "Issue Date" "date" false;
        fd "expiry_date" "Expiry Date" "date" false;
        fd "certificate_id" "Certificate ID" "string" false;
        fd "achievement_description" "Achievement Description" "string" false;
        fd "course_name" "Course/Program Name" "string" false;
        fd "grade_or_score" "Grade/Score" "string" false;
        fd "duration" "Duration" "string" false;
        fd "signatories" "Signatories" "array" false];
     classification_keywords :=
       ["certificate";
        "certify";
        "certification";
        "awarded";
        "achievement";
        "completion";
        "hereby";
        "credential";
        "honor";
        "recognition";
        "conferred"]%string;
     post_process := Certificate_post_process |}.

End Templates.

(** ** Response schemas (src/output/schemas.py) *)

Module Schemas.

Inductive DocumentStatus :=
  | PENDING | PROCESSING | COMPLETED | FAILED | REQUIRES_REVIEW.

Inductive DocumentTypeEnum :=
  | TRANSCRIPT | ID_DOCUMENT | CERTIFICATE | UNKNOWN.

Definition type_value (t : DocumentTypeEnum) : string :=
  match t with
  | TRANSCRIPT => "transcript"
  | ID_DOCUMENT => "id_document"
  | CERTIFICATE => "certificate"
  | UNKNOWN => "unknown"
  end.

Record ExtractionError := {
  code : string;
  field : option string;
  message : string;
  suggested_action : option string
}.

(** [ExtractionResponse]; [created_at] (the clock) is left out. *)
Record ExtractionResponse := {
  document_id : string;
  status : DocumentStatus;
  document_type : DocumentTypeEnum;
  filename : string;
  extracted_data : gmap string value;
  field_confidences : gmap string Q;
  overall_confidence : Q;
  errors : list ExtractionError;
  requires_review : bool;
  processing_time_ms : option Z;
  model_used : option string
}.

(** Construction of an [ExtractionResponse]: the model validates
    [overall_confidence: float = Field(ge=0.0, le=1.0)] and raises a
    [ValidationError] otherwise. *)
Definition new_ExtractionResponse (r : ExtractionResponse)
  : outcome ExtractionResponse :=
  if Qle_bool 0 (overall_confidence r) && Qle_bool (overall_confidence r) 1
  then Returned r
  else Raised (Exn ValidationError
                 "1 validation error for ExtractionResponse: overall_confidence").

End Schemas.

(** ** The processor (src/processor.py) *)

Module Processor.
Import Templates.
Import Schemas.

(** The templates of [DocumentProcessor.__init__], in registration order. *)
Definition registered_templates `{PyRuntime} : list Template :=
  [UANCardTemplate; AadhaarCardTemplate; PANCardTemplate; VoterIDTemplate;
   DrivingLicenseTemplate; TranscriptTemplate; IDDocumentTemplate;
   CertificateTemplate].

Record DocumentProcessor := {
  templates : list Template;
  confidence_threshold : Q
}.

(** [template.category.value == type_hint.value] *)
Definition matches_hint (type_hint : DocumentTypeEnum) (template : Template) : bool :=
  String.eqb (category_value (category template)) (type_value type_hint).

(** The scoring loop of [_classify_document]: one turn. *)
Definition keep_best (text : string) (best : Template * Q) (template : Template)
  : Template * Q :=
  let score := classify template text in
  if Qltb (snd best) score then (template, score) else best.

Definition _classify_document (self : DocumentProcessor) (text : string)
    (type_hint : option DocumentTypeEnum) : outcome Template :=
  match match type_hint with
        | Some hint => List.find (matches_hint hint) (templates self)
        | None => None
        end with
  | Some template => Returned template
  | None =>
      match templates self with
      | [] => Raised (Exn IndexError "list index out of range")
      | first :: _ =>
          Returned (fst (fold_left (keep_best text) (templates self) (first, 0)))
      end
  end.

(** [doc_type_map.get(template.category, DocumentTypeEnum.UNKNOWN)] *)
Definition doc_type_map (c : DocumentCategory) : DocumentTypeEnum :=
  match c with
  | Templates.TRANSCRIPT => Schemas.TRANSCRIPT
  | Templates.ID_DOCUMENT => Schemas.ID_DOCUMENT
  | Templates.CERTIFICATE => Schemas.CERTIFICATE
  | _ => Schemas.UNKNOWN
  end.

(** [extracted_data.get(field_name) is not None] *)
Definition has_value (extracted_data : gmap string value) (field_name : string) : bool :=
  match extracted_data !! field_name with
  | Some v => negb (is_none v)
  | None => false
  end.

Definition non_null_confidences (field_confidences : gmap string Q)
    (extracted_data : gmap string value) : list Q :=
  map snd (List.filter (fun kv => has_value extracted_data (fst kv))
                       (map_to_list field_confidences)).

Definition mean_or_zero (l : list Q) : Q :=
  match l with
  | [] => 0
  | _ => LLM.meanQ l
  end.

(** [if ocr_result and ocr_result.confidence < 0.7:
       overall_confidence *= ocr_result.confidence] *)
Definition adjust_for_ocr (ocr_result : option OCR.OCRResult) (overall : Q) : Q :=
  match ocr_result with
  | Some o => if Qltb (OCR.confidence o) (7#10)
              then overall * OCR.confidence o
              else overall
  | None => overall
  end.

Definition llm_error (msg : string) : ExtractionError :=
  {| code := "LLM_ERROR"; field := None; message := msg;
     suggested_action := Some "Try again or use different model"%string |}.

Definition validation_error (err : string) : ExtractionError :=
  {| code := "VALIDATION_ERROR"; field := None; message := err;
     suggested_action := Some "Manual review required"%string |}.

Definition low_confidence `{PyRuntime} (overall : Q) : ExtractionError :=
  {| code := "LOW_CONFIDENCE"; field := None;
     message := "Overall confidence " ++ format_2f overall ++ " below threshold";
     suggested_action := Some "Manual verification recommended"%string |}.

(** The [if]/[elif] chain of [_build_response]:
    (status, errors, requires_review). *)
Definition determine_status `{PyRuntime} (threshold : Q)
    (llm_result : LLM.ExtractionResult) (validation_errors : list string)
    (overall : Q) : DocumentStatus * list ExtractionError * bool :=
  if negb (LLM.success llm_result)
  then (FAILED, [llm_error (LLM.error llm_result)], false)
  else match validation_errors with
       | _ :: _ => (REQUIRES_REVIEW, map validation_error validation_errors, true)
       | [] =>
           if Qltb overall threshold
           then (REQUIRES_REVIEW, [low_confidence overall], true)
           else (COMPLETED, [], false)
       end.

Definition _build_response `{PyRuntime} (self : DocumentProcessor)
    (doc_id file_name : string) (template : Template)
    (llm_result : LLM.ExtractionResult) (ocr_result : option OCR.OCRResult)
  : outcome ExtractionResponse :=
  let raw_data := LLM.field_value <$> LLM.fields llm_result in
  let confidences := LLM.confidence <$> LLM.fields llm_result in
  obind (post_process template raw_data) (fun data =>
    let validation_errors := validate template data in
    let overall :=
      adjust_for_ocr ocr_result
        (mean_or_zero (non_null_confidences confidences data)) in
    let '(st, errs, review) :=
      determine_status (confidence_threshold self) llm_result
                       validation_errors overall in
    new_ExtractionResponse
      {| document_id := doc_id;
         status := st;
         document_type := doc_type_map (category template);
         filename := file_name;
         extracted_data := data;
         field_confidences := confidences;
         overall_confidence := overall;
         errors := errs;
         requires_review := review;
         processing_time_ms := None;
         model_used := Some (LLM.model_used llm_result) |}).

(** The overall confidence computed by [_build_response], before the
    response is constructed. *)
Definition computed_overall (llm_result : LLM.ExtractionResult)
    (data : gmap string value) (ocr_result : option OCR.OCRResult) : Q :=
  adjust_for_ocr ocr_result
    (mean_or_zero
       (non_null_confidences (LLM.confidence <$> LLM.fields llm_result) data)).

(** The response of the [except] branch of [process_file]. *)
Definition processing_error (doc_id file_name : string) (e : exn)
  : ExtractionResponse :=
  {| document_id := doc_id;
     status := FAILED;
     document_type := Schemas.UNKNOWN;
     filename := file_name;
     extracted_data := ∅;
     field_confidences := ∅;
     overall_confidence := 0;
     errors := [{| code := "PROCESSING_ERROR"; field := None;
                   message := exn_msg e;
                   suggested_action :=
                     Some "Check file format and try again"%string |}];
     requires_review := false;
     processing_time_ms := None;
     model_used := None |}.

(** The end of [process_file], from the template and the results of the
    engines on: the response is built inside the [try], and an exception
    becomes the [PROCESSING_ERROR] response. *)
Definition process_file_response `{PyRuntime} (self : DocumentProcessor)
    (doc_id file_name : string) (template : Template)
    (llm_result : LLM.ExtractionResult) (ocr_result : option OCR.OCRResult)
  : ExtractionResponse :=
  match _build_response self doc_id file_name template llm_result ocr_result with
  | Returned response => response
  | Raised e => processing_error doc_id file_name e
  end.

End Processor.

(** ** Notions of the specification and of the proofs *)

Module Spec.
Import Templates.

(** [t] is the first template, in the order of [ts], whose score on [text]
    is the maximum of the scores: no template scores more, and the ones
    registered before it score less. *)
Definition first_of_max (text : string) (ts : list Template) (t : Template) : Prop :=
  exists before after,
    ts = (before ++ t :: after)%list
    /\ (forall t', In t' ts -> classify t' text <= classify t text)
    /\ (forall t', In t' before -> classify t' text < classify t text).

(** State of the scoring loop after the templates [seen]: either no score
    was positive and the candidate is still the first template, or the
    candidate is the first of [seen] with the best score. *)
Definition loop_inv (text : string) (first : Template) (seen : list Template)
    (best : Template * Q) : Prop :=
  (forall t, In t seen -> classify t text <= snd best)
  /\ ((snd best == 0 /\ fst best = first)
      \/ (exists before after,
            seen = (before ++ fst best :: after)%list
            /\ classify (fst best) text == snd best
            /\ forall t, In t before -> classify t text < snd best)).

(** The confidences of the fields of the LLM result whose value in the
    post-processed data is present and not null. *)
Definition counted_confidences (fields : gmap string LLM.ExtractedField)
    (data : gmap string value) : list Q :=
  map (fun kv => LLM.confidence (snd kv))
      (List.filter
         (fun kv => match data !! fst kv with
                    | Some VNone | None => false
                    | Some _ => true
                    end)
         (map_to_list fields)).

(** The overall confidence in the words of the specification: the
    arithmetic mean of the counted confidences, 0 when there is none,
    multiplied by the OCR confidence when OCR was used and that
    confidence is below 0.7. *)
Definition spec_overall_confidence (fields : gmap string LLM.ExtractedField)
    (data : gmap string value) (ocr_confidence : option Q) : Q :=
  let counted := counted_confidences fields data in
  let mean :=
    match counted with
    | [] => 0
    | _ => foldr Qplus 0 counted / inject_Z (Z.of_nat (length counted))
    end in
  match ocr_confidence with
  | Some c => if Qltb c (7#10) then mean * c else mean
  | None => mean
  end.

(** Every value of the mapping is null. *)
Definition all_null (data : gmap string value) : Prop :=
  forall k v, data !! k = Some v -> v = VNone.

(** The message of [validate] for a required field without a value. *)
Definition missing_message (field_def : FieldDefinition) : string :=
  ("Required field '" ++ display_name field_def ++ "' is missing")%string.

(** The guarded assignment of the post-processing rules,
    [if k in processed and processed[k]: processed[k] = g(processed[k])],
    at the value. *)
Definition guarded (g : value -> value) (v : value) : value :=
  if truthy v then g v else v.

(** [v.strip().title()] at a string. *)
Definition titled (v : value) : value :=
  match v with
  | VStr s => VStr (PyStr.title (PyStr.strip s))
  | _ => v
  end.

(** The exception of [processed[k].strip()], if it raises: the value at
    [k] is true in a condition and is not a string. *)
Definition strip_raises (m : gmap string value) (k : string) : option exn :=
  match m !! k with
  | Some (VStr _) | None => None
  | Some v => if truthy v then Some (no_attribute v "strip") else None
  end.

Definition gender_value `{PyRuntime} (males females : list string) (v : value)
  : value :=
  let gender := PyStr.strip (PyStr.upper (py_str v)) in
  if existsb (String.eqb gender) males then VStr "Male"
  else if existsb (String.eqb gender) females then VStr "Female"
       else v.

Definition aadhaar_value `{PyRuntime} (v : value) : value :=
  let aadhaar := PyStr.remove "-" (PyStr.remove " " (py_str v)) in
  if (String.length aadhaar =? 12)%nat && PyStr.isdigit aadhaar
  then VStr (PyStr.take 4 aadhaar ++ " " ++ PyStr.slice 4 8 aadhaar ++ " "
               ++ PyStr.drop 8 aadhaar)
  else v.

Definition uan_value `{PyRuntime} (v : value) : value :=
  let uan := PyStr.remove "-" (PyStr.remove " " (py_str v)) in
  if PyStr.isdigit uan then VStr uan else v.

Definition pan_value `{PyRuntime} (v : value) : value :=
  VStr (PyStr.strip (PyStr.upper (py_str v))).

(** The templates whose [post_process] is idempotent. *)
Definition idempotent_templates `{PyRuntime} : list Template :=
  [UANCardTemplate; AadhaarCardTemplate; PANCardTemplate; VoterIDTemplate;
   DrivingLicenseTemplate].

(** [full_name] is a non-empty string of white space only. *)
Definition has_blank_full_name (m : gmap string value) : Prop :=
  exists s, m !! "full_name"%string = Some (VStr s)
            /\ s <> EmptyString /\ PyStr.strip s = EmptyString.

(** The fields after one application of [IDDocumentTemplate.post_process]
    that does not raise. *)
Definition ID_processed `{PyRuntime} (m : gmap string value) : gmap string value :=
  alter (guarded (gender_value ["M"; "MALE"]%string ["F"; "FEMALE"]%string)) "gender"
    (alter titled "last_name"
       (alter titled "first_name"
          (alter titled "full_name" (combine_names m)))).

End Spec.

(** ** Inputs of the examples *)

Module Examples.
Import Exec.

Definition ocr_result (c : Q) (engine : string) : OCR.OCRResult :=
  {| OCR.full_text := "scan"; OCR.words := []; OCR.confidence := c;
     OCR.language := "en"; OCR.engine_used := engine |}.

(** Primary at 3/10 under a threshold of 1/2, fallback at 9/10. *)
Definition ocr_low_primary : OCR.OCRPipeline :=
  {| OCR.primary_engine := fun _ => Returned (ocr_result (3#10) "easyocr");
     OCR.fallback_engine := Some (fun _ => Returned (ocr_result (9#10) "tesseract"));
     OCR.confidence_threshold := 1#2 |}.

Definition one_field (c : Q) : gmap string LLM.ExtractedField :=
  {[ "full_name"%string :=
       {| LLM.name := "full_name"; LLM.field_value := VStr "Ada";
          LLM.confidence := c; LLM.source_text := VStr "" |} ]}.

(** A successful extraction of one field, with confidence [c]. *)
Definition llm_result (c : Q) (model : string) : LLM.ExtractionResult :=
  {| LLM.document_type := VStr "id_document";
     LLM.fields := one_field c;
     LLM.raw_response := "";
     LLM.model_used := model;
     LLM.success := true;
     LLM.error := "" |}.

(** A fallback extractor that raises at its first invocation and returns
    a successful result of confidence 1/10 afterwards. *)
Definition flaky_fallback : LLM.LLMExtractor :=
  fun k => match k with
           | O => Raised (Exn EngineError "connection reset")
           | S _ => Returned (llm_result (1#10) "fallback")
           end.

(** Primary at 1/2 under a threshold of 4/5, with the fallback above. *)
Definition llm_retry_pipeline : LLM.LLMPipeline :=
  {| LLM.primary := fun _ => Returned (llm_result (1#2) "primary");
     LLM.fallback := Some flaky_fallback;
     LLM.use_fallback_on_low_confidence := true;
     LLM.confidence_threshold := 4#5 |}.

(** The double quote character. *)
Definition dq : string := String (ascii_of_nat 34) EmptyString.

(** A reply that is a JSON object whose [fields] member is an array. *)
Definition ill_typed_response : string :=
  ("{" ++ dq ++ "fields" ++ dq ++ ": []}")%string.

(** A runtime for the examples. Its decoder knows the one JSON text above,
    which it decodes as [json.loads] does. The examples reach no other
    member of it: their facts are also proved for every runtime
    ([unchecked_response], [all_null_response], [unknown_hint_selection],
    [two_applications], [ollama_fields_not_object]). *)
Definition example_runtime : PyRuntime :=
  {| py_repr := fun v => ("<" ++ type_name v ++ ">")%string;
     float_of_str := fun _ => None;
     json_loads := fun s =>
       if String.eqb s ill_typed_response
       then Returned (VDict [("fields"%string, VList [])])
       else Raised (Exn JSONDecodeError "Expecting value");
     format_2f := fun _ => "0.00"%string |}.

(** The processor of [DocumentProcessor.__init__], with the default
    threshold of the settings. *)
Definition processor `{PyRuntime} : Processor.DocumentProcessor :=
  {| Processor.templates := Processor.registered_templates;
     Processor.confidence_threshold := 8#10 |}.

(** A successful extraction that found a name and nothing else. *)
Definition name_only : LLM.ExtractionResult := llm_result (9#10) "ollama/llama3.2".

(** A successful extraction with a first name at 9/10 and a null field
    whose reported confidence is 7. *)
Definition first_name_and_null : LLM.ExtractionResult :=
  {| LLM.document_type := VStr "id_document";
     LLM.fields :=
       <[ "first_name"%string :=
            {| LLM.name := "first_name"; LLM.field_value := VStr "ada";
               LLM.confidence := 9#10; LLM.source_text := VStr "" |} ]>
       {[ "nickname"%string :=
            {| LLM.name := "nickname"; LLM.field_value := VNone;
               LLM.confidence := 7; LLM.source_text := VStr "" |} ]};
     LLM.raw_response := "";
     LLM.model_used := "ollama/llama3.2";
     LLM.success := true;
     LLM.error := "" |}.

(** A successful extraction whose fields are all null. *)
Definition all_null : LLM.ExtractionResult :=
  {| LLM.document_type := VStr "id_document";
     LLM.fields :=
       <[ "member_name"%string :=
            {| LLM.name := "member_name"; LLM.field_value := VNone;
               LLM.confidence := 0; LLM.source_text := VStr "" |} ]>
       {[ "uan_number"%string :=
            {| LLM.name := "uan_number"; LLM.field_value := VNone;
               LLM.confidence := 0; LLM.source_text := VStr "" |} ]};
     LLM.raw_response := "";
     LLM.model_used := "ollama/llama3.2";
     LLM.success := true;
     LLM.error := "" |}.

(** A certificate whose title repeats the prefix. *)
Definition repeated_prefix : gmap string value :=
  {[ "certificate_title"%string := VStr "Certificate of Certificate of Merit" ]}.

(** An identity document with a blank full name and a first name. *)
Definition blank_full_name : gmap string value :=
  <[ "full_name"%string := VStr " " ]> {[ "first_name"%string := VStr "ada" ]}.

(** An Aadhaar card as the LLM may return it. *)
Definition aadhaar_fields : gmap string value :=
  <[ "aadhaar_number"%string := VStr "1234-5678-9012" ]>
  {[ "gender"%string := VStr " m " ]}.

End Examples.

(** * Further code of the repository *)

(** ** More of Python's strings *)

Module PyText.

(** The line feed. *)
Definition nl : string := String (ascii_of_nat 10) EmptyString.

(** [sep.join(l)] *)
Fixpoint join (sep : string) (l : list string) : string :=
  match l with
  | [] => EmptyString
  | [s] => s
  | s :: rest => (s ++ sep ++ join sep rest)%string
  end.

(** [s.split(sep)] for a one-character [sep], as the first piece and the
    other pieces: the result of [split] is never empty. *)
Fixpoint split (sep : ascii) (s : string) : string * list string :=
  match s with
  | EmptyString => (EmptyString, [])
  | String c s' =>
      let '(piece, pieces) := split sep s' in
      if Ascii.eqb c sep
      then (EmptyString, piece :: pieces)
      else (String c piece, pieces)
  end.

(** [s.split(sep)[0]] *)
Definition first_piece (sep : ascii) (s : string) : string := fst (split sep s).

(** [s.split(sep)[-1]] *)
Definition last_piece (sep : ascii) (s : string) : string :=
  List.last (snd (split sep s)) (fst (split sep s)).

(** [c in s] for a character *)
Fixpoint has_char (c : ascii) (s : string) : bool :=
  match s with
  | EmptyString => false
  | String d s' => Ascii.eqb d c || has_char c s'
  end.

(** [str(n)] for an integer *)
Definition str_of_int (n : Z) : string := NilZero.string_of_int (Z.to_int n).

(** The text has only ASCII characters. *)
Fixpoint is_ascii (s : string) : bool :=
  match s with
  | EmptyString => true
  | String c s' => (PyStr.code c <? 128)%nat && is_ascii s'
  end.

(** A continuation byte of the UTF-8 encoding. *)
Definition is_continuation (c : ascii) : bool :=
  (128 <=? PyStr.code c)%nat && (PyStr.code c <? 192)%nat.

(** [len(s)]: the number of characters of a text, which the string holds
    in UTF-8, so the number of its bytes that start a character. *)
Fixpoint py_len (s : string) : nat :=
  match s with
  | EmptyString => O
  | String c s' => if is_continuation c then py_len s' else S (py_len s')
  end.

(** The white space of [str.isspace] that takes three bytes: U+1680,
    U+2000 to U+200A, U+2028, U+2029, U+202F, U+205F and U+3000. *)
Definition three_byte_space (b1 b2 b3 : nat) : bool :=
  ((b1 =? 225) && (b2 =? 154) && (b3 =? 128))%nat
  || ((b1 =? 226) && (b2 =? 128)
      && (((128 <=? b3) && (b3 <=? 138)) || (b3 =? 168) || (b3 =? 169)
          || (b3 =? 175)))%nat
  || ((b1 =? 226) && (b2 =? 129) && (b3 =? 159))%nat
  || ((b1 =? 227) && (b2 =? 128) && (b3 =? 128))%nat.

(** The white space that takes two bytes: U+0085 and U+00A0. *)
Definition two_byte_space (b1 b2 : nat) : bool :=
  ((b1 =? 194) && ((b2 =? 133) || (b2 =? 160)))%nat.

(** The number of bytes of the white space character that the text starts
    with, 0 when it starts with none. *)
Definition space_width (s : string) : nat :=
  match s with
  | String c1 rest =>
      if PyStr.isspace c1 then 1
      else
        match rest with
        | String c2 rest' =>
            if two_byte_space (PyStr.code c1) (PyStr.code c2) then 2
            else
              match rest' with
              | String c3 _ =>
                  if three_byte_space (PyStr.code c1) (PyStr.code c2) (PyStr.code c3)
                  then 3 else 0
              | EmptyString => 0
              end
        | EmptyString => 0
        end
  | EmptyString => 0
  end%nat.

(** The same for the text read from its end: [s] is the reversed text. *)
Definition space_width_reversed (s : string) : nat :=
  match s with
  | String c3 rest =>
      if PyStr.isspace c3 then 1
      else
        match rest with
        | String c2 rest' =>
            if two_byte_space (PyStr.code c2) (PyStr.code c3) then 2
            else
              match rest' with
              | String c1 _ =>
                  if three_byte_space (PyStr.code c1) (PyStr.code c2) (PyStr.code c3)
                  then 3 else 0
              | EmptyString => 0
              end
        | EmptyString => 0
        end
  | EmptyString => 0
  end%nat.

(** Drops the leading characters that [width] measures, at most [fuel]
    of them. *)
Fixpoint drop_spaces (width : string -> nat) (fuel : nat) (s : string) : string :=
  match fuel with
  | O => s
  | S fuel' =>
      match width s with
      | O => s
      | w => drop_spaces width fuel' (PyStr.drop w s)
      end
  end.

Fixpoint reversed_onto (s acc : string) : string :=
  match s with
  | EmptyString => acc
  | String c s' => reversed_onto s' (String c acc)
  end.

Definition reversed (s : string) : string := reversed_onto s EmptyString.

(** [s.strip()] with the white space of Unicode. *)
Definition strip (s : string) : string :=
  let left := drop_spaces space_width (String.length s) s in
  reversed (drop_spaces space_width_reversed (String.length left) (reversed left)).

End PyText.

(** ** The document loader (src/ingestion/loader.py) *)

Module Loader.

Inductive DocumentType := PDF | IMAGE | DOCX | UNKNOWN.

Record LoadedDocument := {
  file_path : string;
  document_type : DocumentType;
  file_size : nat;
  content : list byte;
  metadata_filename : string
}.

(** [pathlib] and [mimetypes], which the loader only calls. *)
Class FileRuntime := {
  (** [str(Path(p))] *)
  path_str : string -> string;
  (** [Path(p).suffix] *)
  path_suffix : string -> string;
  (** [Path(p).name] *)
  path_name : string -> string;
  (** [mimetypes.guess_type(str(Path(p)))[0]] *)
  guess_type : string -> option string;
  (** [Path(p).read_bytes()], [None] when [Path(p).exists()] is false *)
  read_file : string -> option (list byte)
}.

Definition EXTENSION_MAP : list (string * DocumentType) :=
  [(".pdf", PDF); (".jpg", IMAGE); (".jpeg", IMAGE); (".png", IMAGE);
   (".tiff", IMAGE); (".tif", IMAGE); (".webp", IMAGE); (".docx", DOCX)]%string.

Definition MIME_TYPE_MAP : list (string * DocumentType) :=
  [("application/pdf", PDF); ("image/jpeg", IMAGE); ("image/png", IMAGE);
   ("image/tiff", IMAGE); ("image/webp", IMAGE);
   ("application/vnd.openxmlformats-officedocument.wordprocessingml.document",
    DOCX)]%string.

Fixpoint lookup_type (k : string) (table : list (string * DocumentType))
  : option DocumentType :=
  match table with
  | [] => None
  | (k', t) :: rest => if String.eqb k k' then Some t else lookup_type k rest
  end.

Fixpoint bytes_eqb (a b : list byte) : bool :=
  match a, b with
  | [], [] => true
  | x :: a', y :: b' => Byte.eqb x y && bytes_eqb a' b'
  | _, _ => false
  end.

(** [content[:n] == magic] for a [magic] of [n] bytes *)
Definition starts_with (magic content : list byte) : bool :=
  bytes_eqb (firstn (length magic) content) magic.

Definition PDF_MAGIC : list byte := [x25; x50; x44; x46].
Definition PNG_MAGIC : list byte := [x89; x50; x4e; x47; x0d; x0a; x1a; x0a].
Definition JPEG_MAGIC : list byte := [xff; xd8].
Definition ZIP_MAGIC : list byte := [x50; x4b; x03; x04].

(** The magic byte block of [detect_type]. *)
Definition sniff (content : option (list byte)) : DocumentType :=
  match content with
  | Some (b :: bytes) =>
      let c := b :: bytes in
      if starts_with PDF_MAGIC c then PDF
      else if starts_with PNG_MAGIC c then IMAGE
      else if starts_with JPEG_MAGIC c then IMAGE
      else if starts_with ZIP_MAGIC c then DOCX
      else UNKNOWN
  | _ => UNKNOWN
  end.

Definition detect_type `{FileRuntime} (path : string) (content : option (list byte))
  : DocumentType :=
  match lookup_type (PyStr.lower (path_suffix path)) EXTENSION_MAP with
  | Some t => t
  | None =>
      match match guess_type path with
            | Some mime_type => lookup_type mime_type MIME_TYPE_MAP
            | None => None
            end with
      | Some t => t
      | None => sniff content
      end
  end.

(** The loader raises [DocumentValidationError] only: a load is accepted,
    or rejected with the message of that exception. *)
Inductive checked (A : Type) :=
  | Accepted (a : A)
  | Rejected (message : string).
Arguments Accepted {A} a.
Arguments Rejected {A} message.

Record DocumentLoader := { max_file_size_bytes : Z }.

Definition validate `{FileRuntime} (self : DocumentLoader) (path : string)
    (bytes : list byte) : checked unit :=
  if (max_file_size_bytes self <? Z.of_nat (length bytes))%Z
  then Rejected ("File size " ++ PyText.str_of_int (Z.of_nat (length bytes))
                 ++ " bytes exceeds maximum "
                 ++ PyText.str_of_int (max_file_size_bytes self) ++ " bytes")
  else if (length bytes =? 0)%nat
       then Rejected "File is empty"
       else match detect_type path (Some bytes) with
            | UNKNOWN =>
                Rejected ("Unsupported file type: " ++ path_suffix path
                          ++ ". Supported types: PDF, JPG, PNG, DOCX")
            | _ => Accepted tt
            end.

Definition load_from_bytes `{FileRuntime} (self : DocumentLoader)
    (bytes : list byte) (filename : string) : checked LoadedDocument :=
  match validate self filename bytes with
  | Rejected message => Rejected message
  | Accepted _ =>
      Accepted {| file_path := path_str filename;
                  document_type := detect_type filename (Some bytes);
                  file_size := length bytes;
                  content := bytes;
                  metadata_filename := filename |}
  end.

Definition load_from_path `{FileRuntime} (self : DocumentLoader) (path : string)
  : checked LoadedDocument :=
  match read_file path with
  | None => Rejected ("File not found: " ++ path_str path)
  | Some bytes =>
      match validate self path bytes with
      | Rejected message => Rejected message
      | Accepted _ =>
          Accepted {| file_path := path_str path;
                      document_type := detect_type path (Some bytes);
                      file_size := length bytes;
                      content := bytes;
                      metadata_filename := path_name path |}
      end
  end.

End Loader.

(** ** The OCR engines (src/extraction/ocr_engine.py) *)

Module Engines.
Import OCR.

(** One detection of [reader.readtext]: the polygon, the text and the
    confidence. *)
Record Detection := {
  polygon : list (Q * Q);
  detected_text : string;
  detected_confidence : Q
}.

(** [min(l)]; the message of the [ValueError] is abbreviated. *)
Definition py_min (l : list Q) : outcome Q :=
  match l with
  | [] => Raised (Exn ValueError "min() arg is an empty sequence")
  | x :: rest => Returned (fold_left (fun m y => if Qltb y m then y else m) rest x)
  end.

(** [max(l)] *)
Definition py_max (l : list Q) : outcome Q :=
  match l with
  | [] => Raised (Exn ValueError "max() arg is an empty sequence")
  | x :: rest => Returned (fold_left (fun m y => if Qltb m y then y else m) rest x)
  end.

(** [int(q)]: truncation towards zero *)
Definition py_int (q : Q) : Z :=
  if Qle_bool 0 q then Qfloor q else Qceiling q.

(** The body of the loop of [EasyOCREngine.recognize]. *)
Definition to_word (d : Detection) : outcome OCRWord :=
  let x_coords := map fst (polygon d) in
  let y_coords := map snd (polygon d) in
  obind (py_min x_coords) (fun x1 =>
  obind (py_min y_coords) (fun y1 =>
  obind (py_max x_coords) (fun x2 =>
  obind (py_max y_coords) (fun y2 =>
  Returned {| text := detected_text d;
              word_confidence := detected_confidence d;
              bbox := (py_int x1, py_int y1, py_int x2, py_int y2) |})))).

Fixpoint recognize_loop (results : list Detection) (words : list OCRWord)
    (total_confidence : Q) : outcome (list OCRWord * Q) :=
  match results with
  | [] => Returned (words, total_confidence)
  | d :: rest =>
      obind (to_word d) (fun w =>
        recognize_loop rest (words ++ [w]) (total_confidence + detected_confidence d))
  end.

(** [w.bbox[0]], [w.bbox[1]] *)
Definition left_of (w : OCRWord) : Z := fst (fst (fst (bbox w))).
Definition top_of (w : OCRWord) : Z := snd (fst (fst (bbox w))).

(** The order of the keys [(w.bbox[1], w.bbox[0])]. *)
Definition key_le (a b : OCRWord) : bool :=
  (top_of a <? top_of b)%Z
  || ((top_of a =? top_of b)%Z && (left_of a <=? left_of b)%Z).

(** [sorted(words, key=...)]: the stable sort, here by insertion. *)
Fixpoint insert_word (w : OCRWord) (sorted : list OCRWord) : list OCRWord :=
  match sorted with
  | [] => [w]
  | v :: rest => if key_le w v then w :: sorted else v :: insert_word w rest
  end.

Fixpoint sorted_words (words : list OCRWord) : list OCRWord :=
  match words with
  | [] => []
  | w :: rest => insert_word w (sorted_words rest)
  end.

Definition line_height_threshold : Z := 20.

(** [if current_line: lines.append(...)] *)
Definition close_line (lines : list (list OCRWord)) (current_line : list OCRWord)
  : list (list OCRWord) :=
  match current_line with
  | [] => lines
  | _ => lines ++ [current_line]
  end.

(** The loop of [_build_text_from_words]; the lines are kept as the lists
    of their words and joined at the end. *)
Fixpoint line_loop (words : list OCRWord) (lines : list (list OCRWord))
    (current_line : list OCRWord) (current_y : Z)
  : list (list OCRWord) * list OCRWord :=
  match words with
  | [] => (lines, current_line)
  | word :: rest =>
      if (line_height_threshold <? Z.abs (top_of word - current_y))%Z
      then line_loop rest (close_line lines current_line) [word] (top_of word)
      else line_loop rest lines (current_line ++ [word]) current_y
  end.

(** The lines of [_build_text_from_words], as lists of words. *)
Definition lines_of (words : list OCRWord) : list (list OCRWord) :=
  match sorted_words words with
  | [] => []
  | first :: _ =>
      let '(lines, current_line) :=
        line_loop (sorted_words words) [] [] (top_of first) in
      close_line lines current_line
  end.

Definition line_text (line : list OCRWord) : string :=
  PyText.join " " (map text line).

Definition _build_text_from_words (words : list OCRWord) : string :=
  match words with
  | [] => EmptyString
  | _ => PyText.join PyText.nl (map line_text (lines_of words))
  end.

(** [EasyOCREngine.recognize], given the outcome of [reader.readtext]. *)
Definition EasyOCR_recognize (languages : list string)
    (readtext : outcome (list Detection)) : outcome OCRResult :=
  obind readtext (fun results =>
  obind (recognize_loop results [] 0) (fun '(words, total_confidence) =>
  Returned {| full_text := _build_text_from_words words;
              words := words;
              confidence :=
                match words with
                | [] => 0
                | _ => total_confidence / inject_Z (Z.of_nat (length words))
                end;
              language := PyText.join "," languages;
              engine_used := "easyocr" |})).

(** One index of the table of [pytesseract.image_to_data]: the lists of
    the table have one length. *)
Record TesseractRow := {
  row_text : string;
  row_conf : Q;
  row_left : Z;
  row_top : Z;
  row_width : Z;
  row_height : Z
}.

(** [if text.strip(): ... if conf > 0:] *)
Definition valid_row (r : TesseractRow) : bool :=
  negb (String.eqb (PyStr.strip (row_text r)) EmptyString) && Qltb 0 (row_conf r).

Definition row_word (r : TesseractRow) : OCRWord :=
  {| text := row_text r;
     word_confidence := row_conf r / 100;
     bbox := (row_left r, row_top r,
              (row_left r + row_width r)%Z, (row_top r + row_height r)%Z) |}.

(** The loop of [TesseractEngine.recognize]:
    (words, total_confidence, valid_word_count). *)
Fixpoint tesseract_loop (data : list TesseractRow) (st : list OCRWord * Q * nat)
  : list OCRWord * Q * nat :=
  match data with
  | [] => st
  | r :: rest =>
      let '(words, total_confidence, valid_word_count) := st in
      if valid_row r
      then tesseract_loop rest
             (words ++ [row_word r], total_confidence + row_conf r / 100,
              S valid_word_count)
      else tesseract_loop rest st
  end.

(** [TesseractEngine.recognize], given the outcomes of [image_to_data]
    and of [image_to_string]. *)
Definition Tesseract_recognize (lang : string)
    (image_to_data : outcome (list TesseractRow))
    (image_to_string : outcome string) : outcome OCRResult :=
  obind image_to_data (fun data =>
  let '(words, total_confidence, valid_word_count) :=
    tesseract_loop data ([], 0, 0%nat) in
  obind image_to_string (fun full_text =>
  Returned {| full_text := PyStr.strip full_text;
              words := words;
              confidence :=
                match valid_word_count with
                | O => 0
                | _ => total_confidence / inject_Z (Z.of_nat valid_word_count)
                end;
              language := lang;
              engine_used := "tesseract" |})).

End Engines.

(** ** Settings (src/config.py) *)

Module Config.

Record Settings := {
  max_file_size_mb : Z;
  confidence_threshold : Q
}.

Definition max_file_size_bytes (s : Settings) : Z :=
  (max_file_size_mb s * 1024 * 1024)%Z.

End Config.

(** ** The whole of [process_file] (src/processor.py) *)

Module Pipeline.

Record ProcessingResult := {
  document_id : string;
  success : bool;
  response : Schemas.ExtractionResponse;
  ocr_text : string;
  raw_llm_response : string
}.

(** What [process_file] has in hand after the [try] block: the result, or
    [str(e)] of the exception caught. *)
Inductive attempt (A : Type) :=
  | Done (a : A)
  | Failed (message : string).
Arguments Done {A} a.
Arguments Failed {A} message.

Definition abind {A B} (m : attempt A) (k : A -> attempt B) : attempt B :=
  match m with
  | Done a => k a
  | Failed message => Failed message
  end.

Definition of_outcome {A} (o : outcome A) : attempt A :=
  match o with
  | Returned a => Done a
  | Raised e => Failed (exn_msg e)
  end.

Definition of_checked {A} (c : Loader.checked A) : attempt A :=
  match c with
  | Loader.Accepted a => Done a
  | Loader.Rejected message => Failed message
  end.

(** The response of the [except] branch of [process_file]. *)
Definition error_response (doc_id file_name message : string)
  : Schemas.ExtractionResponse :=
  {| Schemas.document_id := doc_id;
     Schemas.status := Schemas.FAILED;
     Schemas.document_type := Schemas.UNKNOWN;
     Schemas.filename := file_name;
     Schemas.extracted_data := ∅;
     Schemas.field_confidences := ∅;
     Schemas.overall_confidence := 0;
     Schemas.errors :=
       [{| Schemas.code := "PROCESSING_ERROR"; Schemas.field := None;
           Schemas.message := message;
           Schemas.suggested_action :=
             Some "Check file format and try again"%string |}];
     Schemas.requires_review := false;
     Schemas.processing_time_ms := None;
     Schemas.model_used := None |}.

Section Pipeline.
Context {rt : PyRuntime} {frt : Loader.FileRuntime}.

(** The images are objects of the imaging library. *)
Variable image : Type.

(** The collaborators of the processor: the parsers, the enhancer and
    the engines. An engine is given at the arguments it is invoked with,
    as the outcomes of its successive invocations; the images of one
    document are distinct objects. *)
Record Externals := {
  (** [pdf_parser.parse(document)]: the text and the image of each page *)
  pdf_parse : Loader.LoadedDocument -> outcome (list (string * image));
  (** [image_parser.parse(document).image] *)
  image_parse : Loader.LoadedDocument -> outcome image;
  (** [docx_parser.parse(document).full_text] *)
  docx_parse : Loader.LoadedDocument -> outcome string;
  (** [enhancer.enhance(image)] *)
  enhance : image -> outcome image;
  ocr_primary : image -> OCR.OCREngine;
  ocr_fallback : option (image -> OCR.OCREngine);
  llm_primary : string -> string -> list string -> LLM.LLMExtractor;
  llm_fallback : option (string -> string -> list string -> LLM.LLMExtractor)
}.

(** [DocumentProcessor.__init__] reads everything else from the settings. *)
Record DocumentProcessor := {
  settings : Config.Settings;
  externals : Externals
}.

Definition loader (self : DocumentProcessor) : Loader.DocumentLoader :=
  {| Loader.max_file_size_bytes := Config.max_file_size_bytes (settings self) |}.

Definition ocr_pipeline (self : DocumentProcessor) (img : image) : OCR.OCRPipeline :=
  {| OCR.primary_engine := ocr_primary (externals self) img;
     OCR.fallback_engine := (fun engine => engine img) <$> ocr_fallback (externals self);
     OCR.confidence_threshold := Config.confidence_threshold (settings self) |}.

Definition llm_pipeline (self : DocumentProcessor) (text doc_type : string)
    (expected_fields : list string) : LLM.LLMPipeline :=
  {| LLM.primary := llm_primary (externals self) text doc_type expected_fields;
     LLM.fallback :=
       (fun extractor => extractor text doc_type expected_fields)
         <$> llm_fallback (externals self);
     LLM.use_fallback_on_low_confidence := true;
     LLM.confidence_threshold := Config.confidence_threshold (settings self) |}.

(** The templates and the threshold of the processor. *)
Definition core (self : DocumentProcessor) : Processor.DocumentProcessor :=
  {| Processor.templates := Processor.registered_templates;
     Processor.confidence_threshold := Config.confidence_threshold (settings self) |}.

Definition paragraph_break : string := (PyText.nl ++ PyText.nl)%string.

Definition _extract_content (self : DocumentProcessor)
    (document : Loader.LoadedDocument) : outcome (string * list image) :=
  match Loader.document_type document with
  | Loader.PDF =>
      obind (pdf_parse (externals self) document) (fun pages =>
      Returned (PyText.join paragraph_break (map fst pages), map snd pages))
  | Loader.IMAGE =>
      obind (image_parse (externals self) document) (fun img =>
      Returned (EmptyString, [img]))
  | Loader.DOCX =>
      obind (docx_parse (externals self) document) (fun full_text =>
      Returned (full_text, []))
  | Loader.UNKNOWN => Returned (EmptyString, [])
  end.

(** [self.ocr_pipeline.process(self.enhancer.enhance(image))] *)
Definition ocr_image (self : DocumentProcessor) (img : image) : outcome OCR.OCRResult :=
  obind (enhance (externals self) img) (fun enhanced =>
  fst (Exec.run (OCR.process (ocr_pipeline self enhanced)))).

(** The loop of [_run_ocr]. *)
Fixpoint ocr_loop (self : DocumentProcessor) (images : list image)
    (all_text : list string) (total_confidence : Q) : outcome (list string * Q) :=
  match images with
  | [] => Returned (all_text, total_confidence)
  | img :: rest =>
      obind (ocr_image self img) (fun result =>
      ocr_loop self rest (all_text ++ [OCR.full_text result])
               (total_confidence + OCR.confidence result))
  end.

Definition _run_ocr (self : DocumentProcessor) (images : list image)
  : outcome (option OCR.OCRResult) :=
  match images with
  | [] => Returned None
  | _ =>
      obind (ocr_loop self images [] 0) (fun '(all_text, total_confidence) =>
      Returned (Some {| OCR.full_text := PyText.join paragraph_break all_text;
                        OCR.words := [];
                        OCR.confidence :=
                          total_confidence / inject_Z (Z.of_nat (length images));
                        OCR.language := "en";
                        OCR.engine_used := "pipeline" |}))
  end.

(** [images and (not text or len(text.strip()) < 100)] *)
Definition needs_ocr (text : string) (images : list image) : bool :=
  match images with
  | [] => false
  | _ => String.eqb text EmptyString
         || (PyText.py_len (PyText.strip text) <? 100)%nat
  end.

(** The first statement of the [try] block. *)
Definition load (self : DocumentProcessor) (file_path : option string)
    (content : option (list byte)) (file_name : string)
  : attempt Loader.LoadedDocument :=
  match file_path with
  | Some (String c p) => of_checked (Loader.load_from_path (loader self) (String c p))
  | _ =>
      match content with
      | Some (b :: bytes) =>
          of_checked (Loader.load_from_bytes (loader self) (b :: bytes) file_name)
      | _ => Failed "Either file_path or content must be provided"
      end
  end.

(** The OCR step: the result of the OCR, if it ran, and the text that
    goes on. *)
Definition ocr_step (self : DocumentProcessor) (text : string) (images : list image)
  : attempt (option OCR.OCRResult * string) :=
  if needs_ocr text images
  then abind (of_outcome (_run_ocr self images)) (fun ocr_result =>
       Done (ocr_result,
             match ocr_result with
             | Some r => OCR.full_text r
             | None => text
             end))
  else Done (None, text).

(** [self.llm_pipeline.extract(text, template.category.value,
    template.field_names)] *)
Definition llm_extract (self : DocumentProcessor) (text : string)
    (template : Templates.Template) : outcome LLM.ExtractionResult :=
  let doc_type := Templates.category_value (Templates.category template) in
  fst (Exec.run (LLM.extract
                   (llm_pipeline self text doc_type (Templates.field_names template))
                   doc_type)).

(** The [try] block of [process_file]; [doc_id] is the fresh
    [str(uuid4())], and the clock is left out. *)
Definition process_file_try (self : DocumentProcessor) (doc_id : string)
    (file_path : option string) (content : option (list byte))
    (file_name : string) (document_type_hint : option Schemas.DocumentTypeEnum)
  : attempt ProcessingResult :=
  abind (load self file_path content file_name) (fun document =>
  abind (of_outcome (_extract_content self document)) (fun '(text, images) =>
  abind (ocr_step self text images) (fun '(ocr_result, text) =>
  abind (of_outcome (Processor._classify_document (core self) text document_type_hint))
    (fun template =>
  abind (of_outcome (llm_extract self text template)) (fun llm_result =>
  abind (of_outcome (Processor._build_response (core self) doc_id file_name
                       template llm_result ocr_result)) (fun resp =>
  Done {| document_id := doc_id;
          success := true;
          response := resp;
          ocr_text := text;
          raw_llm_response := LLM.raw_response llm_result |})))))).

Definition process_file (self : DocumentProcessor) (doc_id : string)
    (file_path : option string) (content : option (list byte))
    (file_name : string) (document_type_hint : option Schemas.DocumentTypeEnum)
  : ProcessingResult :=
  match process_file_try self doc_id file_path content file_name
          document_type_hint with
  | Done result => result
  | Failed message =>
      {| document_id := doc_id;
         success := false;
         response := error_response doc_id file_name message;
         ocr_text := EmptyString;
         raw_llm_response := EmptyString |}
  end.

End Pipeline.

End Pipeline.

(** ** The HTTP API and the tasks (src/main.py, src/tasks.py) *)

Module Api.

(** What an endpoint answers: its return value, or the [HTTPException] it
    raises. *)
Inductive http (A : Type) :=
  | Ok (a : A)
  | HTTPException (status_code : Z) (detail : string).
Arguments Ok {A} a.
Arguments HTTPException {A} status_code detail.

(** [DocumentTypeEnum(s)] *)
Definition DocumentTypeEnum_of (s : string) : outcome Schemas.DocumentTypeEnum :=
  match List.find (fun t => String.eqb (Schemas.type_value t) s)
          [Schemas.TRANSCRIPT; Schemas.ID_DOCUMENT; Schemas.CERTIFICATE;
           Schemas.UNKNOWN] with
  | Some t => Returned t
  | None => Raised (Exn ValueError ("'" ++ s ++ "' is not a valid DocumentTypeEnum"))
  end.

(** The hint of [process_document_task]. *)
Definition doc_type_hint (document_type : option string)
  : option Schemas.DocumentTypeEnum :=
  match document_type with
  | Some (String c s) =>
      match DocumentTypeEnum_of (String c s) with
      | Returned t => Some t
      | Raised _ => None
      end
  | _ => None
  end.

(** [url.split("/")[-1].split("?")[0] or "document"] *)
Definition url_filename (url : string) : string :=
  match PyText.first_piece "?" (PyText.last_piece "/" url) with
  | EmptyString => "document"
  | file_name => file_name
  end.

(** An uploaded file: [file.filename] and what [file.read()] gives. *)
Record UploadFile := {
  upload_filename : option string;
  upload_content : list byte
}.

(** [not file.filename] *)
Definition no_filename (file : UploadFile) : bool :=
  match upload_filename file with
  | Some (String _ _) => false
  | _ => true
  end.

Record BatchExtractionResponse := {
  batch_id : string;
  total_documents : nat;
  batch_status : string;
  results : list Schemas.ExtractionResponse
}.

Section Endpoints.
Context {rt : PyRuntime} {frt : Loader.FileRuntime}.
Variable image : Type.

(** [extract_document]; [doc_id] is the identifier that [process_file]
    draws. *)
Definition extract_document (processor : Pipeline.DocumentProcessor image)
    (doc_id : string) (file : UploadFile)
    (document_type : option Schemas.DocumentTypeEnum)
  : http Schemas.ExtractionResponse :=
  match upload_filename file with
  | Some (String c s) =>
      if (length (upload_content file) =? 0)%nat
      then HTTPException 400 "Empty file"
      else if (Config.max_file_size_bytes (Pipeline.settings image processor)
                 <? Z.of_nat (length (upload_content file)))%Z
           then HTTPException 413
                  ("File too large. Maximum size: "
                   ++ PyText.str_of_int
                        (Config.max_file_size_mb (Pipeline.settings image processor))
                   ++ "MB")
           else Ok (Pipeline.response
                      (Pipeline.process_file image processor doc_id None
                         (Some (upload_content file)) (String c s) document_type))
  | _ => HTTPException 400 "Filename required"
  end.

(** The loop of [extract_batch]; [doc_ids] are the identifiers that the
    successive calls of [process_file] draw. *)
Fixpoint batch_loop (processor : Pipeline.DocumentProcessor image)
    (doc_ids : nat -> string) (drawn : nat) (files : list UploadFile)
  : list Schemas.ExtractionResponse :=
  match files with
  | [] => []
  | file :: rest =>
      match upload_filename file, upload_content file with
      | Some (String c s), b :: bytes =>
          Pipeline.response
            (Pipeline.process_file image processor (doc_ids drawn) None
               (Some (b :: bytes)) (String c s) None)
          :: batch_loop processor doc_ids (S drawn) rest
      | _, _ => batch_loop processor doc_ids drawn rest
      end
  end.

Definition extract_batch (processor : Pipeline.DocumentProcessor image)
    (new_batch_id : string) (doc_ids : nat -> string) (files : list UploadFile)
  : http BatchExtractionResponse :=
  match files with
  | [] => HTTPException 400 "No files provided"
  | _ =>
      if (20 <? length files)%nat
      then HTTPException 400 "Maximum 20 files per batch"
      else Ok {| batch_id := new_batch_id;
                 total_documents := length files;
                 batch_status := "completed";
                 results := batch_loop processor doc_ids 0 files |}
  end.

End Endpoints.

End Api.

(** ** The lazy construction of the engines
    (src/extraction/ocr_engine.py, src/extraction/llm_extractor.py)

    [OCR.process] and [LLM.extract] above are the bodies of the two
    methods once the engines are there. A pipeline object constructs its
    default engines at the first call that needs them; the whole methods
    are here, on the object as [__init__] or an earlier call left it. *)

Module OCRObject.
Import Exec.

Record OCRPipelineObject := {
  primary_engine : option OCR.OCREngine;
  fallback_engine : option OCR.OCREngine;
  confidence_threshold : Q;
  _primary_initialized : bool;
  _fallback_initialized : bool;
  _fallback_available : bool
}.

(** [OCRPipeline(primary_engine, fallback_engine, confidence_threshold)] *)
Definition new_OCRPipeline (primary fallback : option OCR.OCREngine) (threshold : Q)
  : OCRPipelineObject :=
  {| primary_engine := primary;
     fallback_engine := fallback;
     confidence_threshold := threshold;
     _primary_initialized := false;
     _fallback_initialized := false;
     _fallback_available := true |}.

(** [_ensure_primary]; [new_EasyOCREngine] is the outcome of
    [EasyOCREngine()]. *)
Definition _ensure_primary (new_EasyOCREngine : outcome OCR.OCREngine)
    (self : OCRPipelineObject) : outcome OCRPipelineObject :=
  if _primary_initialized self then Returned self
  else
    obind (match primary_engine self with
           | Some engine => Returned (Some engine)
           | None => obind new_EasyOCREngine (fun engine => Returned (Some engine))
           end)
      (fun primary =>
         Returned {| primary_engine := primary;
                     fallback_engine := fallback_engine self;
                     confidence_threshold := confidence_threshold self;
                     _primary_initialized := true;
                     _fallback_initialized := _fallback_initialized self;
                     _fallback_available := _fallback_available self |}).

(** [_ensure_fallback], which catches every exception of
    [TesseractEngine()]. *)
Definition _ensure_fallback (new_TesseractEngine : outcome OCR.OCREngine)
    (self : OCRPipelineObject) : OCRPipelineObject :=
  if _fallback_initialized self then self
  else
    let '(fallback, available) :=
      match fallback_engine self with
      | Some engine => (Some engine, _fallback_available self)
      | None =>
          match new_TesseractEngine with
          | Returned engine => (Some engine, _fallback_available self)
          | Raised _ => (None, false)
          end
      end in
    {| primary_engine := primary_engine self;
       fallback_engine := fallback;
       confidence_threshold := confidence_threshold self;
       _primary_initialized := _primary_initialized self;
       _fallback_initialized := true;
       _fallback_available := available |}.

(** [self.primary_engine.recognize(image)] *)
Definition recognize_of (engine : option OCR.OCREngine) : OCR.OCREngine :=
  match engine with
  | Some e => e
  | None =>
      fun _ => Raised (Exn AttributeError
                         "'NoneType' object has no attribute 'recognize'")
  end.

(** [self._fallback_available and self.fallback_engine] *)
Definition usable_fallback (self : OCRPipelineObject) : option OCR.OCREngine :=
  if _fallback_available self then fallback_engine self else None.

(** The pipeline that the body of [process] works with. [_ensure_fallback]
    never raises and changes the fallback fields only, which the body reads
    after it: it is applied here, before the body. *)
Definition constructed (new_TesseractEngine : outcome OCR.OCREngine)
    (self : OCRPipelineObject) : OCR.OCRPipeline :=
  {| OCR.primary_engine := recognize_of (primary_engine self);
     OCR.fallback_engine := usable_fallback (_ensure_fallback new_TesseractEngine self);
     OCR.confidence_threshold := confidence_threshold self |}.

(** [OCRPipeline.process], the whole method: [_ensure_primary()] is
    outside the [try], so an exception of [EasyOCREngine()] leaves the
    method as it is. *)
Definition process (new_EasyOCREngine new_TesseractEngine : outcome OCR.OCREngine)
    (self : OCRPipelineObject) : outcome OCR.OCRResult * calls :=
  match _ensure_primary new_EasyOCREngine self with
  | Raised e => (Raised e, no_calls)
  | Returned self' => run (OCR.process (constructed new_TesseractEngine self'))
  end.

End OCRObject.

Module LLMObject.
Import LLM.

Record LLMPipelineObject := {
  primary : option LLMExtractor;
  fallback : option LLMExtractor;
  use_fallback_on_low_confidence : bool;
  confidence_threshold : Q;
  _primary_initialized : bool;
  _fallback_initialized : bool
}.

(** [LLMPipeline(primary, fallback, use_fallback_on_low_confidence,
    confidence_threshold)] *)
Definition new_LLMPipeline (primary_given fallback_given : option LLMExtractor)
    (use_fallback : bool) (threshold : Q) : LLMPipelineObject :=
  {| primary := primary_given;
     fallback := fallback_given;
     use_fallback_on_low_confidence := use_fallback;
     confidence_threshold := threshold;
     _primary_initialized := false;
     _fallback_initialized := false |}.

(** The constructors of the default extractors: the outcome of
    [OllamaExtractor()], and the outcomes of the successive
    [GeminiExtractor()]. *)
Record Constructors := {
  new_OllamaExtractor : outcome LLMExtractor;
  new_GeminiExtractor : nat -> outcome LLMExtractor
}.

(** The state of a call: the object, the invocations of the extractors
    made so far, and the number of Gemini extractors constructed so far. *)
Record state := {
  self : LLMPipelineObject;
  made : Exec.calls;
  constructions : nat
}.

Definition M (A : Type) : Type := state -> outcome A * state.

Definition ret {A} (a : A) : M A := fun st => (Returned a, st).

Definition bind {A B} (m : M A) (k : A -> M B) : M B :=
  fun st => match m st with
            | (Returned a, st') => k a st'
            | (Raised e, st') => (Raised e, st')
            end.

(** [try: ... except Exception as e: ...] *)
Definition try_except {A} (m : M A) (handler : exn -> M A) : M A :=
  fun st => match m st with
            | (Returned a, st') => (Returned a, st')
            | (Raised e, st') => handler e st'
            end.

Definition with_primary (o : LLMPipelineObject) (p : option LLMExtractor)
  : LLMPipelineObject :=
  {| primary := p;
     fallback := fallback o;
     use_fallback_on_low_confidence := use_fallback_on_low_confidence o;
     confidence_threshold := confidence_threshold o;
     _primary_initialized := true;
     _fallback_initialized := _fallback_initialized o |}.

Definition with_fallback (o : LLMPipelineObject) (f : option LLMExtractor)
  : LLMPipelineObject :=
  {| primary := primary o;
     fallback := f;
     use_fallback_on_low_confidence := use_fallback_on_low_confidence o;
     confidence_threshold := confidence_threshold o;
     _primary_initialized := _primary_initialized o;
     _fallback_initialized := true |}.

(** The primary extractor after [_ensure_primary()]: the one of the
    object if it is initialized or has one, the default one otherwise; or
    the exception of [OllamaExtractor()]. *)
Definition resolve_primary (env : Constructors) (o : LLMPipelineObject)
  : outcome (option LLMExtractor) :=
  if _primary_initialized o then Returned (primary o)
  else
    match primary o with
    | Some p => Returned (Some p)
    | None => obind (new_OllamaExtractor env) (fun p => Returned (Some p))
    end.

Definition _ensure_primary (env : Constructors) : M unit :=
  fun st =>
    match resolve_primary env (self st) with
    | Returned p =>
        (Returned tt,
         {| self := with_primary (self st) p;
            made := made st; constructions := constructions st |})
    | Raised e => (Raised e, st)
    end.

(** [_ensure_fallback] catches [ValueError] only: another exception of
    [GeminiExtractor()] leaves it, and the object stays uninitialized. *)
Definition _ensure_fallback (env : Constructors) : M unit :=
  fun st =>
    if _fallback_initialized (self st) then (Returned tt, st)
    else
      match fallback (self st) with
      | Some f =>
          (Returned tt,
           {| self := with_fallback (self st) (Some f);
              made := made st; constructions := constructions st |})
      | None =>
          match new_GeminiExtractor env (constructions st) with
          | Returned f =>
              (Returned tt,
               {| self := with_fallback (self st) (Some f);
                  made := made st; constructions := S (constructions st) |})
          | Raised (Exn ValueError _) =>
              (Returned tt,
               {| self := with_fallback (self st) None;
                  made := made st; constructions := S (constructions st) |})
          | Raised e =>
              (Raised e,
               {| self := self st;
                  made := made st; constructions := S (constructions st) |})
          end
      end.

Definition no_extract : exn :=
  Exn AttributeError "'NoneType' object has no attribute 'extract'".

(** [self.primary.extract(text, document_type, expected_fields)] *)
Definition call_primary : M ExtractionResult :=
  fun st =>
    (match primary (self st) with
     | Some p => p (Exec.primary_calls (made st))
     | None => Raised no_extract
     end,
     {| self := self st;
        made := Exec.Calls (S (Exec.primary_calls (made st)))
                           (Exec.fallback_calls (made st));
        constructions := constructions st |}).

(** [self.fallback.extract(text, document_type, expected_fields)] *)
Definition call_fallback : M ExtractionResult :=
  fun st =>
    (match fallback (self st) with
     | Some f => f (Exec.fallback_calls (made st))
     | None => Raised no_extract
     end,
     {| self := self st;
        made := Exec.Calls (Exec.primary_calls (made st))
                           (S (Exec.fallback_calls (made st)));
        constructions := constructions st |}).

(** [if self.fallback:] *)
Definition has_fallback : M bool :=
  fun st => (Returned (match fallback (self st) with Some _ => true | None => false end),
             st).

(** [LLMPipeline.extract], the whole method. *)
Definition extract (env : Constructors) (doc_type : string) : M ExtractionResult :=
  fun st0 =>
  let threshold := confidence_threshold (self st0) in
  let use_fallback := use_fallback_on_low_confidence (self st0) in
  bind (_ensure_primary env) (fun _ =>
  try_except
    (bind call_primary (fun result =>
     if success result then
       let avg_confidence := _average_confidence result in
       if Qle_bool threshold avg_confidence
       then ret result
       else
         if use_fallback then
           bind (_ensure_fallback env) (fun _ =>
           bind has_fallback (fun available =>
           if available : bool then
             bind call_fallback (fun fallback_result =>
             if success fallback_result
                && Qltb avg_confidence (_average_confidence fallback_result)
             then ret fallback_result
             else ret result)
           else ret result))
         else ret result
     else
       bind (_ensure_fallback env) (fun _ =>
       bind has_fallback (fun available =>
       if available : bool then call_fallback else ret result))))
    (fun e =>
       bind (_ensure_fallback env) (fun _ =>
       bind has_fallback (fun available =>
       if available : bool then call_fallback
       else ret (all_failed doc_type e))))) st0.

(** [self.primary.extract] *)
Definition extract_of (p : option LLMExtractor) : LLMExtractor :=
  match p with
  | Some extractor => extractor
  | None => fun _ => Raised no_extract
  end.

(** The extractor that [self.primary.extract] invokes once
    [_ensure_primary()] has returned, or the exception that leaves
    [_ensure_primary()]. *)
Definition primary_after_ensure (env : Constructors) (o : LLMPipelineObject)
  : outcome LLMExtractor :=
  obind (resolve_primary env o) (fun p => Returned (extract_of p)).

(** A call on the object [o], before which nothing was invoked. *)
Definition run (env : Constructors) (doc_type : string) (o : LLMPipelineObject)
  : outcome ExtractionResult * state :=
  extract env doc_type
    {| self := o; made := Exec.no_calls; constructions := 0 |}.

End LLMObject.

(** ** Further example inputs *)

Module Inputs.

(** A primary OCR engine that raises, with no fallback. *)
Definition ocr_primary_down : OCR.OCRPipeline :=
  {| OCR.primary_engine := fun _ => Raised (Exn EngineError "model not loaded");
     OCR.fallback_engine := None;
     OCR.confidence_threshold := 1#2 |}.

(** A confident primary extractor, without fallback. *)
Definition llm_primary_only : LLM.LLMPipeline :=
  {| LLM.primary := fun _ => Returned (Examples.llm_result (9#10) "primary");
     LLM.fallback := None;
     LLM.use_fallback_on_low_confidence := true;
     LLM.confidence_threshold := 4#5 |}.

(** A file runtime for the examples: the suffix is what follows the last
    dot of the name, no MIME type is guessed, and no file is on disk. *)
Definition file_runtime : Loader.FileRuntime :=
  {| Loader.path_str := fun p => p;
     Loader.path_suffix := fun p =>
       if PyText.has_char "." p
       then String "." (PyText.last_piece "." p)
       else EmptyString;
     Loader.path_name := fun p => PyText.last_piece "/" p;
     Loader.guess_type := fun _ => None;
     Loader.read_file := fun _ => None |}.

(** The signature of a PNG file and one more byte. *)
Definition png_bytes : list byte :=
  [x89; x50; x4e; x47; x0d; x0a; x1a; x0a; x00].

(** The document that the loader makes of these bytes under the name
    [scan.png]. *)
Definition png_document : Loader.LoadedDocument :=
  {| Loader.file_path := "scan.png";
     Loader.document_type := Loader.IMAGE;
     Loader.file_size := 9;
     Loader.content := png_bytes;
     Loader.metadata_filename := "scan.png" |}.

Definition docx_document : Loader.LoadedDocument :=
  {| Loader.file_path := "letter.docx";
     Loader.document_type := Loader.DOCX;
     Loader.file_size := 4;
     Loader.content := Loader.ZIP_MAGIC;
     Loader.metadata_filename := "letter.docx" |}.

(** An OCR engine that reads every image at 9/10, and one that is down. *)
Definition ocr_up : OCR.OCREngine :=
  fun _ => Returned (Examples.ocr_result (9#10) "easyocr").

Definition ocr_down : OCR.OCREngine :=
  fun _ => Raised (Exn EngineError "model not loaded").

(** Collaborators over images that are page numbers, with the given
    primary OCR engine and no fallback engines. *)
Definition externals (ocr : OCR.OCREngine) : Pipeline.Externals nat :=
  {| Pipeline.pdf_parse := fun _ => Returned [("page one"%string, 0%nat);
                                              ("page two"%string, 1%nat)];
     Pipeline.image_parse := fun _ => Returned 0%nat;
     Pipeline.docx_parse := fun _ => Returned "Dear committee"%string;
     Pipeline.enhance := fun img => Returned img;
     Pipeline.ocr_primary := fun _ => ocr;
     Pipeline.ocr_fallback := None;
     Pipeline.llm_primary := fun _ _ _ _ =>
       Returned (Examples.llm_result (9#10) "ollama/llama3.2");
     Pipeline.llm_fallback := None |}.

(** The default settings: 50 MB, threshold 0.8. *)
Definition default_settings : Config.Settings :=
  {| Config.max_file_size_mb := 50; Config.confidence_threshold := 8#10 |}.

Definition processor_with (ocr : OCR.OCREngine) : Pipeline.DocumentProcessor nat :=
  {| Pipeline.settings := default_settings;
     Pipeline.externals := externals ocr |}.

(** An upload of the PNG bytes. *)
Definition png_upload : Api.UploadFile :=
  {| Api.upload_filename := Some "scan.png"%string;
     Api.upload_content := png_bytes |}.

(** One detection of EasyOCR: a box of 10 by 5 pixels. *)
Definition detection : Engines.Detection :=
  {| Engines.polygon := [(0, 0); (10, 0); (10, 5); (0, 5)];
     Engines.detected_text := "hello";
     Engines.detected_confidence := 9#10 |}.

(** A voter card read with the confidence 7 for both of its required
    fields. *)
Definition overconfident : LLM.ExtractionResult :=
  {| LLM.document_type := VStr "id_document";
     LLM.fields :=
       <[ "elector_name"%string :=
            {| LLM.name := "elector_name"; LLM.field_value := VStr "Ada";
               LLM.confidence := 7; LLM.source_text := VStr "" |} ]>
       {[ "epic_number"%string :=
            {| LLM.name := "epic_number"; LLM.field_value := VStr "ABC1234567";
               LLM.confidence := 7; LLM.source_text := VStr "" |} ]};
     LLM.raw_response := "";
     LLM.model_used := "ollama/llama3.2";
     LLM.success := true;
     LLM.error := "" |}.

(** The OCR pipeline of the processor before its first call: no engine is
    given. *)
Definition ocr_unbuilt : OCRObject.OCRPipelineObject :=
  OCRObject.new_OCRPipeline None None (8#10).

(** The exception of a constructor whose library is not installed. *)
Definition not_installed (library : string) : exn :=
  Exn EngineError ("No module named '" ++ library ++ "'").

(** The LLM pipeline of the processor before its first call. *)
Definition llm_unbuilt : LLMObject.LLMPipelineObject :=
  LLMObject.new_LLMPipeline None None true (8#10).

(** An Ollama extractor that answers at 9/10, and no API key for Gemini. *)
Definition ollama_only : LLMObject.Constructors :=
  {| LLMObject.new_OllamaExtractor :=
       Returned (fun _ => Returned (Examples.llm_result (9#10) "ollama/llama3.2"));
     LLMObject.new_GeminiExtractor := fun _ =>
       Raised (Exn ValueError "Gemini API key not configured") |}.

(** A runtime that parses and prints the numbers of the example below as
    Python does: [float("0.00001")] and [float("1")], and [str(1e-05)],
    which is [1e-05]. *)
Definition float_runtime : PyRuntime :=
  {| py_repr := fun v =>
       match v with
       | VFloat q => if Qeq_bool q (1#100000) then "1e-05"%string
                     else if Qeq_bool q 1 then "1.0"%string
                          else ("<" ++ type_name v ++ ">")%string
       | _ => ("<" ++ type_name v ++ ">")%string
       end;
     float_of_str := fun s =>
       if String.eqb s "0.00001" then Some (1#100000)
       else if String.eqb s "1" then Some 1
            else if String.eqb s "1.0" then Some 1 else None;
     json_loads := fun _ => Raised (Exn JSONDecodeError "Expecting value");
     format_2f := fun _ => "0.00"%string |}.

(** A transcript whose GPA is a small number. *)
Definition small_gpa : gmap string value :=
  {[ "gpa"%string := VStr "0.00001" ]}.


End Inputs.

(** ** Further notions of the proofs *)

Module Notions.

(** The value of a declared field is usable: neither [None] nor the
    empty string. *)
Definition filled (fields : gmap string value) (field_def : Templates.FieldDefinition) : bool :=
  let v := from_option id VNone (fields !! Templates.name field_def) in
  negb (is_none v) && negb (is_empty_str v).

(** Every word of a line has its top edge within the line height of the
    top edge of the first word of the line; a line has a first word. *)
Definition anchored (line : list OCR.OCRWord) : Prop :=
  line <> []
  /\ Forall (fun w => (Z.abs (Engines.top_of w
                              - Engines.top_of (hd w line))
                       <= Engines.line_height_threshold)%Z) line.

(** An uploaded file is processed by the batch endpoint: it has a name
    and content. *)
Definition processed (file : Api.UploadFile) : bool :=
  negb (Api.no_filename file)
  && negb (length (Api.upload_content file) =? 0)%nat.

(** [file.filename] of a file that has one. *)
Definition upload_name (file : Api.UploadFile) : string :=
  from_option id EmptyString (Api.upload_filename file).

(** Every value of the mapping reads, through [str()], as ASCII text. *)
Definition reads_ascii `{PyRuntime} (fields : gmap string value) : Prop :=
  forall k v, fields !! k = Some v -> PyText.is_ascii (py_str v) = true.

End Notions.

(** * Properties *)

(** ** Comparisons on confidences *)

Lemma Qltb_lt a b : Qltb a b = true <-> a < b.
Proof.
  unfold Qltb. rewrite negb_true_iff. split.
  - intros H. apply Qnot_le_lt. intros Hle.
    apply Qle_bool_iff in Hle. congruence.
  - intros H. destruct (Qle_bool b a) eqn:E; [|reflexivity].
    apply Qle_bool_iff in E. exfalso. exact (Qlt_not_le _ _ H E).
Qed.

Lemma Qltb_ge a b : Qltb a b = false <-> b <= a.
Proof.
  unfold Qltb. rewrite negb_false_iff. apply Qle_bool_iff.
Qed.

Lemma Qle_bool_lt a b : Qle_bool a b = false <-> b < a.
Proof.
  rewrite <- Qltb_lt. unfold Qltb. rewrite negb_true_iff. tauto.
Qed.

Lemma Returned_inj {A} (a b : A) : Returned a = Returned b -> a = b.
Proof. intros E. injection E as E. exact E. Qed.

(** Introduce an equation between returned outcomes and substitute it. *)
Ltac returned_inv :=
  let E := fresh "E" in
  intros E; apply Returned_inj in E;
  first [subst; reflexivity | subst | rewrite <- E | rewrite E].

(** ** OCR pipeline *)

Module OCRFacts.
Import Exec OCR.

(** The fallback engine is invoked at most once in a run. *)
Lemma process_fallback_once (self : OCRPipeline) :
  (fallback_calls (snd (run (process self))) <= 1)%nat.
Proof.
  unfold run, process, try_except, bind, call_primary, call_fallback, ret, throw,
    no_calls; simpl.
  destruct (primary_engine self 0%nat) as [r|e]; simpl.
  - destruct (Qle_bool _ _); simpl; [lia|].
    destruct (fallback_engine self) as [fb|]; simpl; [|lia].
    destruct (fb 0%nat) as [fr|fe]; simpl; [|lia].
    destruct (Qltb _ _); simpl; lia.
  - destruct (fallback_engine self) as [fb|]; simpl; [|lia].
    destruct (fb 0%nat); simpl; lia.
Qed.

(** C4. In every run of the OCR pipeline: the fallback engine is invoked
    only if the primary result is below the threshold or the primary
    invocation raised; when both engines returned a result, the fallback
    result is returned if its confidence is strictly higher and the
    primary result otherwise (so on ties); when both raised, the run
    raises one [RuntimeError] whose message carries both causes. *)
Theorem ocr_fallback_policy (self : OCRPipeline) :
  let out := fst (run (process self)) in
  let made := snd (run (process self)) in
  (fallback_calls made <> 0%nat ->
     (exists r, primary_engine self 0%nat = Returned r
                /\ confidence r < confidence_threshold self)
     \/ (exists e, primary_engine self 0%nat = Raised e))
  /\ (forall r fb fr,
        primary_engine self 0%nat = Returned r ->
        fallback_calls made <> 0%nat ->
        fallback_engine self = Some fb ->
        fb 0%nat = Returned fr ->
        (confidence r < confidence fr -> out = Returned fr)
        /\ (confidence fr <= confidence r -> out = Returned r))
  /\ (forall e fb fe,
        primary_engine self 0%nat = Raised e ->
        fallback_engine self = Some fb ->
        fb 0%nat = Raised fe ->
        out = Raised (Exn RuntimeError
                        ("Both OCR engines failed. Primary: " ++ exn_msg e
                           ++ ", Fallback: " ++ exn_msg fe))).
Proof.
  unfold run, process, try_except, bind, call_primary, call_fallback, ret, throw,
    no_calls; simpl.
  destruct (primary_engine self 0%nat) as [r|e] eqn:Hp; simpl.
  - destruct (Qle_bool (confidence_threshold self) (confidence r)) eqn:Hthr; simpl.
    + split; [congruence|]. split; [intros; congruence|intros; discriminate].
    + apply Qle_bool_lt in Hthr.
      split; [intros _; left; eauto|].
      split; [|intros; discriminate].
      intros r' fb fr Hr _ Hfb Hfr. injection Hr as <-.
      rewrite Hfb; simpl. rewrite Hfr; simpl.
      destruct (Qltb (confidence r) (confidence fr)) eqn:Hcmp; simpl.
      * apply Qltb_lt in Hcmp. split; [reflexivity|].
        intros Hc. exfalso. exact (Qlt_not_le _ _ Hcmp Hc).
      * apply Qltb_ge in Hcmp. split; [|reflexivity].
        intros Hc. exfalso. exact (Qlt_not_le _ _ Hc Hcmp).
  - split; [intros _; right; eauto|].
    split; [intros; discriminate|].
    intros e' fb fe He Hfb Hfe. injection He as <-.
    rewrite Hfb; simpl. rewrite Hfe; simpl. reflexivity.
Qed.

(** A run in which the fallback is invoked and wins. *)
Lemma ocr_fallback_policy_witness :
  fallback_calls (snd (run (process Examples.ocr_low_primary))) <> 0%nat
  /\ fst (run (process Examples.ocr_low_primary))
     = Returned (Examples.ocr_result (9#10) "tesseract").
Proof.
  split; [vm_compute; discriminate|].
  destruct (ocr_fallback_policy Examples.ocr_low_primary) as (_ & Hboth & _).
  refine (proj1 (Hboth _ _ _ eq_refl _ eq_refl eq_refl) _).
  - vm_compute; discriminate.
  - reflexivity.
Defined.

End OCRFacts.

(** ** LLM pipeline *)

Module LLMFacts.
Import Exec LLM.

(** The fallback extractor is invoked only if the primary result is
    successful with a mean confidence below the threshold, or the primary
    result is unsuccessful, or the primary invocation raised. *)
Lemma extract_fallback_only_when (self : LLMPipeline) (doc_type : string) :
  fallback_calls (snd (run (extract self doc_type))) <> 0%nat ->
  (exists r, primary self 0%nat = Returned r /\ success r = true
             /\ _average_confidence r < confidence_threshold self)
  \/ (exists r, primary self 0%nat = Returned r /\ success r = false)
  \/ (exists e, primary self 0%nat = Raised e).
Proof.
  unfold run, extract, try_except, bind, call_primary, call_fallback, ret,
    no_calls; simpl.
  destruct (primary self 0%nat) as [r|e] eqn:Hp; simpl; [|eauto].
  destruct (success r) eqn:Hs; simpl; [|eauto].
  destruct (Qle_bool (confidence_threshold self) (_average_confidence r)) eqn:Hthr;
    simpl; [congruence|].
  apply Qle_bool_lt in Hthr. intros _. left. eauto.
Qed.

(** When the primary result is successful and the invocation of the
    fallback made for it returns a successful result, the run returns a
    result whose mean confidence is at least the primary's, and the
    primary result itself unless the fallback's mean is strictly higher. *)
Lemma extract_never_worse (self : LLMPipeline) (doc_type : string) r fb fr :
  primary self 0%nat = Returned r -> success r = true ->
  fallback self = Some fb -> fb 0%nat = Returned fr -> success fr = true ->
  fallback_calls (snd (run (extract self doc_type))) <> 0%nat ->
  exists x, fst (run (extract self doc_type)) = Returned x
            /\ _average_confidence r <= _average_confidence x
            /\ (_average_confidence fr <= _average_confidence r -> x = r)
            /\ (_average_confidence r < _average_confidence fr -> x = fr).
Proof.
  intros Hp Hs Hfb Hfr Hfs.
  unfold run, extract, try_except, bind, call_primary, call_fallback, ret,
    no_calls; simpl.
  rewrite Hp; simpl. rewrite Hs; simpl.
  destruct (Qle_bool (confidence_threshold self) (_average_confidence r)) eqn:Hthr;
    simpl; [congruence|].
  destruct (use_fallback_on_low_confidence self); simpl; [|congruence].
  rewrite Hfb; simpl. rewrite Hfr; simpl. rewrite Hfs; simpl. intros _.
  destruct (Qltb (_average_confidence r) (_average_confidence fr)) eqn:Hcmp; simpl.
  - apply Qltb_lt in Hcmp. exists fr. repeat split; auto.
    + apply Qlt_le_weak; exact Hcmp.
    + intros Hc. exfalso. exact (Qlt_not_le _ _ Hcmp Hc).
  - apply Qltb_ge in Hcmp. exists r. repeat split; auto.
    + apply Qle_refl.
    + intros Hc. exfalso. exact (Qlt_not_le _ _ Hc Hcmp).
Qed.

(** C3 (not met by the code). The [try] block of
    [LLMPipeline.extract] also encloses the invocation of the fallback: when
    that invocation raises, the handler written for a failure of the primary
    invokes the fallback a second time and returns its result without
    comparing it. Here the primary result is successful with mean 1/2, the
    second answer of the fallback is successful with mean 1/10, and the run
    returns the latter. *)
Theorem extract_retry_returns_worse :
  run (extract Examples.llm_retry_pipeline "id_document")
  = (Returned (Examples.llm_result (1#10) "fallback"), Calls 1 2)
  /\ success (Examples.llm_result (1#2) "primary") = true
  /\ success (Examples.llm_result (1#10) "fallback") = true
  /\ _average_confidence (Examples.llm_result (1#10) "fallback")
     < _average_confidence (Examples.llm_result (1#2) "primary").
Proof.
  split; [vm_compute; reflexivity|].
  split; [reflexivity|]. split; [reflexivity|].
  vm_compute. reflexivity.
Qed.

End LLMFacts.

(** ** Parsing of the reply of an LLM *)

Module ParseFacts.
Import LLM.

Section Parsing.
Context {rt : PyRuntime}.

(** A reply without a JSON object: a failed result that keeps the reply. *)
Lemma parse_no_json (response doc_type : string) :
  PyStr.search_json_object response = None ->
  exists r, _parse_response response doc_type = Returned r
            /\ success r = false /\ raw_response r = response
            /\ error r = "No JSON found in response"%string.
Proof.
  intros Hs. unfold _parse_response. rewrite Hs. eexists. repeat split.
Qed.

(** A located object that does not decode: a failed result that keeps the
    reply and carries the decoder's message. *)
Lemma parse_decode_error (response doc_type json_text msg : string) :
  PyStr.search_json_object response = Some json_text ->
  json_loads json_text = Raised (Exn JSONDecodeError msg) ->
  exists r, _parse_response response doc_type = Returned r
            /\ success r = false /\ raw_response r = response
            /\ error r = ("JSON parse error: " ++ msg)%string
            /\ error r <> EmptyString.
Proof.
  intros Hs Hd. unfold _parse_response. rewrite Hs, Hd. eexists.
  repeat split. simpl. discriminate.
Qed.

(** In both cases the extractor returns that result, with its model. *)
Lemma ollama_keeps_parse_result (model response doc_type : string) r :
  _parse_response response doc_type = Returned r ->
  OllamaExtractor_extract model (Returned response) doc_type
  = with_model_used r ("ollama/" ++ model).
Proof.
  intros Hp. unfold OllamaExtractor_extract. simpl. rewrite Hp. reflexivity.
Qed.

(** A decoded object whose [fields] member is not an object: [.items()]
    raises an [AttributeError], which [_parse_response] does not catch. *)
Lemma parse_fields_not_object (response doc_type json_text : string) entries v :
  PyStr.search_json_object response = Some json_text ->
  json_loads json_text = Returned (VDict entries) ->
  assoc "fields" entries = Some v ->
  (forall d, v <> VDict d) ->
  _parse_response response doc_type = Raised (no_attribute v "items").
Proof.
  intros Hs Hd Ha Hv. unfold _parse_response. rewrite Hs, Hd. simpl.
  rewrite Ha. simpl. destruct v; try reflexivity. exfalso. eapply Hv; eauto.
Qed.

(** The extractor then answers from its handler for engine failures: the
    result is failed, and the reply is not in it. *)
Lemma ollama_fields_not_object (model response doc_type json_text : string)
    entries v :
  PyStr.search_json_object response = Some json_text ->
  json_loads json_text = Returned (VDict entries) ->
  assoc "fields" entries = Some v ->
  (forall d, v <> VDict d) ->
  let result := OllamaExtractor_extract model (Returned response) doc_type in
  success result = false /\ raw_response result = EmptyString
  /\ error result = ("Ollama error: " ++ exn_msg (no_attribute v "items"))%string.
Proof.
  intros Hs Hd Ha Hv. unfold OllamaExtractor_extract. simpl.
  rewrite (parse_fields_not_object _ _ _ _ _ Hs Hd Ha Hv). repeat split.
Qed.

End Parsing.

(** C5 (not met by the code). For the reply
    [{"fields": []}], a JSON object whose [fields] member is ill-typed,
    [_parse_response] raises an [AttributeError] instead of returning a
    failed result, and [OllamaExtractor.extract], which catches it, returns
    a failed result with a non-empty error whose [raw_response] is empty:
    the reply is not preserved. *)
Theorem ill_typed_reply_not_preserved :
  let rt := Examples.example_runtime in
  let result :=
    OllamaExtractor_extract "llama3.2" (Returned Examples.ill_typed_response)
                            "id_document" in
  PyStr.search_json_object Examples.ill_typed_response
    = Some Examples.ill_typed_response
  /\ _parse_response Examples.ill_typed_response "id_document"
     = Raised (Exn AttributeError "'list' object has no attribute 'items'")
  /\ success result = false
  /\ error result
     = "Ollama error: 'list' object has no attribute 'items'"%string
  /\ raw_response result = EmptyString
  /\ raw_response result <> Examples.ill_typed_response.
Proof.
  vm_compute. repeat split. discriminate.
Qed.

End ParseFacts.

(** ** Classification *)

Module ClassifyFacts.
Import Templates Schemas Processor Spec.

Lemma classify_nonneg (t : Template) (text : string) : 0 <= classify t text.
Proof.
  unfold classify. apply Q.min_glb; [|discriminate].
  apply Qle_shift_div_l.
  - unfold Qlt; simpl. lia.
  - rewrite Qmult_0_l. unfold Qle; simpl. lia.
Qed.

(** The scoring loop keeps its candidate while no score exceeds the best
    score so far. *)
Lemma keep_best_unchanged (text : string) (ts : list Template) best :
  (forall t, In t ts -> classify t text <= snd best) ->
  fold_left (keep_best text) ts best = best.
Proof.
  induction ts as [|t ts IH]; intros Hall; simpl; [reflexivity|].
  unfold keep_best at 2.
  destruct (Qltb (snd best) (classify t text)) eqn:E.
  - apply Qltb_lt in E. exfalso.
    apply (Qlt_not_le _ _ E). apply Hall. left; reflexivity.
  - apply IH. intros t' Ht'. apply Hall. right; exact Ht'.
Qed.

Lemma keep_best_inv (text : string) (first : Template) (rest seen : list Template) best :
  loop_inv text first seen best ->
  loop_inv text first (seen ++ rest) (fold_left (keep_best text) rest best).
Proof.
  revert seen best.
  induction rest as [|t rest IH]; intros seen best Hinv; simpl.
  - rewrite app_nil_r. exact Hinv.
  - replace (seen ++ t :: rest)%list with ((seen ++ [t]) ++ rest)%list
      by (rewrite <- app_assoc; reflexivity).
    apply IH. destruct Hinv as [Hle Hbest].
    unfold keep_best.
    destruct (Qltb (snd best) (classify t text)) eqn:E; simpl.
    + apply Qltb_lt in E. split.
      * intros t' [Ht'|[<-|[]]]%in_app_or; [|apply Qle_refl].
        apply Qlt_le_weak. eapply Qle_lt_trans; [apply Hle; exact Ht'|exact E].
      * right. exists seen, []. split; [reflexivity|]. split; [reflexivity|].
        intros t' Ht'. eapply Qle_lt_trans; [apply Hle; exact Ht'|exact E].
    + apply Qltb_ge in E. split.
      * intros t' [Ht'|[<-|[]]]%in_app_or; [apply Hle; exact Ht'|exact E].
      * destruct Hbest as [Hz|(before & after & -> & Hs & Hb)]; [left; exact Hz|].
        right. exists before, (after ++ [t])%list.
        split; [rewrite <- app_assoc; reflexivity|]. split; assumption.
Qed.

(** Without a usable hint, the loop selects the first template of maximal
    score. *)
Lemma scoring_selects_first_of_max (text : string) (first : Template)
    (others : list Template) :
  first_of_max text (first :: others)
    (fst (fold_left (keep_best text) (first :: others) (first, 0))).
Proof.
  pose proof (keep_best_inv text first (first :: others) [] (first, 0)) as Hinv.
  simpl app in Hinv.
  destruct Hinv as [Hle Hbest].
  { split; [intros t []|]. left. split; reflexivity. }
  set (best := fold_left (keep_best text) (first :: others) (first, 0)) in *.
  destruct Hbest as [[Hz Hf]|(before & after & Heq & Hs & Hb)].
  - exists [], others. rewrite Hf. split; [reflexivity|]. split.
    + intros t Ht. eapply Qle_trans; [apply Hle; exact Ht|].
      rewrite Hz. apply classify_nonneg.
    + intros t [].
  - exists before, after. split; [exact Heq|]. split.
    + intros t Ht. rewrite Hs. apply Hle; exact Ht.
    + intros t Ht. rewrite Hs. apply Hb; exact Ht.
Qed.

(** C8 (as amended). In every classification over a non-empty list of
    templates a template is selected. When a type hint is supplied and the
    category of some template matches it, the first such template is
    selected, whatever the text (no scoring). Otherwise, that is without a
    hint or with a hint that no template matches, the first template in
    registration order whose score is the maximum is selected. *)
Theorem classify_document_selection (self : DocumentProcessor) (text : string)
    (type_hint : option DocumentTypeEnum) :
  templates self <> [] ->
  exists t,
    _classify_document self text type_hint = Returned t
    /\ match type_hint with
       | Some hint =>
           match List.find (matches_hint hint) (templates self) with
           | Some m => t = m
           | None => first_of_max text (templates self) t
           end
       | None => first_of_max text (templates self) t
       end.
Proof.
  intros Hne. unfold _classify_document.
  destruct (templates self) as [|first others] eqn:Hts; [congruence|].
  pose proof (scoring_selects_first_of_max text first others) as Hscore.
  destruct type_hint as [hint|].
  - destruct (List.find (matches_hint hint) (first :: others)) as [m|].
    + exists m. split; reflexivity.
    + eexists. split; [reflexivity|exact Hscore].
  - eexists. split; [reflexivity|exact Hscore].
Qed.

(** With the hint [id_document] the registered templates give the UAN
    card template, the first of that category, on any text. *)
Lemma classify_document_selection_witness :
  let rt := Examples.example_runtime in
  templates Examples.processor <> []
  /\ _classify_document Examples.processor "official transcript"
       (Some Schemas.ID_DOCUMENT) = Returned UANCardTemplate.
Proof.
  intros rt. split; [discriminate|].
  destruct (classify_document_selection Examples.processor "official transcript"
              (Some Schemas.ID_DOCUMENT)) as (t & Ht & Hm); [discriminate|].
  rewrite Ht. simpl in Hm. rewrite Hm. reflexivity.
Defined.

(** The hint [unknown] on two texts, under any runtime. *)
Lemma unknown_hint_selection {rt : PyRuntime} :
  List.find (matches_hint Schemas.UNKNOWN) (templates Examples.processor) = None
  /\ _classify_document Examples.processor "official transcript"
       (Some Schemas.UNKNOWN) = Returned TranscriptTemplate
  /\ _classify_document Examples.processor "election commission"
       (Some Schemas.UNKNOWN) = Returned VoterIDTemplate
  /\ class_name TranscriptTemplate <> class_name VoterIDTemplate.
Proof.
  split; [reflexivity|]. split; [reflexivity|].
  split; [reflexivity|]. discriminate.
Qed.

(** C8 (as stated, refuted). The hint [unknown] is a type hint, no
    registered template has that category, and scoring is not bypassed:
    the selected template follows the text. *)
Lemma unknown_hint_is_scored :
  let rt := Examples.example_runtime in
  List.find (matches_hint Schemas.UNKNOWN) (templates Examples.processor) = None
  /\ _classify_document Examples.processor "official transcript"
       (Some Schemas.UNKNOWN) = Returned TranscriptTemplate
  /\ _classify_document Examples.processor "election commission"
       (Some Schemas.UNKNOWN) = Returned VoterIDTemplate
  /\ class_name TranscriptTemplate <> class_name VoterIDTemplate.
Proof. intros rt. exact unknown_hint_selection. Qed.

(** C10. On a text that scores zero for every registered template, and
    without a type hint, the first registered template, the UAN card
    template, is selected: the document is processed as an identity
    document, under the schema of that template, and not as an unknown
    one. *)
Theorem zero_scores_select_uan `{PyRuntime} (threshold : Q) (text : string) :
  (forall t, In t registered_templates -> classify t text == 0) ->
  _classify_document
    {| templates := registered_templates; confidence_threshold := threshold |}
    text None
  = Returned UANCardTemplate
  /\ doc_type_map (category UANCardTemplate) = Schemas.ID_DOCUMENT.
Proof.
  intros Hzero. split; [|reflexivity].
  unfold _classify_document. cbn [templates].
  change registered_templates with
    (UANCardTemplate :: tl registered_templates) at 1.
  cbv iota. rewrite keep_best_unchanged; [reflexivity|].
  intros t Ht. cbn [snd]. rewrite (Hzero t Ht). apply Qle_refl.
Qed.

(** The empty text scores zero for every registered template. *)
Lemma classify_empty_text `{PyRuntime} (t : Template) :
  In t registered_templates -> classify t EmptyString == 0.
Proof.
  intros Ht. repeat (destruct Ht as [<-|Ht]; [reflexivity|]). destruct Ht.
Qed.

(** An empty text is processed under the UAN card template. *)
Lemma zero_scores_select_uan_witness :
  let rt := Examples.example_runtime in
  (forall t, In t registered_templates -> classify t EmptyString == 0)
  /\ _classify_document
       {| templates := registered_templates; confidence_threshold := 8#10 |}
       EmptyString None
     = Returned UANCardTemplate.
Proof.
  intros rt. split; [apply classify_empty_text|].
  apply (proj1 (zero_scores_select_uan (8#10) EmptyString classify_empty_text)).
Defined.

End ClassifyFacts.

(** ** Building the response *)

Module ResponseFacts.
Import Templates Schemas Processor Spec.

Section Response.
Context {rt : PyRuntime}.

Lemma build_response_inv self doc_id file_name template llm_result ocr_result response :
  _build_response self doc_id file_name template llm_result ocr_result
    = Returned response ->
  exists data,
    post_process template (LLM.field_value <$> LLM.fields llm_result) = Returned data
    /\ 0 <= computed_overall llm_result data ocr_result <= 1
    /\ extracted_data response = data
    /\ field_confidences response = LLM.confidence <$> LLM.fields llm_result
    /\ overall_confidence response = computed_overall llm_result data ocr_result
    /\ (status response, errors response, requires_review response)
       = determine_status (confidence_threshold self) llm_result
           (validate template data) (overall_confidence response).
Proof.
  unfold _build_response. intros Hb.
  destruct (post_process template _) as [data|e] eqn:Hpp; simpl in Hb; [|discriminate].
  fold (computed_overall llm_result data ocr_result) in Hb.
  destruct (determine_status _ _ _ _) as [[st errs] review] eqn:Hst.
  unfold new_ExtractionResponse in Hb. cbn [overall_confidence] in Hb.
  destruct (Qle_bool 0 _) eqn:H0; simpl in Hb; [|discriminate].
  destruct (Qle_bool _ 1) eqn:H1; simpl in Hb; [|discriminate].
  injection Hb as <-. exists data. cbn.
  apply Qle_bool_iff in H0, H1. rewrite Hst. repeat split; assumption.
Qed.

(** [_build_response] returns whenever post-processing returns and the
    computed overall confidence is in range. *)
Lemma build_response_returns self doc_id file_name template llm_result ocr_result data :
  post_process template (LLM.field_value <$> LLM.fields llm_result) = Returned data ->
  0 <= computed_overall llm_result data ocr_result <= 1 ->
  exists response,
    _build_response self doc_id file_name template llm_result ocr_result
      = Returned response.
Proof.
  intros Hpp [H0 H1]. unfold _build_response. rewrite Hpp. simpl.
  fold (computed_overall llm_result data ocr_result).
  destruct (determine_status _ _ _ _) as [[st errs] review].
  unfold new_ExtractionResponse. cbn [overall_confidence].
  apply Qle_bool_iff in H0, H1. rewrite H0, H1. simpl. eauto.
Qed.

(** The priority of the status in every response that [_build_response]
    returns, with [validation_errors] the messages of the template's validation of the
    post-processed data: an unsuccessful LLM result gives [failed] with a
    single [LLM_ERROR]; otherwise a non-empty list of validation messages
    gives [requires_review] with one [VALIDATION_ERROR] per message;
    otherwise an overall confidence below the threshold gives
    [requires_review] with a single [LOW_CONFIDENCE]; otherwise the status
    is [completed], without errors. *)
Theorem build_response_status self doc_id file_name template llm_result ocr_result
    response :
  _build_response self doc_id file_name template llm_result ocr_result
    = Returned response ->
  exists data,
    post_process template (LLM.field_value <$> LLM.fields llm_result) = Returned data
    /\ let validation_errors := validate template data in
       (LLM.success llm_result = false ->
          status response = FAILED
          /\ map code (errors response) = ["LLM_ERROR"%string]
          /\ map message (errors response) = [LLM.error llm_result])
       /\ (LLM.success llm_result = true -> validation_errors <> [] ->
             status response = REQUIRES_REVIEW
             /\ map code (errors response)
                = map (fun _ => "VALIDATION_ERROR"%string) validation_errors
             /\ map message (errors response) = validation_errors)
       /\ (LLM.success llm_result = true -> validation_errors = [] ->
             overall_confidence response < confidence_threshold self ->
             status response = REQUIRES_REVIEW
             /\ map code (errors response) = ["LOW_CONFIDENCE"%string])
       /\ (LLM.success llm_result = true -> validation_errors = [] ->
             confidence_threshold self <= overall_confidence response ->
             status response = COMPLETED /\ errors response = []).
Proof.
  intros Hb.
  destruct (build_response_inv _ _ _ _ _ _ _ Hb)
    as (data & Hpp & _ & _ & _ & _ & Hst).
  exists data. split; [exact Hpp|]. cbv zeta.
  unfold determine_status in Hst.
  destruct (LLM.success llm_result); simpl in Hst.
  - destruct (validate template data) as [|err errs] eqn:Hval.
    + destruct (Qltb _ _) eqn:Hcmp; injection Hst as Hs He _; rewrite Hs, He.
      * apply Qltb_lt in Hcmp.
        split; [discriminate|]. split; [congruence|].
        split; [intros _ _ _; split; reflexivity|].
        intros _ _ Hge. exfalso. exact (Qlt_not_le _ _ Hcmp Hge).
      * apply Qltb_ge in Hcmp.
        split; [discriminate|]. split; [congruence|].
        split; [|intros _ _ _; split; reflexivity].
        intros _ _ Hlt. exfalso. exact (Qlt_not_le _ _ Hlt Hcmp).
    + injection Hst as Hs He _; rewrite Hs, He.
      split; [discriminate|].
      split; [|split; intros _ Hnil; discriminate Hnil].
      intros _ _. split; [reflexivity|].
      simpl. rewrite !map_map. simpl. split; [reflexivity|].
      f_equal. apply map_id.
  - injection Hst as Hs He _; rewrite Hs, He.
    split; [intros _; repeat split|].
    repeat split; discriminate.
Qed.

(** The fields counted by the code are the ones of the specification. *)
Lemma non_null_counted (fields : gmap string LLM.ExtractedField)
    (data : gmap string value) :
  non_null_confidences (LLM.confidence <$> fields) data
  = counted_confidences fields data.
Proof.
  unfold non_null_confidences, counted_confidences.
  rewrite map_to_list_fmap.
  induction (map_to_list fields) as [|[k f] l IH]; [reflexivity|].
  cbn [fmap list_fmap List.filter prod_map fst snd id].
  change (list_fmap _ _ (prod_map id LLM.confidence) l)
    with (prod_map id LLM.confidence <$> l).
  unfold has_value at 1.
  destruct (data !! k) as [[]|]; simpl; rewrite ?IH; reflexivity.
Qed.

Lemma computed_overall_spec (llm_result : LLM.ExtractionResult)
    (data : gmap string value) (ocr_result : option OCR.OCRResult) :
  computed_overall llm_result data ocr_result
  = spec_overall_confidence (LLM.fields llm_result) data
      (OCR.confidence <$> ocr_result).
Proof.
  unfold computed_overall, spec_overall_confidence. rewrite non_null_counted.
  destruct ocr_result; reflexivity.
Qed.

Lemma counted_confidences_empty (fields : gmap string LLM.ExtractedField) :
  counted_confidences fields ∅ = [].
Proof.
  unfold counted_confidences.
  induction (map_to_list fields) as [|[k f] l IH]; [reflexivity|].
  simpl. rewrite lookup_empty. exact IH.
Qed.

End Response.

(** A name found at 9/10 under the ID document template: two required
    fields are missing, and the response asks for a review. *)
Lemma build_response_status_witness :
  let rt := Examples.example_runtime in
  exists response,
    _build_response Examples.processor "doc-1" "id.png" IDDocumentTemplate
      Examples.name_only None = Returned response
    /\ status response = REQUIRES_REVIEW
    /\ map code (errors response)
       = ["VALIDATION_ERROR"; "VALIDATION_ERROR"]%string.
Proof.
  intros rt.
  destruct (_build_response Examples.processor "doc-1" "id.png" IDDocumentTemplate
              Examples.name_only None) as [response|e] eqn:Hb;
    [|vm_compute in Hb; discriminate].
  exists response. split; [reflexivity|].
  destruct (build_response_status _ _ _ _ _ _ _ Hb) as (data & Hpp & _ & Hval & _).
  apply Returned_inj in Hpp. subst data.
  destruct Hval as (Hs & Hc & _); [reflexivity|vm_compute; discriminate|].
  split; [exact Hs|]. rewrite Hc. vm_compute. reflexivity.
Defined.

End ResponseFacts.

(** ** Field names across post-processing *)

Module FieldFacts.
Import Templates Schemas Processor.

Section Fields.
Context {rt : PyRuntime}.

Lemma present_and_truthy_dom (m : gmap string value) (k : string) :
  present_and_truthy m k = true -> k ∈ dom m.
Proof.
  unfold present_and_truthy. intros Hp. apply elem_of_dom.
  destruct (m !! k); [eauto|discriminate].
Qed.

Lemma dom_overwrite (m : gmap string value) (k : string) (v : value) :
  present_and_truthy m k = true -> dom (<[k := v]> m) = dom m.
Proof.
  intros Hp%present_and_truthy_dom. rewrite dom_insert_L. set_solver.
Qed.

Lemma normalize_name_dom (k : string) (m m' : gmap string value) :
  normalize_name k m = Returned m' -> dom m' = dom m.
Proof.
  unfold normalize_name.
  destruct (present_and_truthy m k) eqn:Hp; [|returned_inv; reflexivity].
  destruct (py_strip _); simpl; [|discriminate].
  returned_inv. apply dom_overwrite; exact Hp.
Qed.

Lemma normalize_gender_dom (males females : list string) (m : gmap string value) :
  dom (normalize_gender males females m) = dom m.
Proof.
  unfold normalize_gender.
  destruct (present_and_truthy m "gender") eqn:Hp; [|reflexivity].
  destruct (existsb _ males); [apply dom_overwrite; exact Hp|].
  destruct (existsb _ females); [apply dom_overwrite; exact Hp|reflexivity].
Qed.

Lemma combine_names_dom (m : gmap string value) :
  dom m ⊆ dom (combine_names m)
  /\ dom (combine_names m) ⊆ dom m ∪ {["full_name"%string]}.
Proof.
  unfold combine_names.
  destruct (negb _); [|set_solver].
  destruct (_ || _); [|set_solver].
  rewrite dom_insert_L. set_solver.
Qed.

Lemma format_aadhaar_dom (m : gmap string value) : dom (format_aadhaar m) = dom m.
Proof.
  unfold format_aadhaar.
  destruct (present_and_truthy m "aadhaar_number") eqn:Hp; [|reflexivity].
  destruct (_ && _); [apply dom_overwrite; exact Hp|reflexivity].
Qed.

Lemma format_uan_dom (m : gmap string value) : dom (format_uan m) = dom m.
Proof.
  unfold format_uan.
  destruct (present_and_truthy m "uan_number") eqn:Hp; [|reflexivity].
  destruct (PyStr.isdigit _); [apply dom_overwrite; exact Hp|reflexivity].
Qed.

Lemma normalize_gpa_dom (m m' : gmap string value) :
  normalize_gpa m = Returned m' -> dom m' = dom m.
Proof.
  unfold normalize_gpa.
  destruct (present_and_truthy m "gpa") eqn:Hp; [|returned_inv; reflexivity].
  destruct (PyStr.search_number _); [|returned_inv; reflexivity].
  destruct (float_of_str _); [|discriminate].
  returned_inv. apply dom_overwrite; exact Hp.
Qed.

Lemma clean_title_dom (m m' : gmap string value) :
  clean_title m = Returned m' -> dom m' = dom m.
Proof.
  unfold clean_title.
  destruct (present_and_truthy m "certificate_title") eqn:Hp;
    [|returned_inv; reflexivity].
  destruct (py_strip _); simpl; [|discriminate].
  returned_inv. apply dom_overwrite; exact Hp.
Qed.

(** Post-processing by a registered template keeps every field name, and
    adds none, except [full_name] under the ID document template. *)
Lemma post_process_dom (t : Template) (d d' : gmap string value) :
  In t registered_templates ->
  post_process t d = Returned d' ->
  dom d ⊆ dom d'
  /\ dom d' ⊆ dom d ∪ {["full_name"%string]}
  /\ (t <> IDDocumentTemplate -> dom d' = dom d).
Proof.
  intros Ht.
  repeat (destruct Ht as [<-|Ht]); try destruct Ht;
    cbn [post_process UANCardTemplate AadhaarCardTemplate PANCardTemplate
         VoterIDTemplate DrivingLicenseTemplate TranscriptTemplate
         IDDocumentTemplate CertificateTemplate base_post_process].
  - unfold UAN_post_process.
    destruct (normalize_name _ d) as [p|] eqn:Hn; simpl; [|discriminate].
    returned_inv. apply normalize_name_dom in Hn.
    rewrite format_uan_dom, Hn. set_solver.
  - unfold Aadhaar_post_process. returned_inv.
    rewrite normalize_gender_dom, format_aadhaar_dom. set_solver.
  - unfold PAN_post_process.
    destruct (present_and_truthy d "pan_number") eqn:Hp;
      returned_inv; rewrite ?dom_overwrite by exact Hp; set_solver.
  - returned_inv. set_solver.
  - returned_inv. set_solver.
  - unfold Transcript_post_process.
    destruct (normalize_gpa d) as [p|] eqn:Hg; simpl; [|discriminate].
    intros Hn%normalize_name_dom. apply normalize_gpa_dom in Hg.
    rewrite Hn, Hg. set_solver.
  - unfold IDDocument_post_process.
    destruct (normalize_name _ (combine_names d)) as [p1|] eqn:H1; simpl; [|discriminate].
    destruct (normalize_name _ p1) as [p2|] eqn:H2; simpl; [|discriminate].
    destruct (normalize_name _ p2) as [p3|] eqn:H3; simpl; [|discriminate].
    returned_inv.
    apply normalize_name_dom in H1, H2, H3.
    rewrite normalize_gender_dom, H3, H2, H1.
    destruct (combine_names_dom d) as [Ha Hb].
    split; [exact Ha|]. split; [exact Hb|]. congruence.
  - unfold Certificate_post_process.
    destruct (normalize_name _ d) as [p|] eqn:Hn; simpl; [|discriminate].
    intros Hc%clean_title_dom. apply normalize_name_dom in Hn.
    rewrite Hc, Hn. set_solver.
Qed.

End Fields.

End FieldFacts.

(** ** Fields and confidences of a response *)

Module InvariantFacts.
Import Templates Schemas Processor FieldFacts ResponseFacts.

(** C6 (as amended). In every response built from an LLM result under a
    registered template, [field_confidences] has exactly the field names
    of the LLM result, each with the confidence that the LLM reported,
    unclamped; every one of these names is present in [extracted_data];
    and [extracted_data] has no other name, except [full_name], which the
    ID document template may add. *)
Theorem response_fields_have_reported_confidences {rt : PyRuntime} self doc_id
    file_name template llm_result ocr_result response :
  In template registered_templates ->
  _build_response self doc_id file_name template llm_result ocr_result
    = Returned response ->
  (forall k, field_confidences response !! k
             = LLM.confidence <$> (LLM.fields llm_result !! k))
  /\ dom (field_confidences response) ⊆ dom (extracted_data response)
  /\ dom (extracted_data response)
       ⊆ dom (field_confidences response) ∪ {["full_name"%string]}
  /\ (template <> IDDocumentTemplate ->
      dom (extracted_data response) = dom (field_confidences response)).
Proof.
  intros Ht Hb.
  destruct (build_response_inv _ _ _ _ _ _ _ Hb)
    as (data & Hpp & _ & Hdata & Hconf & _).
  destruct (post_process_dom _ _ _ Ht Hpp) as (Hsub & Hsup & Heq).
  rewrite dom_fmap_L in Hsub, Hsup, Heq.
  rewrite Hdata, Hconf, dom_fmap_L.
  split; [intros k; apply lookup_fmap|]. auto.
Qed.

(** The response of the example: the names of the LLM result, and the
    [full_name] that the ID document template made of [first_name]. *)
Lemma response_fields_have_reported_confidences_witness :
  let rt := Examples.example_runtime in
  exists response,
    _build_response Examples.processor "doc-1" "id.png" IDDocumentTemplate
      Examples.first_name_and_null None = Returned response
    /\ dom (field_confidences response) ⊆ dom (extracted_data response).
Proof.
  intros rt.
  destruct (_build_response Examples.processor "doc-1" "id.png" IDDocumentTemplate
              Examples.first_name_and_null None) as [response|e] eqn:Hb;
    [|vm_compute in Hb; discriminate].
  exists response. split; [reflexivity|].
  refine (proj1 (proj2
    (response_fields_have_reported_confidences _ _ _ _ _ _ _ _ Hb))).
  do 6 right. left. reflexivity.
Defined.

(** The response built for a reply that gives [first_name] at 9/10 and
    a null [nickname] with the confidence 7, under any runtime. *)
Lemma unchecked_response {rt : PyRuntime} :
  exists response,
    _build_response Examples.processor "doc-1" "id.png" IDDocumentTemplate
      Examples.first_name_and_null None = Returned response
    /\ extracted_data response !! "full_name"%string = Some (VStr "Ada")
    /\ field_confidences response !! "full_name"%string = None
    /\ field_confidences response !! "nickname"%string = Some 7
    /\ ~ (7 <= 1).
Proof.
  eexists. split; [vm_compute; reflexivity|].
  split; [vm_compute; reflexivity|]. split; [vm_compute; reflexivity|].
  split; [vm_compute; reflexivity|]. intros Hle. vm_compute in Hle. apply Hle.
  reflexivity.
Qed.

(** C6 (as stated, refuted). The reply gives [first_name] at 9/10 and a
    null [nickname] with the confidence 7. The response is built (its
    overall confidence is 9/10): [extracted_data] has a [full_name], made
    of [first_name], that has no entry in [field_confidences], and the
    confidence of [nickname] is 7, outside [0,1]. *)
Lemma response_confidences_unchecked :
  let rt := Examples.example_runtime in
  exists response,
    _build_response Examples.processor "doc-1" "id.png" IDDocumentTemplate
      Examples.first_name_and_null None = Returned response
    /\ extracted_data response !! "full_name"%string = Some (VStr "Ada")
    /\ field_confidences response !! "full_name"%string = None
    /\ field_confidences response !! "nickname"%string = Some 7
    /\ ~ (7 <= 1).
Proof. intros rt. exact unchecked_response. Qed.

End InvariantFacts.

(** ** Documents whose fields are all null *)

Module NullFacts.
Import Templates Schemas Processor Spec ResponseFacts.

Section Null.
Context {rt : PyRuntime}.
Variable data : gmap string value.
Hypothesis Hnull : all_null data.

Lemma all_null_lookup (k : string) (default : value) :
  from_option id default (data !! k) = VNone \/ data !! k = None.
Proof.
  destruct (data !! k) as [v|] eqn:E; [left|right; reflexivity].
  rewrite (Hnull _ _ E). reflexivity.
Qed.

Lemma all_null_not_truthy (k : string) : present_and_truthy data k = false.
Proof.
  unfold present_and_truthy.
  destruct (data !! k) as [v|] eqn:E; [|reflexivity].
  rewrite (Hnull _ _ E). reflexivity.
Qed.

Lemma all_null_normalize_name (k : string) : normalize_name k data = Returned data.
Proof. unfold normalize_name. rewrite all_null_not_truthy. reflexivity. Qed.

Lemma all_null_normalize_gender (males females : list string) :
  normalize_gender males females data = data.
Proof. unfold normalize_gender. rewrite all_null_not_truthy. reflexivity. Qed.

Lemma all_null_combine_names : combine_names data = data.
Proof.
  unfold combine_names.
  destruct (all_null_lookup "first_name" (VStr "")) as [-> | ->];
    destruct (all_null_lookup "last_name" (VStr "")) as [-> | ->];
    simpl; destruct (negb _); reflexivity.
Qed.

(** Post-processing by a registered template changes nothing. *)
Lemma all_null_post_process (t : Template) :
  In t registered_templates -> post_process t data = Returned data.
Proof.
  intros Ht.
  repeat (destruct Ht as [<-|Ht]); try destruct Ht;
    cbn [post_process UANCardTemplate AadhaarCardTemplate PANCardTemplate
         VoterIDTemplate DrivingLicenseTemplate TranscriptTemplate
         IDDocumentTemplate CertificateTemplate base_post_process];
    try reflexivity.
  - unfold UAN_post_process, format_uan.
    rewrite all_null_normalize_name; simpl. rewrite all_null_not_truthy. reflexivity.
  - unfold Aadhaar_post_process, format_aadhaar.
    rewrite all_null_not_truthy, all_null_normalize_gender. reflexivity.
  - unfold PAN_post_process. rewrite all_null_not_truthy. reflexivity.
  - unfold Transcript_post_process, normalize_gpa.
    rewrite all_null_not_truthy; simpl. apply all_null_normalize_name.
  - unfold IDDocument_post_process.
    rewrite all_null_combine_names.
    rewrite all_null_normalize_name; cbn [obind].
    rewrite all_null_normalize_name; cbn [obind].
    rewrite all_null_normalize_name; cbn [obind].
    rewrite all_null_normalize_gender. reflexivity.
  - unfold Certificate_post_process, clean_title.
    rewrite all_null_normalize_name; simpl. rewrite all_null_not_truthy. reflexivity.
Qed.

(** Validation reports every required field, and nothing else. *)
Lemma all_null_validate (t : Template) :
  validate t data = map missing_message (List.filter required (field_definitions t)).
Proof.
  unfold validate.
  induction (field_definitions t) as [|field_def defs IH]; [reflexivity|].
  cbn [flat_map List.filter]. rewrite IH. unfold validate_field.
  assert (Hv : from_option id VNone (data !! name field_def) = VNone).
  { destruct (all_null_lookup (name field_def) VNone) as [E|E]; [exact E|].
    rewrite E. reflexivity. }
  rewrite Hv. simpl. destruct (required field_def); reflexivity.
Qed.

(** No confidence is counted. *)
Lemma all_null_non_null_confidences (confidences : gmap string Q) :
  non_null_confidences confidences data = [].
Proof.
  unfold non_null_confidences.
  induction (map_to_list confidences) as [|[k c] l IH]; [reflexivity|].
  cbn [List.filter fst]. unfold has_value at 1.
  destruct (data !! k) as [v|] eqn:E; [rewrite (Hnull _ _ E)|]; exact IH.
Qed.

End Null.

Lemma adjust_zero (ocr_result : option OCR.OCRResult) :
  adjust_for_ocr ocr_result 0 == 0.
Proof.
  destruct ocr_result as [o|]; simpl; [|reflexivity].
  destruct (Qltb _ _); [apply Qmult_0_l|reflexivity].
Qed.

(** Every registered template declares a required field. *)
Lemma registered_templates_require {rt : PyRuntime} (t : Template) :
  In t registered_templates ->
  List.filter required (field_definitions t) <> [].
Proof.
  intros Ht.
  repeat (destruct Ht as [<-|Ht]); try destruct Ht; discriminate.
Qed.

(** C9 (as amended). For every document under a registered template
    whose LLM extraction succeeds and returns only null-valued fields, the
    response is built, its overall confidence is 0 and its status is
    [requires_review]; its errors are [VALIDATION_ERROR]s, one for each
    required field of the template (there is at least one), and no
    [LOW_CONFIDENCE]. *)
Theorem all_null_fields_fail_validation {rt : PyRuntime} self doc_id file_name
    template llm_result ocr_result :
  In template registered_templates ->
  LLM.success llm_result = true ->
  (forall k f, LLM.fields llm_result !! k = Some f -> LLM.field_value f = VNone) ->
  exists response,
    _build_response self doc_id file_name template llm_result ocr_result
      = Returned response
    /\ overall_confidence response == 0
    /\ status response = REQUIRES_REVIEW
    /\ errors response <> []
    /\ map code (errors response)
       = map (fun _ => "VALIDATION_ERROR"%string)
             (List.filter required (field_definitions template))
    /\ map message (errors response)
       = map missing_message (List.filter required (field_definitions template)).
Proof.
  intros Ht Hs Hvalues.
  set (data := LLM.field_value <$> LLM.fields llm_result).
  assert (Hnull : all_null data).
  { intros k v. unfold data. rewrite lookup_fmap.
    destruct (LLM.fields llm_result !! k) as [f|] eqn:E; simpl; [|discriminate].
    intros Hv. injection Hv as <-. apply (Hvalues _ _ E). }
  pose proof (all_null_post_process data Hnull template Ht) as Hpp.
  assert (Hov : computed_overall llm_result data ocr_result == 0).
  { unfold computed_overall.
    rewrite (all_null_non_null_confidences data Hnull). apply adjust_zero. }
  destruct (build_response_returns self doc_id file_name template llm_result
              ocr_result data Hpp) as [response Hb].
  { rewrite Hov. split; discriminate. }
  exists response. split; [exact Hb|].
  destruct (build_response_inv _ _ _ _ _ _ _ Hb)
    as (data' & Hpp' & _ & _ & _ & Hov' & Hst).
  fold data in Hpp'. rewrite Hpp in Hpp'. apply Returned_inj in Hpp'. subst data'.
  split; [rewrite Hov'; exact Hov|].
  rewrite (all_null_validate data Hnull) in Hst.
  pose proof (registered_templates_require template Ht) as Hreq.
  unfold determine_status in Hst. rewrite Hs in Hst. cbn [negb] in Hst.
  destruct (List.filter required (field_definitions template)) as [|fd0 fds];
    [congruence|].
  cbv iota in Hst. injection Hst as Hstatus Herrors _.
  rewrite Hstatus, Herrors. split; [reflexivity|].
  split; [discriminate|].
  cbn [map]. rewrite !map_map. split; reflexivity.
Qed.

(** A UAN card document whose two extracted fields are null. *)
Lemma all_null_fields_fail_validation_witness :
  let rt := Examples.example_runtime in
  exists response,
    _build_response Examples.processor "doc-1" "scan.png" UANCardTemplate
      Examples.all_null None = Returned response
    /\ status response = REQUIRES_REVIEW.
Proof.
  intros rt.
  destruct (all_null_fields_fail_validation Examples.processor "doc-1" "scan.png"
              UANCardTemplate Examples.all_null None)
    as (response & Hb & _ & Hs & _).
  - left. reflexivity.
  - reflexivity.
  - intros k f. unfold Examples.all_null. cbn [LLM.fields].
    intros Hk. apply lookup_insert_Some in Hk as [[_ <-]|[_ Hk]]; [reflexivity|].
    apply lookup_singleton_Some in Hk as [_ <-]. reflexivity.
  - exists response. split; assumption.
Defined.

(** The response built for a UAN card document whose two extracted
    fields are null, under any runtime. *)
Lemma all_null_response {rt : PyRuntime} :
  exists response,
    _build_response Examples.processor "doc-1" "scan.png" UANCardTemplate
      Examples.all_null None = Returned response
    /\ status response = REQUIRES_REVIEW
    /\ overall_confidence response == 0
    /\ map code (errors response)
       = ["VALIDATION_ERROR"; "VALIDATION_ERROR"; "VALIDATION_ERROR"]%string
    /\ ~ In "LOW_CONFIDENCE"%string (map code (errors response)).
Proof.
  eexists. split; [vm_compute; reflexivity|].
  split; [reflexivity|]. split; [reflexivity|]. split; [reflexivity|].
  cbn. intros [E|[E|[E|[]]]]; discriminate.
Qed.

(** C9 (as stated, refuted). The same document: its response has status
    [requires_review] and overall confidence 0, and its three errors are
    [VALIDATION_ERROR]s for the three required fields of the UAN card
    template; there is no [LOW_CONFIDENCE] error. *)
Lemma all_null_no_low_confidence :
  let rt := Examples.example_runtime in
  exists response,
    _build_response Examples.processor "doc-1" "scan.png" UANCardTemplate
      Examples.all_null None = Returned response
    /\ status response = REQUIRES_REVIEW
    /\ overall_confidence response == 0
    /\ map code (errors response)
       = ["VALIDATION_ERROR"; "VALIDATION_ERROR"; "VALIDATION_ERROR"]%string
    /\ ~ In "LOW_CONFIDENCE"%string (map code (errors response)).
Proof. intros rt. exact all_null_response. Qed.

End NullFacts.

(** ** Python strings *)

Module StrFacts.
Import PyStr.

(** Case analysis on the 256 characters. *)
Ltac by_cases_on_char c :=
  destruct c as [[] [] [] [] [] [] [] []]; vm_compute; try reflexivity; try discriminate.

Lemma to_upper_idem c : to_upper (to_upper c) = to_upper c.
Proof. by_cases_on_char c. Qed.

Lemma to_lower_idem c : to_lower (to_lower c) = to_lower c.
Proof. by_cases_on_char c. Qed.

Lemma isspace_to_upper c : isspace (to_upper c) = isspace c.
Proof. by_cases_on_char c. Qed.

Lemma isspace_to_lower c : isspace (to_lower c) = isspace c.
Proof. by_cases_on_char c. Qed.

Lemma iscased_to_upper c : iscased (to_upper c) = iscased c.
Proof. by_cases_on_char c. Qed.

Lemma iscased_to_lower c : iscased (to_lower c) = iscased c.
Proof. by_cases_on_char c. Qed.

Lemma cased_not_space c : iscased c = true -> isspace c = false.
Proof. by_cases_on_char c. Qed.

Lemma digit_not_space c : isdigit_char c = true -> Ascii.eqb c " " = false.
Proof. by_cases_on_char c. Qed.

Lemma digit_not_dash c : isdigit_char c = true -> Ascii.eqb c "-" = false.
Proof. by_cases_on_char c. Qed.

(** *** [strip] *)

Lemma lstrip_idem s : lstrip (lstrip s) = lstrip s.
Proof.
  induction s as [|c s IH]; [reflexivity|]. simpl.
  destruct (isspace c) eqn:E; [exact IH|]. simpl. rewrite E. reflexivity.
Qed.

Lemma rstrip_idem s : rstrip (rstrip s) = rstrip s.
Proof.
  induction s as [|c s IH]; [reflexivity|]. simpl.
  destruct (rstrip s) as [|c' r] eqn:Er.
  - destruct (isspace c) eqn:E; [reflexivity|]. simpl. rewrite E. reflexivity.
  - cbn [rstrip]. cbn [rstrip] in IH. rewrite IH. reflexivity.
Qed.

Lemma lstrip_rstrip s : lstrip (rstrip s) = rstrip (lstrip s).
Proof.
  induction s as [|c s IH]; [reflexivity|].
  cbn [lstrip rstrip].
  destruct (isspace c) eqn:E.
  - rewrite <- IH. destruct (rstrip s) as [|c' r]; [reflexivity|].
    cbn [lstrip]. rewrite E. reflexivity.
  - cbn [rstrip]. destruct (rstrip s) as [|c' r]; cbn [lstrip]; rewrite E; reflexivity.
Qed.

Lemma strip_idem s : strip (strip s) = strip s.
Proof.
  unfold strip. rewrite lstrip_rstrip, rstrip_idem, lstrip_idem. reflexivity.
Qed.

(** *** [upper] *)

Lemma upper_idem s : upper (upper s) = upper s.
Proof.
  induction s as [|c s IH]; [reflexivity|].
  unfold upper in *. simpl. rewrite to_upper_idem, IH. reflexivity.
Qed.

Lemma lstrip_upper s : lstrip (upper s) = upper (lstrip s).
Proof.
  induction s as [|c s IH]; [reflexivity|].
  unfold upper in *. simpl. rewrite isspace_to_upper.
  destruct (isspace c); [exact IH|reflexivity].
Qed.

Lemma rstrip_upper s : rstrip (upper s) = upper (rstrip s).
Proof.
  induction s as [|c s IH]; [reflexivity|].
  unfold upper in *. simpl. rewrite IH, isspace_to_upper.
  destruct (rstrip s); simpl; [destruct (isspace c)|]; reflexivity.
Qed.

Lemma strip_upper s : strip (upper s) = upper (strip s).
Proof. unfold strip. rewrite lstrip_upper, rstrip_upper. reflexivity. Qed.

(** [s.upper().strip()] is a fixed point of itself. *)
Lemma strip_upper_idem s : strip (upper (strip (upper s))) = strip (upper s).
Proof.
  rewrite (strip_upper s), upper_idem, strip_upper, strip_idem. reflexivity.
Qed.

(** *** [title] *)

Lemma title_from_idem b s : title_from b (title_from b s) = title_from b s.
Proof.
  revert b. induction s as [|c s IH]; intros b; [reflexivity|].
  cbn [title_from]. destruct (iscased c) eqn:E; cbn [title_from].
  - destruct b.
    + rewrite iscased_to_lower, E, to_lower_idem, IH. reflexivity.
    + rewrite iscased_to_upper, E, to_upper_idem, IH. reflexivity.
  - rewrite E, IH. reflexivity.
Qed.

Lemma title_idem s : title (title s) = title s.
Proof. apply title_from_idem. Qed.

Lemma lstrip_title s : lstrip (title s) = title (lstrip s).
Proof.
  unfold title. induction s as [|c s IH]; [reflexivity|].
  cbn [title_from lstrip].
  destruct (iscased c) eqn:E.
  - rewrite (cased_not_space c E). cbn [lstrip title_from].
    rewrite isspace_to_upper, (cased_not_space c E), E. reflexivity.
  - cbn [lstrip]. destruct (isspace c); [exact IH|].
    cbn [title_from]. rewrite E. reflexivity.
Qed.

Lemma rstrip_title_from b s : rstrip (title_from b s) = title_from b (rstrip s).
Proof.
  revert b. induction s as [|c s IH]; intros b; [reflexivity|].
  cbn [title_from rstrip].
  destruct (iscased c) eqn:E.
  - cbn [rstrip]. rewrite IH.
    destruct (rstrip s) as [|c' r]; cbn [title_from].
    + rewrite (cased_not_space c E).
      destruct b; rewrite ?isspace_to_lower, ?isspace_to_upper,
        (cased_not_space c E); cbn [title_from]; rewrite E; reflexivity.
    + rewrite E. destruct (iscased c'); reflexivity.
  - cbn [rstrip]. rewrite IH.
    destruct (rstrip s) as [|c' r]; cbn [title_from].
    + destruct (isspace c); cbn [title_from]; rewrite ?E; reflexivity.
    + rewrite E. destruct (iscased c'); reflexivity.
Qed.

Lemma strip_title s : strip (title s) = title (strip s).
Proof. unfold strip. rewrite lstrip_title. apply rstrip_title_from. Qed.

(** [s.strip().title()] is a fixed point of itself. *)
Lemma strip_title_idem s : title (strip (title (strip s))) = title (strip s).
Proof. rewrite strip_title, strip_idem, title_idem. reflexivity. Qed.

(** *** Digits *)

Lemma remove_digits (c : ascii) (s : string) :
  (forall d, isdigit_char d = true -> Ascii.eqb d c = false) ->
  all_digits s = true -> remove c s = s.
Proof.
  intros Hc. induction s as [|d s IH]; [reflexivity|]. simpl.
  intros [Hd Hs]%andb_true_iff. rewrite (Hc d Hd), (IH Hs). reflexivity.
Qed.

Lemma isdigit_all_digits s : isdigit s = true -> all_digits s = true.
Proof. destruct s; [discriminate|]. intros E; exact E. Qed.

Lemma append_cons (c : ascii) (s t : string) :
  (String c s ++ t)%string = String c (s ++ t)%string.
Proof. reflexivity. Qed.

Lemma append_empty (t : string) : (EmptyString ++ t)%string = t.
Proof. reflexivity. Qed.

Lemma remove_app (c : ascii) (s1 s2 : string) :
  remove c (s1 ++ s2) = (remove c s1 ++ remove c s2)%string.
Proof.
  induction s1 as [|d s1 IH]; [reflexivity|].
  rewrite append_cons. cbn [remove].
  destruct (Ascii.eqb d c); [exact IH|]. rewrite append_cons, IH. reflexivity.
Qed.

Lemma take_drop (n : nat) (s : string) : (take n s ++ drop n s)%string = s.
Proof.
  revert s. induction n as [|n IH]; intros [|c s]; try reflexivity.
  cbn [take drop]. rewrite append_cons, IH. reflexivity.
Qed.

Lemma drop_drop (n m : nat) (s : string) : drop n (drop m s) = drop (m + n) s.
Proof.
  revert s. induction m as [|m IH]; intros s; [reflexivity|].
  destruct s as [|c s]; [destruct n; reflexivity|]. simpl. apply IH.
Qed.

Lemma all_digits_take (n : nat) (s : string) :
  all_digits s = true -> all_digits (take n s) = true.
Proof.
  revert s. induction n as [|n IH]; intros [|c s]; try reflexivity.
  simpl. intros [Hc Hs]%andb_true_iff. rewrite Hc, (IH _ Hs). reflexivity.
Qed.

Lemma all_digits_drop (n : nat) (s : string) :
  all_digits s = true -> all_digits (drop n s) = true.
Proof.
  revert s. induction n as [|n IH]; intros [|c s]; try (intros E; exact E).
  simpl. intros [_ Hs]%andb_true_iff. apply IH; exact Hs.
Qed.

(** Removing the separators of a formatted Aadhaar number gives the
    digits back. *)
Lemma aadhaar_digits_back (a : string) :
  all_digits a = true ->
  remove "-" (remove " " (take 4 a ++ " " ++ slice 4 8 a ++ " " ++ drop 8 a))
  = a.
Proof.
  intros Ha. unfold slice.
  change (8 - 4)%nat with 4%nat. change 8%nat with (4 + 4)%nat.
  rewrite <- drop_drop.
  assert (Hs : forall s, all_digits s = true -> remove "-" (remove " " s) = s).
  { intros s Hs.
    rewrite (remove_digits " " s digit_not_space Hs).
    apply (remove_digits "-" s digit_not_dash Hs). }
  rewrite !remove_app. change (remove "-" (remove " " " ")) with EmptyString.
  rewrite !append_empty.
  rewrite !Hs; auto using all_digits_take, all_digits_drop.
  rewrite take_drop. apply take_drop.
Qed.

(** *** Blank strings *)

Lemma title_from_empty b s : title_from b s = EmptyString -> s = EmptyString.
Proof. destruct s as [|c s]; [reflexivity|]. simpl. destruct (iscased c); discriminate. Qed.

Lemma lstrip_head s c r : lstrip s = String c r -> isspace c = false.
Proof.
  induction s as [|d s IH]; [discriminate|]. simpl.
  destruct (isspace d) eqn:E; [exact IH|]. intros H. injection H as <- _. exact E.
Qed.

Lemma strip_empty s : strip s = EmptyString -> lstrip s = EmptyString.
Proof.
  unfold strip. destruct (lstrip s) as [|c r] eqn:E; [reflexivity|].
  apply lstrip_head in E. simpl. rewrite E. destruct (rstrip r); discriminate.
Qed.

Lemma lstrip_empty_strip s : lstrip s = EmptyString -> strip s = EmptyString.
Proof. unfold strip. intros ->. reflexivity. Qed.

Lemma lstrip_app_empty (a b : string) :
  lstrip (a ++ b) = EmptyString -> lstrip a = EmptyString /\ lstrip b = EmptyString.
Proof.
  induction a as [|c a IH]; [intros E; split; [reflexivity|exact E]|].
  rewrite append_cons. simpl. destruct (isspace c); [exact IH|discriminate].
Qed.

(** A blank concatenation has blank parts. *)
Lemma strip_app_empty (a b : string) :
  strip (a ++ b) = EmptyString -> strip a = EmptyString /\ strip b = EmptyString.
Proof.
  intros [Ha Hb]%strip_empty%lstrip_app_empty.
  split; apply lstrip_empty_strip; assumption.
Qed.

End StrFacts.

(** ** Idempotence of post-processing *)

Module IdempotenceFacts.
Import PyStr Templates Spec StrFacts.

(** *** Updates of one key *)

Lemma alter_alter (f g : value -> value) (k : string) (m : gmap string value) :
  alter f k (alter g k m) = alter (fun v => f (g v)) k m.
Proof.
  apply map_eq; intros j.
  destruct (decide (k = j)) as [->|Hne].
  - rewrite !lookup_alter_eq. destruct (m !! j); reflexivity.
  - rewrite !lookup_alter_ne by exact Hne. reflexivity.
Qed.

Lemma alter_swap (f g : value -> value) (k j : string) (m : gmap string value) :
  k <> j -> alter f k (alter g j m) = alter g j (alter f k m).
Proof.
  intros Hne. apply map_eq; intros i.
  destruct (decide (k = i)) as [->|Hk]; destruct (decide (j = i)) as [->|Hj];
    try congruence;
    repeat first [rewrite lookup_alter_eq | rewrite lookup_alter_ne by congruence];
    reflexivity.
Qed.

Lemma alter_same (f g : value -> value) (k : string) (m : gmap string value) :
  (forall v, f v = g v) -> alter f k m = alter g k m.
Proof.
  intros Hfg. apply map_eq; intros j.
  destruct (decide (k = j)) as [->|Hne].
  - rewrite !lookup_alter_eq. destruct (m !! j); simpl; [rewrite Hfg|]; reflexivity.
  - rewrite !lookup_alter_ne by exact Hne. reflexivity.
Qed.

Lemma alter_at (f : value -> value) (k : string) (m : gmap string value) v :
  m !! k = Some v -> alter f k m = <[k := f v]> m.
Proof.
  intros Ek. apply map_eq; intros j.
  destruct (decide (k = j)) as [->|Hne].
  - rewrite lookup_alter_eq, lookup_insert_eq, Ek. reflexivity.
  - rewrite lookup_alter_ne, lookup_insert_ne by exact Hne. reflexivity.
Qed.

Lemma alter_fixed (f : value -> value) (k : string) (m : gmap string value) v :
  m !! k = Some v -> f v = v -> alter f k m = m.
Proof.
  intros Ek Hf. rewrite (alter_at f k m v Ek), Hf. apply insert_id. exact Ek.
Qed.

Lemma alter_absent (f : value -> value) (k : string) (m : gmap string value) :
  m !! k = None -> alter f k m = m.
Proof.
  intros Ek. apply map_eq; intros j.
  destruct (decide (k = j)) as [->|Hne].
  - rewrite lookup_alter_eq, Ek. reflexivity.
  - rewrite lookup_alter_ne by exact Hne. reflexivity.
Qed.

(** An update by an idempotent function is idempotent. *)
Lemma alter_idem (f : value -> value) (k : string) (m : gmap string value) :
  (forall v, f (f v) = f v) -> alter f k (alter f k m) = alter f k m.
Proof. intros Hf. rewrite alter_alter. apply alter_same. exact Hf. Qed.

(** The guarded assignment is an update of the key. *)
Lemma guarded_assignment (g : value -> value) (k : string) (m : gmap string value) :
  (if present_and_truthy m k
   then <[k := g (from_option id VNone (m !! k))]> m
   else m)
  = alter (guarded g) k m.
Proof.
  unfold present_and_truthy, guarded.
  destruct (m !! k) as [v|] eqn:Ek; cbn [from_option id].
  - destruct (truthy v) eqn:Et.
    + rewrite (alter_at _ k m v Ek), Et. reflexivity.
    + rewrite (alter_fixed _ k m v Ek); [reflexivity|]. rewrite Et. reflexivity.
  - rewrite (alter_absent _ k m Ek). reflexivity.
Qed.

Lemma guarded_idem (g : value -> value) :
  (forall v, truthy v = true -> truthy (g v) = true -> g (g v) = g v) ->
  forall v, guarded g (guarded g v) = guarded g v.
Proof.
  intros Hg v. unfold guarded. destruct (truthy v) eqn:Ev; [|rewrite Ev; reflexivity].
  destruct (truthy (g v)) eqn:Eg; [|reflexivity]. apply Hg; assumption.
Qed.

(** *** The rules *)

Section Rules.
Context {rt : PyRuntime}.

Lemma titled_idem v : titled (titled v) = titled v.
Proof. destruct v; try reflexivity. simpl. rewrite strip_title_idem. reflexivity. Qed.

Lemma strip_raises_alter (f : value -> value) (k j : string) (m : gmap string value) :
  k <> j -> strip_raises (alter f j m) k = strip_raises m k.
Proof. intros Hne. unfold strip_raises. rewrite lookup_alter_ne by congruence. reflexivity. Qed.

Lemma strip_raises_titled (k : string) (m : gmap string value) :
  strip_raises (alter titled k m) k = strip_raises m k.
Proof.
  unfold strip_raises. rewrite lookup_alter_eq.
  destruct (m !! k) as [[]|]; reflexivity.
Qed.

(** Title-casing a name: it raises, or it updates the key. *)
Lemma normalize_name_alter (k : string) (m : gmap string value) :
  normalize_name k m
  = match strip_raises m k with
    | Some e => Raised e
    | None => Returned (alter titled k m)
    end.
Proof.
  unfold normalize_name, strip_raises, present_and_truthy.
  destruct (m !! k) as [v|] eqn:Ek; cbn [from_option id].
  - destruct (truthy v) eqn:Et.
    + destruct v; try reflexivity. cbn [py_strip obind].
      rewrite (alter_at titled k m _ Ek). reflexivity.
    + rewrite (alter_fixed titled k m v Ek); [destruct v; reflexivity|].
      destruct v; try reflexivity.
      cbn [truthy] in Et. apply negb_false_iff, String.eqb_eq in Et.
      subst s. reflexivity.
  - rewrite (alter_absent titled k m Ek). reflexivity.
Qed.

(** Name title-casing is idempotent. *)
Lemma normalize_name_idem (k : string) (m : gmap string value) :
  obind (normalize_name k m) (normalize_name k) = normalize_name k m.
Proof.
  rewrite normalize_name_alter.
  destruct (strip_raises m k) eqn:E; [reflexivity|]. simpl.
  rewrite normalize_name_alter, strip_raises_titled, E.
  rewrite alter_idem by exact titled_idem. reflexivity.
Qed.

Lemma normalize_gender_alter (males females : list string) (m : gmap string value) :
  normalize_gender males females m
  = alter (guarded (gender_value males females)) "gender" m.
Proof.
  rewrite <- guarded_assignment. unfold normalize_gender, gender_value.
  destruct (present_and_truthy m "gender") eqn:Hp; [|reflexivity].
  destruct (existsb _ males); [reflexivity|].
  destruct (existsb _ females); [reflexivity|].
  unfold present_and_truthy in Hp.
  destruct (m !! "gender"%string) as [v|] eqn:Ek; [|discriminate].
  symmetry. apply insert_id. exact Ek.
Qed.

(** Gender canonicalization is idempotent, whenever the accepted
    spellings contain [MALE] and [FEMALE] and the male ones do not contain
    [FEMALE]. *)
Lemma gender_value_idem (males females : list string) :
  existsb (String.eqb "MALE") males = true ->
  existsb (String.eqb "FEMALE") males = false ->
  existsb (String.eqb "FEMALE") females = true ->
  forall v, guarded (gender_value males females)
              (guarded (gender_value males females) v)
            = guarded (gender_value males females) v.
Proof.
  intros Hm Hfm Hf. apply guarded_idem. intros v _ _. unfold gender_value.
  destruct (existsb (String.eqb (strip (upper (py_str v)))) males) eqn:E1.
  - change (strip (upper (py_str (VStr "Male")))) with "MALE"%string.
    rewrite Hm. reflexivity.
  - destruct (existsb (String.eqb (strip (upper (py_str v)))) females) eqn:E2.
    + change (strip (upper (py_str (VStr "Female")))) with "FEMALE"%string.
      rewrite Hfm, Hf. reflexivity.
    + rewrite E1, E2. reflexivity.
Qed.

Lemma normalize_gender_idem (males females : list string) (m : gmap string value) :
  existsb (String.eqb "MALE") males = true ->
  existsb (String.eqb "FEMALE") males = false ->
  existsb (String.eqb "FEMALE") females = true ->
  normalize_gender males females (normalize_gender males females m)
  = normalize_gender males females m.
Proof.
  intros Hm Hfm Hf. rewrite !normalize_gender_alter.
  apply alter_idem. apply gender_value_idem; assumption.
Qed.

Lemma aadhaar_value_idem v :
  guarded aadhaar_value (guarded aadhaar_value v) = guarded aadhaar_value v.
Proof.
  apply guarded_idem. intros v' _ _. unfold aadhaar_value.
  destruct ((String.length (remove "-" (remove " " (py_str v'))) =? 12)%nat
            && isdigit (remove "-" (remove " " (py_str v')))) eqn:E.
  - cbn [py_str]. apply andb_true_iff in E as E'. destruct E' as [_ Hd].
    rewrite (aadhaar_digits_back _ (isdigit_all_digits _ Hd)), E. reflexivity.
  - rewrite E. reflexivity.
Qed.

Lemma format_aadhaar_alter (m : gmap string value) :
  format_aadhaar m = alter (guarded aadhaar_value) "aadhaar_number" m.
Proof.
  rewrite <- guarded_assignment. unfold format_aadhaar, aadhaar_value.
  destruct (present_and_truthy m "aadhaar_number") eqn:Hp; [|reflexivity].
  destruct (_ && _); [reflexivity|].
  unfold present_and_truthy in Hp.
  destruct (m !! "aadhaar_number"%string) as [v|] eqn:Ek; [|discriminate].
  symmetry. apply insert_id. exact Ek.
Qed.

(** Aadhaar number reformatting is idempotent. *)
Lemma format_aadhaar_idem (m : gmap string value) :
  format_aadhaar (format_aadhaar m) = format_aadhaar m.
Proof. rewrite !format_aadhaar_alter. apply alter_idem, aadhaar_value_idem. Qed.

Lemma uan_value_idem v :
  guarded uan_value (guarded uan_value v) = guarded uan_value v.
Proof.
  apply guarded_idem. intros v' _ _. unfold uan_value.
  destruct (isdigit (remove "-" (remove " " (py_str v')))) eqn:E.
  - cbn [py_str]. pose proof (isdigit_all_digits _ E) as Hd.
    rewrite (remove_digits " " _ digit_not_space Hd).
    rewrite (remove_digits "-" _ digit_not_dash Hd), E. reflexivity.
  - rewrite E. reflexivity.
Qed.

Lemma format_uan_alter (m : gmap string value) :
  format_uan m = alter (guarded uan_value) "uan_number" m.
Proof.
  rewrite <- guarded_assignment. unfold format_uan, uan_value.
  destruct (present_and_truthy m "uan_number") eqn:Hp; [|reflexivity].
  destruct (isdigit _); [reflexivity|].
  unfold present_and_truthy in Hp.
  destruct (m !! "uan_number"%string) as [v|] eqn:Ek; [|discriminate].
  symmetry. apply insert_id. exact Ek.
Qed.

(** UAN reformatting is idempotent. *)
Lemma format_uan_idem (m : gmap string value) :
  format_uan (format_uan m) = format_uan m.
Proof. rewrite !format_uan_alter. apply alter_idem, uan_value_idem. Qed.

Lemma pan_value_idem v :
  guarded pan_value (guarded pan_value v) = guarded pan_value v.
Proof.
  apply guarded_idem. intros v' _ _. unfold pan_value. cbn [py_str].
  rewrite strip_upper_idem. reflexivity.
Qed.

Lemma PAN_post_process_alter (m : gmap string value) :
  PAN_post_process m = Returned (alter (guarded pan_value) "pan_number" m).
Proof.
  rewrite <- guarded_assignment. unfold PAN_post_process, pan_value.
  destruct (present_and_truthy m "pan_number"); reflexivity.
Qed.

(** Name combining is idempotent. *)
Lemma combine_names_idem (m : gmap string value) :
  combine_names (combine_names m) = combine_names m.
Proof.
  destruct (negb (truthy (from_option id VNone (m !! "full_name"%string)))) eqn:Ef;
    [|unfold combine_names; rewrite Ef; cbv iota; rewrite Ef; reflexivity].
  destruct (truthy (from_option id (VStr "") (m !! "first_name"%string))
            || truthy (from_option id (VStr "") (m !! "last_name"%string))) eqn:En;
    [|unfold combine_names; rewrite Ef, En; cbv iota; rewrite Ef, En; reflexivity].
  assert (Hc : combine_names m
               = <["full_name"%string :=
                     VStr (strip (py_str (from_option id (VStr "")
                                            (m !! "first_name"%string))
                                  ++ " "
                                  ++ py_str (from_option id (VStr "")
                                               (m !! "last_name"%string))))]> m).
  { unfold combine_names. rewrite Ef, En. reflexivity. }
  rewrite Hc. unfold combine_names.
  rewrite lookup_insert_eq, !lookup_insert_ne by discriminate.
  cbn [from_option id]. rewrite En.
  destruct (negb (truthy (VStr _))); [|reflexivity].
  apply insert_insert_eq.
Qed.

(** *** The templates *)

Lemma UAN_post_process_idem (m : gmap string value) :
  obind (UAN_post_process m) UAN_post_process = UAN_post_process m.
Proof.
  unfold UAN_post_process. rewrite normalize_name_alter.
  destruct (strip_raises m "member_name") eqn:E; [reflexivity|].
  cbn [obind]. rewrite normalize_name_alter, !format_uan_alter.
  rewrite strip_raises_alter by discriminate.
  rewrite strip_raises_titled, E. cbn [obind]. f_equal.
  rewrite (alter_swap titled _ "member_name" "uan_number") by discriminate.
  rewrite format_uan_alter.
  rewrite (alter_idem titled) by exact titled_idem.
  rewrite (alter_idem (guarded uan_value)) by exact uan_value_idem. reflexivity.
Qed.

Lemma Aadhaar_post_process_idem (m : gmap string value) :
  obind (Aadhaar_post_process m) Aadhaar_post_process = Aadhaar_post_process m.
Proof.
  unfold Aadhaar_post_process. cbn [obind]. f_equal.
  rewrite !normalize_gender_alter, !format_aadhaar_alter.
  rewrite (alter_swap (guarded aadhaar_value) _ "aadhaar_number" "gender")
    by discriminate.
  rewrite (alter_idem (guarded aadhaar_value)) by exact aadhaar_value_idem.
  rewrite (alter_idem (guarded (gender_value _ _)))
    by (apply gender_value_idem; reflexivity).
  reflexivity.
Qed.

Lemma PAN_post_process_idem (m : gmap string value) :
  obind (PAN_post_process m) PAN_post_process = PAN_post_process m.
Proof.
  rewrite PAN_post_process_alter. cbn [obind]. rewrite PAN_post_process_alter.
  rewrite alter_idem by exact pan_value_idem. reflexivity.
Qed.

(** *** The ID document template *)

Lemma alter_fixed_all (f : value -> value) (k : string) (m : gmap string value) :
  (forall v, m !! k = Some v -> f v = v) -> alter f k m = m.
Proof.
  intros Hf. destruct (m !! k) as [v|] eqn:Ek.
  - apply (alter_fixed f k m v Ek). apply Hf. reflexivity.
  - apply alter_absent. exact Ek.
Qed.

Lemma combine_names_lookup (k : string) (m : gmap string value) :
  k <> "full_name"%string -> combine_names m !! k = m !! k.
Proof.
  intros Hne. unfold combine_names.
  destruct (negb _); [|reflexivity]. destruct (_ || _); [|reflexivity].
  apply lookup_insert_ne. congruence.
Qed.

Lemma strip_raises_combine (k : string) (m : gmap string value) :
  k <> "full_name"%string -> strip_raises (combine_names m) k = strip_raises m k.
Proof. intros Hne. unfold strip_raises. rewrite combine_names_lookup by exact Hne. reflexivity. Qed.

Lemma IDDocument_post_process_alter (m : gmap string value) :
  IDDocument_post_process m
  = match strip_raises (combine_names m) "full_name" with
    | Some e => Raised e
    | None =>
        match strip_raises m "first_name" with
        | Some e => Raised e
        | None =>
            match strip_raises m "last_name" with
            | Some e => Raised e
            | None => Returned (ID_processed m)
            end
        end
    end.
Proof.
  unfold IDDocument_post_process. rewrite normalize_name_alter.
  destruct (strip_raises (combine_names m) "full_name"); [reflexivity|].
  cbn [obind]. rewrite normalize_name_alter.
  rewrite strip_raises_alter, strip_raises_combine by discriminate.
  destruct (strip_raises m "first_name"); [reflexivity|].
  cbn [obind]. rewrite normalize_name_alter.
  rewrite !strip_raises_alter, strip_raises_combine by discriminate.
  destruct (strip_raises m "last_name"); [reflexivity|].
  cbn [obind]. rewrite normalize_gender_alter. reflexivity.
Qed.

Lemma ID_processed_full (m : gmap string value) :
  ID_processed m !! "full_name"%string
  = titled <$> combine_names m !! "full_name"%string.
Proof.
  unfold ID_processed. rewrite !lookup_alter_ne by discriminate.
  apply lookup_alter_eq.
Qed.

Lemma ID_processed_first (m : gmap string value) :
  ID_processed m !! "first_name"%string = titled <$> m !! "first_name"%string.
Proof.
  unfold ID_processed. rewrite !lookup_alter_ne by discriminate.
  rewrite lookup_alter_eq, lookup_alter_ne by discriminate.
  rewrite combine_names_lookup by discriminate. reflexivity.
Qed.

Lemma ID_processed_last (m : gmap string value) :
  ID_processed m !! "last_name"%string = titled <$> m !! "last_name"%string.
Proof.
  unfold ID_processed. rewrite lookup_alter_ne by discriminate.
  rewrite lookup_alter_eq, !lookup_alter_ne by discriminate.
  rewrite combine_names_lookup by discriminate. reflexivity.
Qed.

Lemma ID_processed_gender (m : gmap string value) :
  ID_processed m !! "gender"%string
  = guarded (gender_value ["M"; "MALE"]%string ["F"; "FEMALE"]%string)
      <$> m !! "gender"%string.
Proof.
  unfold ID_processed. rewrite lookup_alter_eq, !lookup_alter_ne by discriminate.
  rewrite combine_names_lookup by discriminate. reflexivity.
Qed.

Lemma titled_falsy v : truthy v = false -> truthy (titled v) = false.
Proof.
  destruct v; try (intros E; exact E). simpl.
  intros E%negb_false_iff%String.eqb_eq. subst s. reflexivity.
Qed.

Lemma titled_default (o : option value) (d : value) :
  titled d = d -> from_option id d (titled <$> o) = titled (from_option id d o).
Proof. intros Hd. destruct o; simpl; [reflexivity|]. symmetry. exact Hd. Qed.

(** What [strip_raises] excludes: a true value at the key is a string. *)
Lemma strip_raises_none (m : gmap string value) (k : string) (d : value) :
  strip_raises m k = None ->
  truthy (from_option id d (m !! k)) = true ->
  m !! k = None \/ exists s, m !! k = Some (VStr s).
Proof.
  unfold strip_raises. destruct (m !! k) as [v|]; [|left; reflexivity].
  simpl. intros Hs Ht. right. destruct v; try (rewrite Ht in Hs; discriminate).
  eauto.
Qed.

(** A part of a blank combined name is not a name after title-casing. *)
Lemma blank_part_falsy (m : gmap string value) (k : string) :
  strip_raises m k = None ->
  strip (py_str (from_option id (VStr "") (m !! k))) = EmptyString ->
  truthy (titled (from_option id (VStr "") (m !! k))) = false.
Proof.
  intros Hs Hb.
  destruct (truthy (from_option id (VStr "") (m !! k))) eqn:Et;
    [|apply titled_falsy; exact Et].
  destruct (strip_raises_none m k _ Hs Et) as [E|[s E]]; rewrite E in *;
    [discriminate Et|].
  simpl in *. rewrite Hb. reflexivity.
Qed.

(** Unless the full name is blank, a second application finds nothing to
    combine. *)
Lemma combine_names_processed (m : gmap string value) :
  ~ has_blank_full_name m ->
  strip_raises (combine_names m) "full_name" = None ->
  strip_raises m "first_name" = None ->
  strip_raises m "last_name" = None ->
  combine_names (ID_processed m) = ID_processed m.
Proof.
  intros Hblank E0 E1 E2.
  assert (Hno : negb (truthy (from_option id VNone
                                (ID_processed m !! "full_name"%string))) = true ->
                truthy (from_option id (VStr "")
                          (ID_processed m !! "first_name"%string))
                || truthy (from_option id (VStr "")
                             (ID_processed m !! "last_name"%string)) = false).
  { rewrite ID_processed_full, ID_processed_first, ID_processed_last.
    rewrite !titled_default by reflexivity.
    intros Hfull%negb_true_iff. apply orb_false_iff.
    unfold combine_names in Hfull, E0.
    destruct (negb (truthy (from_option id VNone (m !! "full_name"%string))))
      eqn:Ef.
    - destruct (truthy (from_option id (VStr "") (m !! "first_name"%string))
                || truthy (from_option id (VStr "") (m !! "last_name"%string)))
        eqn:En.
      + rewrite lookup_insert_eq in Hfull. simpl in Hfull.
        apply negb_false_iff, String.eqb_eq, title_from_empty in Hfull.
        rewrite strip_idem in Hfull.
        apply strip_app_empty in Hfull as [H1 H2].
        apply (strip_app_empty " ") in H2 as [_ H2].
        split; apply blank_part_falsy; assumption.
      + apply orb_false_iff in En as [En1 En2].
        split; apply titled_falsy; assumption.
    - exfalso. apply Hblank. apply negb_false_iff in Ef.
      destruct (strip_raises_none m "full_name" VNone E0 Ef) as [E|[s E]];
        rewrite E in *; [discriminate Ef|].
      exists s. split; [exact E|]. simpl in Ef, Hfull.
      apply negb_false_iff, String.eqb_eq, title_from_empty in Hfull.
      split; [|exact Hfull]. intros ->. discriminate Ef. }
  unfold combine_names.
  destruct (negb _) eqn:Ef; [|reflexivity].
  rewrite (Hno eq_refl). reflexivity.
Qed.

(** Post-processing by the ID document template is idempotent on the
    mappings whose full name is not blank. *)
Lemma IDDocument_post_process_idem (m : gmap string value) :
  ~ has_blank_full_name m ->
  obind (IDDocument_post_process m) IDDocument_post_process
  = IDDocument_post_process m.
Proof.
  intros Hblank. rewrite IDDocument_post_process_alter.
  destruct (strip_raises (combine_names m) "full_name") eqn:E0; [reflexivity|].
  destruct (strip_raises m "first_name") eqn:E1; [reflexivity|].
  destruct (strip_raises m "last_name") eqn:E2; [reflexivity|].
  cbn [obind]. rewrite IDDocument_post_process_alter.
  rewrite (combine_names_processed m Hblank E0 E1 E2).
  assert (H0 : strip_raises (ID_processed m) "full_name" = None).
  { unfold ID_processed. rewrite !strip_raises_alter by discriminate.
    rewrite strip_raises_titled. exact E0. }
  assert (H1 : strip_raises (ID_processed m) "first_name" = None).
  { unfold ID_processed. rewrite !strip_raises_alter by discriminate.
    rewrite strip_raises_titled, strip_raises_alter by discriminate.
    rewrite strip_raises_combine by discriminate. exact E1. }
  assert (H2 : strip_raises (ID_processed m) "last_name" = None).
  { unfold ID_processed. rewrite strip_raises_alter by discriminate.
    rewrite strip_raises_titled, !strip_raises_alter by discriminate.
    rewrite strip_raises_combine by discriminate. exact E2. }
  rewrite H0, H1, H2. f_equal.
  unfold ID_processed at 1.
  rewrite (combine_names_processed m Hblank E0 E1 E2).
  rewrite (alter_fixed_all titled "full_name").
  2:{ intros v. rewrite ID_processed_full.
      destruct (combine_names m !! "full_name"%string); simpl; [|discriminate].
      intros Hv. injection Hv as <-. apply titled_idem. }
  rewrite (alter_fixed_all titled "first_name").
  2:{ intros v. rewrite ID_processed_first.
      destruct (m !! "first_name"%string); simpl; [|discriminate].
      intros Hv. injection Hv as <-. apply titled_idem. }
  rewrite (alter_fixed_all titled "last_name").
  2:{ intros v. rewrite ID_processed_last.
      destruct (m !! "last_name"%string); simpl; [|discriminate].
      intros Hv. injection Hv as <-. apply titled_idem. }
  apply alter_fixed_all.
  intros v. rewrite ID_processed_gender.
  destruct (m !! "gender"%string); simpl; [|discriminate].
  intros Hv. injection Hv as <-. apply gender_value_idem; reflexivity.
Qed.

(** In the ASCII model of the strings, whatever the field mapping:
    [post_process] is idempotent for the UAN card,
    Aadhaar card, PAN card, voter ID and driving license templates, on
    every field mapping (when it raises, applying it twice raises the
    same). Each rule is idempotent by itself: the Aadhaar and UAN number
    reformatting, the gender canonicalization of the Aadhaar and ID
    document templates, the title-casing of a name, and the combining of
    first and last name into the full name. For the ID document template,
    which composes these rules, [post_process] is idempotent on every
    field mapping whose full name is not a non-empty string of white
    space. *)
Theorem post_process_idempotent_rules :
  (forall t fields, In t idempotent_templates ->
     obind (post_process t fields) (post_process t) = post_process t fields)
  /\ (forall fields, format_aadhaar (format_aadhaar fields) = format_aadhaar fields)
  /\ (forall fields, format_uan (format_uan fields) = format_uan fields)
  /\ (forall fields,
        normalize_gender ["M"; "MALE"; "पुरुष"]%string ["F"; "FEMALE"; "महिला"]%string
          (normalize_gender ["M"; "MALE"; "पुरुष"]%string
             ["F"; "FEMALE"; "महिला"]%string fields)
        = normalize_gender ["M"; "MALE"; "पुरुष"]%string
            ["F"; "FEMALE"; "महिला"]%string fields)
  /\ (forall fields,
        normalize_gender ["M"; "MALE"]%string ["F"; "FEMALE"]%string
          (normalize_gender ["M"; "MALE"]%string ["F"; "FEMALE"]%string fields)
        = normalize_gender ["M"; "MALE"]%string ["F"; "FEMALE"]%string fields)
  /\ (forall k fields,
        obind (normalize_name k fields) (normalize_name k) = normalize_name k fields)
  /\ (forall fields, combine_names (combine_names fields) = combine_names fields)
  /\ (forall fields, ~ has_blank_full_name fields ->
        obind (post_process IDDocumentTemplate fields)
          (post_process IDDocumentTemplate)
        = post_process IDDocumentTemplate fields).
Proof.
  split.
  { intros t fields Ht.
    repeat (destruct Ht as [<-|Ht]); try destruct Ht;
      cbn [post_process UANCardTemplate AadhaarCardTemplate PANCardTemplate
           VoterIDTemplate DrivingLicenseTemplate base_post_process];
      try reflexivity.
    - apply UAN_post_process_idem.
    - apply Aadhaar_post_process_idem.
    - apply PAN_post_process_idem. }
  split; [exact format_aadhaar_idem|].
  split; [exact format_uan_idem|].
  split; [intros fields; apply normalize_gender_idem; reflexivity|].
  split; [intros fields; apply normalize_gender_idem; reflexivity|].
  split; [exact normalize_name_idem|].
  split; [exact combine_names_idem|exact IDDocument_post_process_idem].
Qed.

End Rules.

(** Two applications to the certificate and to the identity document of
    the examples, under any runtime. *)
Lemma two_applications {rt : PyRuntime} :
  (post_process CertificateTemplate Examples.repeated_prefix
   = Returned {[ "certificate_title"%string := VStr "Certificate of Merit" ]}
   /\ post_process CertificateTemplate
        {[ "certificate_title"%string := VStr "Certificate of Merit" ]}
      = Returned {[ "certificate_title"%string := VStr "Merit" ]}
   /\ obind (post_process CertificateTemplate Examples.repeated_prefix)
        (post_process CertificateTemplate)
      <> post_process CertificateTemplate Examples.repeated_prefix)
  /\ (post_process IDDocumentTemplate Examples.blank_full_name
      = Returned (<[ "full_name"%string := VStr "" ]>
                  {[ "first_name"%string := VStr "Ada" ]})
      /\ post_process IDDocumentTemplate
           (<[ "full_name"%string := VStr "" ]>
            {[ "first_name"%string := VStr "Ada" ]})
         = Returned (<[ "full_name"%string := VStr "Ada" ]>
                     {[ "first_name"%string := VStr "Ada" ]})
      /\ obind (post_process IDDocumentTemplate Examples.blank_full_name)
           (post_process IDDocumentTemplate)
         <> post_process IDDocumentTemplate Examples.blank_full_name).
Proof.
  assert (Hc1 : post_process CertificateTemplate Examples.repeated_prefix
                = Returned {[ "certificate_title"%string :=
                                VStr "Certificate of Merit" ]})
    by (vm_compute; reflexivity).
  assert (Hc2 : post_process CertificateTemplate
                  {[ "certificate_title"%string := VStr "Certificate of Merit" ]}
                = Returned {[ "certificate_title"%string := VStr "Merit" ]})
    by (vm_compute; reflexivity).
  assert (Hi1 : post_process IDDocumentTemplate Examples.blank_full_name
                = Returned (<[ "full_name"%string := VStr "" ]>
                            {[ "first_name"%string := VStr "Ada" ]}))
    by (vm_compute; reflexivity).
  assert (Hi2 : post_process IDDocumentTemplate
                  (<[ "full_name"%string := VStr "" ]>
                   {[ "first_name"%string := VStr "Ada" ]})
                = Returned (<[ "full_name"%string := VStr "Ada" ]>
                            {[ "first_name"%string := VStr "Ada" ]}))
    by (vm_compute; reflexivity).
  split; (split; [assumption|]); (split; [assumption|]).
  - rewrite Hc1. cbn [obind]. rewrite Hc2. intros E. apply Returned_inj in E.
    apply (f_equal (fun m => m !! "certificate_title"%string)) in E.
    rewrite !lookup_singleton_eq in E. discriminate.
  - rewrite Hi1. cbn [obind]. rewrite Hi2. intros E. apply Returned_inj in E.
    apply (f_equal (fun m => m !! "full_name"%string)) in E.
    rewrite !lookup_insert_eq in E. discriminate.
Qed.

End IdempotenceFacts.

(** * Properties of the further code *)

(** ** Sums and means of confidences *)

Module MeanFacts.
Import LLM.

Lemma count_pos (n : nat) : 0 < inject_Z (Z.of_nat (S n)).
Proof.
  change 0 with (inject_Z 0). rewrite <- Zlt_Qlt. lia.
Qed.

Lemma count_succ (n : nat) :
  inject_Z (Z.of_nat (S n)) == inject_Z (Z.of_nat n) + 1.
Proof.
  rewrite Nat2Z.inj_succ. unfold Z.succ. rewrite inject_Z_plus. reflexivity.
Qed.

Lemma sumQ_bounds (a b : Q) (l : list Q) :
  Forall (fun x => a <= x <= b) l ->
  a * inject_Z (Z.of_nat (length l)) <= sumQ l
  /\ sumQ l <= b * inject_Z (Z.of_nat (length l)).
Proof.
  induction 1 as [|x l [Hax Hxb] _ [IHa IHb]].
  - simpl. split; ring_simplify; apply Qle_refl.
  - cbn [length sumQ foldr]. fold (sumQ l). rewrite count_succ. split.
    + assert (E : a * (inject_Z (Z.of_nat (length l)) + 1)
                  == a + a * inject_Z (Z.of_nat (length l))) by ring.
      rewrite E. apply Qplus_le_compat; assumption.
    + assert (E : b * (inject_Z (Z.of_nat (length l)) + 1)
                  == b + b * inject_Z (Z.of_nat (length l))) by ring.
      rewrite E. apply Qplus_le_compat; assumption.
Qed.

(** A total that lies within the bounds of its [n] terms gives a mean
    within the bounds. *)
Lemma quotient_bounds (a b total : Q) (n : nat) :
  a * inject_Z (Z.of_nat (S n)) <= total ->
  total <= b * inject_Z (Z.of_nat (S n)) ->
  a <= total / inject_Z (Z.of_nat (S n)) /\ total / inject_Z (Z.of_nat (S n)) <= b.
Proof.
  intros Ha Hb. split.
  - apply Qle_shift_div_l; [apply count_pos|exact Ha].
  - apply Qle_shift_div_r; [apply count_pos|exact Hb].
Qed.

Lemma meanQ_bounds (a b : Q) (l : list Q) :
  l <> [] -> Forall (fun x => a <= x <= b) l -> a <= meanQ l /\ meanQ l <= b.
Proof.
  intros Hne Hl. destruct (sumQ_bounds a b l Hl) as [Ha Hb].
  destruct l as [|x l]; [congruence|].
  unfold meanQ. apply quotient_bounds; assumption.
Qed.

End MeanFacts.

(** ** More on the OCR pipeline *)

Module OCRPipelineFacts.
Import Exec OCR.

(** X1. A run of the OCR pipeline whose primary engine returned never
    raises: it returns the primary result, or the result of the fallback
    engine when that one is strictly more confident, so a result at least as
    confident as the primary's. *)
Theorem process_keeps_primary (self : OCRPipeline) (r : OCRResult) :
  primary_engine self 0%nat = Returned r ->
  exists x, fst (run (process self)) = Returned x
            /\ confidence r <= confidence x
            /\ (x = r
                \/ exists fb, fallback_engine self = Some fb
                              /\ fb 0%nat = Returned x
                              /\ confidence r < confidence x
                              /\ confidence r < confidence_threshold self).
Proof.
  intros Hp.
  unfold run, process, try_except, bind, call_primary, call_fallback, ret, throw,
    no_calls; simpl.
  rewrite Hp; simpl.
  destruct (Qle_bool (confidence_threshold self) (confidence r)) eqn:Hthr; simpl.
  { exists r. split; [reflexivity|]. split; [apply Qle_refl|now left]. }
  apply Qle_bool_lt in Hthr.
  destruct (fallback_engine self) as [fb|]; simpl.
  2:{ exists r. split; [reflexivity|]. split; [apply Qle_refl|now left]. }
  destruct (fb 0%nat) as [fr|fe] eqn:Hfb; simpl.
  2:{ exists r. split; [reflexivity|]. split; [apply Qle_refl|now left]. }
  destruct (Qltb (confidence r) (confidence fr)) eqn:Hcmp; simpl.
  - apply Qltb_lt in Hcmp. exists fr. split; [reflexivity|].
    split; [apply Qlt_le_weak; exact Hcmp|]. right. exists fb. auto.
  - exists r. split; [reflexivity|]. split; [apply Qle_refl|now left].
Qed.

Lemma process_keeps_primary_witness :
  exists x, fst (run (process Examples.ocr_low_primary)) = Returned x
            /\ 3#10 <= confidence x.
Proof.
  destruct (process_keeps_primary Examples.ocr_low_primary
              (Examples.ocr_result (3#10) "easyocr") eq_refl) as (x & Hx & Hc & _).
  exists x. split; [exact Hx|exact Hc].
Defined.

(** The body of [process], once the primary engine is there, raises only
    when that engine raised, and
    then only a [RuntimeError]: the one that names both causes when the
    fallback engine raised too, the one that names the primary's cause when
    there is no fallback engine. *)
Theorem process_raises_only_runtime_error (self : OCRPipeline) (e : exn) :
  fst (run (process self)) = Raised e ->
  exn_kind e = RuntimeError
  /\ exists pe, primary_engine self 0%nat = Raised pe
       /\ match fallback_engine self with
          | Some fb => exists fe, fb 0%nat = Raised fe /\ e = both_failed pe fe
          | None => e = primary_failed pe
          end.
Proof.
  unfold run, process, try_except, bind, call_primary, call_fallback, ret, throw,
    no_calls; simpl.
  destruct (primary_engine self 0%nat) as [r|pe] eqn:Hp; simpl.
  - destruct (Qle_bool _ _); simpl; [discriminate|].
    destruct (fallback_engine self) as [fb|]; simpl; [|discriminate].
    destruct (fb 0%nat) as [fr|fe]; simpl; [|discriminate].
    destruct (Qltb _ _); discriminate.
  - destruct (fallback_engine self) as [fb|]; simpl.
    + destruct (fb 0%nat) as [fr|fe] eqn:Hfb; simpl; [discriminate|].
      intros [= <-]. split; [reflexivity|]. exists pe. split; [reflexivity|].
      exists fe. split; reflexivity.
    + intros [= <-]. split; [reflexivity|]. exists pe. split; reflexivity.
Qed.

Lemma process_raises_only_runtime_error_witness :
  exn_kind (primary_failed (Exn EngineError "model not loaded")) = RuntimeError
  /\ exn_msg (primary_failed (Exn EngineError "model not loaded"))
     = "OCR failed: model not loaded"%string.
Proof.
  split; [|reflexivity].
  exact (proj1 (process_raises_only_runtime_error Inputs.ocr_primary_down
                  (primary_failed (Exn EngineError "model not loaded")) eq_refl)).
Defined.

End OCRPipelineFacts.

(** ** More on the LLM pipeline *)

Module LLMPipelineFacts.
Import Exec LLM.

(** The body of [extract], once the primary extractor is there and
    without a fallback extractor, never raises: it
    invokes the primary extractor once and returns its result as it is,
    successful or not, or, when the primary raised, the unsuccessful result
    with no field whose error is [All extractors failed: ] followed by the
    message of the exception. *)
Theorem extract_without_fallback (self : LLMPipeline) (doc_type : string) :
  fallback self = None ->
  exists x, run (extract self doc_type) = (Returned x, Calls 1 0)
            /\ (primary self 0%nat = Returned x
                \/ exists e, primary self 0%nat = Raised e
                             /\ x = all_failed doc_type e
                             /\ success x = false /\ fields x = ∅).
Proof.
  intros Hnone.
  unfold run, extract, try_except, bind, call_primary, call_fallback, ret,
    no_calls; simpl.
  rewrite Hnone.
  destruct (primary self 0%nat) as [r|e] eqn:Hp; simpl.
  - exists r. split; [|now left].
    destruct (success r); simpl; [|reflexivity].
    destruct (Qle_bool _ _); simpl; [reflexivity|].
    destruct (use_fallback_on_low_confidence self); reflexivity.
  - exists (all_failed doc_type e). split; [reflexivity|]. right. exists e. auto.
Qed.

Lemma extract_without_fallback_witness :
  exists x, run (extract Inputs.llm_primary_only "id_document")
            = (Returned x, Calls 1 0).
Proof.
  destruct (extract_without_fallback Inputs.llm_primary_only "id_document" eq_refl)
    as (x & Hx & _).
  exists x. exact Hx.
Defined.

(** The body of [extract], once the extractors are there, invokes its
    primary extractor once and its
    fallback extractor at most twice, and an exception leaves it only from
    the fallback extractor: when a run raises, the exception is the one that
    the last invocation of the fallback raised. *)
Theorem extract_raises_from_fallback (self : LLMPipeline) (doc_type : string) :
  let out := fst (run (extract self doc_type)) in
  let made := snd (run (extract self doc_type)) in
  primary_calls made = 1%nat
  /\ (fallback_calls made <= 2)%nat
  /\ forall e, out = Raised e ->
       exists fb k, fallback self = Some fb
                    /\ fallback_calls made = S k
                    /\ fb k = Raised e.
Proof.
  unfold run, extract, try_except, bind, call_primary, call_fallback, ret,
    no_calls; simpl.
  destruct (fallback self) as [fb|] eqn:Hfb.
  - destruct (primary self 0%nat) as [r|pe]; simpl.
    + destruct (success r); simpl.
      * destruct (Qle_bool _ _); simpl.
        { split; [reflexivity|]. split; [lia|]. intros e [=]. }
        destruct (use_fallback_on_low_confidence self); simpl.
        2:{ split; [reflexivity|]. split; [lia|]. intros e [=]. }
        destruct (fb 0%nat) as [fr|fe] eqn:H0; simpl.
        { destruct (success fr && _); simpl;
            (split; [reflexivity|]; split; [lia|]; intros e [=]). }
        destruct (fb 1%nat) as [fr|fe'] eqn:H1; simpl.
        { split; [reflexivity|]. split; [lia|]. intros e [=]. }
        split; [reflexivity|]. split; [lia|]. intros e [= <-].
        exists fb, 1%nat. auto.
      * destruct (fb 0%nat) as [fr|fe] eqn:H0; simpl.
        { split; [reflexivity|]. split; [lia|]. intros e [=]. }
        destruct (fb 1%nat) as [fr|fe'] eqn:H1; simpl.
        { split; [reflexivity|]. split; [lia|]. intros e [=]. }
        split; [reflexivity|]. split; [lia|]. intros e [= <-].
        exists fb, 1%nat. auto.
    + destruct (fb 0%nat) as [fr|fe] eqn:H0; simpl.
      { split; [reflexivity|]. split; [lia|]. intros e [=]. }
      split; [reflexivity|]. split; [lia|]. intros e [= <-].
      exists fb, 0%nat. auto.
  - destruct (primary self 0%nat) as [r|pe]; simpl.
    + destruct (success r); simpl.
      * destruct (Qle_bool _ _); simpl.
        { split; [reflexivity|]. split; [lia|]. intros e [=]. }
        destruct (use_fallback_on_low_confidence self); simpl;
          (split; [reflexivity|]; split; [lia|]; intros e [=]).
      * split; [reflexivity|]. split; [lia|]. intros e [=].
    + split; [reflexivity|]. split; [lia|]. intros e [=].
Qed.

(** X5. The mean confidence of an extraction result lies in [0,1] when
    the confidence of each of its fields does; it is 0 for a result without
    fields. *)
Theorem average_confidence_range (r : ExtractionResult) :
  ((forall k f, fields r !! k = Some f -> 0 <= confidence f <= 1) ->
   0 <= _average_confidence r <= 1)
  /\ (fields r = ∅ -> _average_confidence r = 0).
Proof.
  split.
  2:{ intros Hnone. unfold _average_confidence, field_confidence_values.
      rewrite Hnone, map_to_list_empty. reflexivity. }
  intros Hall. unfold _average_confidence.
  assert (Hl : Forall (fun x => 0 <= x <= 1) (field_confidence_values r)).
  { unfold field_confidence_values. apply Forall_forall. intros x Hin.
    apply in_map_iff in Hin. destruct Hin as ([k f] & <- & Hin).
    apply (Hall k f). apply elem_of_map_to_list. apply list_elem_of_In. exact Hin. }
  destruct (field_confidence_values r) as [|x l] eqn:Hv.
  - split; [apply Qle_refl|discriminate].
  - apply MeanFacts.meanQ_bounds; [discriminate|exact Hl].
Qed.

Lemma average_confidence_range_witness :
  0 <= _average_confidence (Examples.llm_result (9#10) "primary") <= 1.
Proof.
  apply (proj1 (average_confidence_range _)). intros k f Hf.
  unfold Examples.llm_result, Examples.one_field in Hf. simpl in Hf.
  apply lookup_singleton_Some in Hf. destruct Hf as [_ <-]. simpl.
  split; discriminate.
Defined.

End LLMPipelineFacts.

(** ** More on the parsing of the reply of an LLM *)

Module ReplyFacts.
Import LLM PyStr.

Lemma upto_last_brace_none (s : string) :
  upto_last_brace s = None <-> PyText.has_char "}" s = false.
Proof.
  induction s as [|c s IH]; simpl; [tauto|].
  destruct (upto_last_brace s) as [r|].
  - split; [discriminate|]. intros Hc. apply orb_false_iff in Hc.
    destruct Hc as [_ Hc]. apply IH in Hc. discriminate.
  - destruct (Ascii.eqb c "}"); simpl.
    + split; discriminate.
    + split; [intros _; apply IH; reflexivity|reflexivity].
Qed.

Lemma upto_last_brace_some (s r : string) :
  upto_last_brace s = Some r <->
  exists mid post, s = (mid ++ "}" ++ post)%string
                   /\ r = (mid ++ "}")%string
                   /\ PyText.has_char "}" post = false.
Proof.
  split.
  - revert r. induction s as [|c s IH]; intros r; simpl; [discriminate|].
    destruct (upto_last_brace s) as [r'|] eqn:Hs.
    + intros [= <-]. destruct (IH r' eq_refl) as (mid & post & -> & -> & Hpost).
      exists (String c mid), post. auto.
    + destruct (Ascii.eqb c "}") eqn:Hc; [|discriminate].
      intros [= <-]. apply Ascii.eqb_eq in Hc. subst c.
      exists EmptyString, s. repeat split. apply upto_last_brace_none. exact Hs.
  - intros (mid & post & -> & -> & Hpost).
    induction mid as [|c mid IH].
    + rewrite !StrFacts.append_empty, StrFacts.append_cons, StrFacts.append_empty.
      cbn [upto_last_brace]. apply upto_last_brace_none in Hpost.
      rewrite Hpost. reflexivity.
    + rewrite (StrFacts.append_cons c mid ("}" ++ post)),
        (StrFacts.append_cons c mid "}").
      cbn [upto_last_brace]. rewrite IH. reflexivity.
Qed.

(** X6. The JSON text that [_parse_response] decodes is the part of the
    reply from its first opening brace to its last closing brace: what
    precedes and what follows (prose, a code fence) is dropped, and there is
    such a text exactly when a closing brace follows an opening one. *)
Theorem search_json_object_span (s j : string) :
  search_json_object s = Some j <->
  exists pre mid post,
    s = (pre ++ "{" ++ mid ++ "}" ++ post)%string
    /\ j = ("{" ++ mid ++ "}")%string
    /\ PyText.has_char "{" pre = false
    /\ PyText.has_char "}" post = false.
Proof.
  split.
  - revert j. induction s as [|c s IH]; intros j; simpl; [discriminate|].
    destruct (Ascii.eqb c "{") eqn:Hc.
    + apply Ascii.eqb_eq in Hc. subst c.
      destruct (upto_last_brace s) as [r|] eqn:Hs; [|discriminate].
      intros [= <-]. apply upto_last_brace_some in Hs.
      destruct Hs as (mid & post & -> & -> & Hpost).
      exists EmptyString, mid, post. auto.
    + intros Hj. destruct (IH j Hj) as (pre & mid & post & -> & -> & Hpre & Hpost).
      exists (String c pre), mid, post. repeat split; [|exact Hpost].
      simpl. rewrite Hc, Hpre. reflexivity.
  - intros (pre & mid & post & -> & -> & Hpre & Hpost).
    induction pre as [|c pre IH].
    + rewrite StrFacts.append_empty,
        (StrFacts.append_cons "{" EmptyString (mid ++ "}" ++ post)),
        (StrFacts.append_cons "{" EmptyString (mid ++ "}")),
        !StrFacts.append_empty.
      cbn [search_json_object]. rewrite Ascii.eqb_refl.
      assert (Hs : upto_last_brace (mid ++ "}" ++ post) = Some (mid ++ "}")%string).
      { apply upto_last_brace_some. exists mid, post. auto. }
      rewrite Hs. reflexivity.
    + simpl in Hpre. apply orb_false_iff in Hpre. destruct Hpre as [Hc Hpre].
      rewrite StrFacts.append_cons. cbn [search_json_object]. rewrite Hc.
      apply IH. exact Hpre.
Qed.

Section Reply.
Context {rt : PyRuntime}.

Lemma parse_field_name (field_name : string) (field_data : value) f :
  parse_field field_name field_data = Returned f -> name f = field_name.
Proof.
  unfold parse_field. destruct field_data; try (intros [= <-]; reflexivity).
  destruct (py_float _); simpl; [|discriminate]. intros [= <-]. reflexivity.
Qed.

Lemma parse_fields_names (entries : list (string * value)) :
  forall acc fs,
    parse_fields entries acc = Returned fs ->
    (forall k f, acc !! k = Some f -> name f = k) ->
    forall k f, fs !! k = Some f -> name f = k.
Proof.
  induction entries as [|[field_name field_data] rest IH]; intros acc fs; simpl.
  - intros [= <-]. auto.
  - destruct (parse_field field_name field_data) as [g|] eqn:Hg; simpl; [|discriminate].
    intros Hrest Hacc. apply (IH _ _ Hrest).
    intros k f. destruct (decide (k = field_name)) as [->|Hne].
    + rewrite lookup_insert_eq. intros [= <-]. eapply parse_field_name; eauto.
    + rewrite lookup_insert_ne by congruence. apply Hacc.
Qed.

Lemma parse_response_result (response doc_type : string) r :
  _parse_response response doc_type = Returned r ->
  raw_response r = response
  /\ model_used r = EmptyString
  /\ (forall k f, fields r !! k = Some f -> name f = k)
  /\ (success r = false ->
      fields r = ∅ /\ document_type r = VStr doc_type /\ error r <> EmptyString)
  /\ (success r = true -> error r = EmptyString).
Proof.
  unfold _parse_response.
  destruct (search_json_object response) as [json_text|].
  2:{ intros [= <-]. simpl. repeat split; discriminate. }
  destruct (json_loads json_text) as [data|[kind msg]].
  - destruct (py_get data "fields" (VDict [])) as [fields_obj|]; simpl; [|discriminate].
    destruct (py_items fields_obj) as [entries|]; simpl; [|discriminate].
    destruct (parse_fields entries ∅) as [fs|] eqn:Hfs; simpl; [|discriminate].
    destruct (py_get data "document_type" (VStr doc_type)) as [dt|]; simpl;
      [|discriminate].
    intros [= <-]. simpl. repeat split; try discriminate.
    apply (parse_fields_names _ _ _ Hfs).
    intros k f Hk. rewrite lookup_empty in Hk. discriminate.
  - destruct kind; try discriminate.
    intros [= <-]. simpl. repeat split; discriminate.
Qed.

(** X7. Whatever the Ollama client answers or raises, the result of
    [OllamaExtractor.extract] names its model, files every field under its
    own name, has no field and a non-empty error when it is unsuccessful,
    and, when it is successful, keeps the reply as [raw_response] and has
    no error. *)
Theorem ollama_result_wellformed (model : string) (chat : outcome string)
    (doc_type : string) :
  let result := OllamaExtractor_extract model chat doc_type in
  model_used result = ("ollama/" ++ model)%string
  /\ (forall k f, fields result !! k = Some f -> name f = k)
  /\ (success result = false -> fields result = ∅ /\ error result <> EmptyString)
  /\ (success result = true ->
      chat = Returned (raw_response result) /\ error result = EmptyString).
Proof.
  unfold OllamaExtractor_extract.
  destruct chat as [response|e]; simpl.
  - destruct (_parse_response response doc_type) as [r|e] eqn:Hr; simpl.
    + destruct (parse_response_result _ _ _ Hr) as (Hraw & _ & Hnames & Hfail & Hok).
      split; [reflexivity|]. split; [exact Hnames|].
      split; [intros Hs; destruct (Hfail Hs) as (? & _ & ?); auto|].
      intros Hs. rewrite Hraw. auto.
    + repeat split; discriminate.
  - repeat split; discriminate.
Qed.

End Reply.

End ReplyFacts.

(** ** More on classification *)

Module ScoreFacts.
Import PyStr Templates Processor.

Lemma isupper_to_lower c : isupper (to_lower c) = false.
Proof. StrFacts.by_cases_on_char c. Qed.

Lemma contains_has_char (c : ascii) (kw text : string) :
  contains (String c kw) text = true -> PyText.has_char c text = true.
Proof.
  induction text as [|d text IH]; simpl.
  - discriminate.
  - intros H. apply orb_true_iff in H. destruct H as [H|H].
    + destruct (ascii_dec c d) as [->|Hne]; [rewrite Ascii.eqb_refl; reflexivity|].
      discriminate.
    + rewrite (IH H). apply orb_true_r.
Qed.

Lemma has_char_lower (c : ascii) (text : string) :
  PyText.has_char c (lower text) = true -> isupper c = false.
Proof.
  induction text as [|d text IH]; simpl; [discriminate|].
  intros H. apply orb_true_iff in H. destruct H as [H|H]; [|exact (IH H)].
  apply Ascii.eqb_eq in H. subst c. apply isupper_to_lower.
Qed.

(** A keyword that starts with an upper-case letter is found in no
    lower-cased text. *)
Lemma upper_keyword_never_found (c : ascii) (kw text : string) :
  isupper c = true -> contains (String c kw) (lower text) = false.
Proof.
  intros Hc. destruct (contains (String c kw) (lower text)) eqn:E; [|reflexivity].
  apply contains_has_char, has_char_lower in E. congruence.
Qed.

Lemma filter_length_le {A} (f : A -> bool) (l : list A) :
  (length (List.filter f l) <= length l)%nat.
Proof.
  induction l as [|x l IH]; simpl; [lia|]. destruct (f x); simpl; lia.
Qed.

Lemma filter_length_all {A} (f : A -> bool) (l : list A) :
  length (List.filter f l) = length l <-> Forall (fun x => f x = true) l.
Proof.
  induction l as [|x l IH]; simpl.
  - split; [constructor|reflexivity].
  - pose proof (filter_length_le f l) as Hle.
    destruct (f x) eqn:Hx; simpl.
    + split.
      * intros [= Hl]. constructor; [exact Hx|]. apply IH. exact Hl.
      * intros Hall. inversion Hall; subst. f_equal. apply IH. assumption.
    + split; [lia|]. intros Hall. inversion Hall; subst. congruence.
Qed.

(** X8. The score of a template is the fraction of its keywords found in
    the lower-cased text: the cap at 1 never takes effect, the score lies
    in [0,1], and it is 1 exactly when the template has keywords and all
    of them are found. *)
Theorem classify_is_fraction (t : Template) (text : string) :
  let found :=
    length (List.filter (fun kw => contains kw (lower text))
                        (classification_keywords t)) in
  classify t text
  == inject_Z (Z.of_nat found)
     / inject_Z (Z.of_nat (Nat.max (length (classification_keywords t)) 1))
  /\ 0 <= classify t text <= 1
  /\ (classify t text == 1 <->
      classification_keywords t <> []
      /\ Forall (fun kw => contains kw (lower text) = true)
                (classification_keywords t)).
Proof.
  intros found.
  pose proof (filter_length_le (fun kw => contains kw (lower text))
                (classification_keywords t)) as Hle.
  fold found in Hle.
  set (n := Nat.max (length (classification_keywords t)) 1).
  assert (Hn : (1 <= n)%nat) by (unfold n; lia).
  assert (Hfn : (found <= n)%nat) by (unfold n; lia).
  assert (Hpos : 0 < inject_Z (Z.of_nat n)).
  { change 0 with (inject_Z 0). rewrite <- Zlt_Qlt. lia. }
  assert (Hfrac : inject_Z (Z.of_nat found) / inject_Z (Z.of_nat n) <= 1).
  { apply Qle_shift_div_r; [exact Hpos|]. rewrite Qmult_1_l.
    rewrite <- Zle_Qle. lia. }
  assert (Heq : classify t text
                == inject_Z (Z.of_nat found) / inject_Z (Z.of_nat n)).
  { unfold classify. fold found. fold n. apply Q.min_l. exact Hfrac. }
  split; [exact Heq|]. split.
  { split; [apply ClassifyFacts.classify_nonneg|]. rewrite Heq. exact Hfrac. }
  rewrite Heq. split.
  - intros H1.
    assert (Hz : inject_Z (Z.of_nat found) == inject_Z (Z.of_nat n)).
    { rewrite <- (Qmult_1_l (inject_Z (Z.of_nat n))). rewrite <- H1.
      field. intros Hz. rewrite Hz in Hpos. discriminate. }
    unfold Qeq in Hz. simpl in Hz. rewrite !Z.mul_1_r in Hz. apply Nat2Z.inj in Hz.
    assert (Hk : classification_keywords t <> []).
    { intros Hnil. unfold found, n in Hz. rewrite Hnil in Hz. simpl in Hz.
      discriminate. }
    split; [exact Hk|]. apply filter_length_all.
    fold found. destruct (classification_keywords t); [congruence|].
    unfold n in Hz. simpl length in *. lia.
  - intros [Hk Hall]. apply filter_length_all in Hall. fold found in Hall.
    assert (Hz : found = n).
    { unfold n. destruct (classification_keywords t); [congruence|].
      simpl length in *. lia. }
    rewrite Hz. field. intros Hx. rewrite Hx in Hpos. discriminate.
Qed.

Section Registered.
Context {rt : PyRuntime}.

(** X9. Two of the seven keywords of the PAN card template are written
    in upper case and compared with the lower-cased text, so they are never
    found: the PAN card template scores at most 5/7 on every text. *)
Theorem pan_card_score_capped (text : string) :
  contains "NSDL" (lower text) = false
  /\ contains "UTI" (lower text) = false
  /\ classify PANCardTemplate text <= 5#7.
Proof.
  assert (H1 : contains "NSDL" (lower text) = false)
    by (apply upper_keyword_never_found; reflexivity).
  assert (H2 : contains "UTI" (lower text) = false)
    by (apply upper_keyword_never_found; reflexivity).
  split; [exact H1|]. split; [exact H2|].
  unfold classify.
  change (classification_keywords PANCardTemplate)
    with (app ["permanent account number"; "pan"; "income tax"; "आयकर विभाग";
               "govt. of india"]%string ["NSDL"; "UTI"]%string).
  rewrite List.filter_app, length_app.
  pose proof (filter_length_le (fun kw => contains kw (lower text))
                ["permanent account number"; "pan"; "income tax"; "आयकर विभाग";
                 "govt. of india"]%string) as Hle.
  set (found := length (List.filter _ _)) in *.
  cbn [List.filter]. rewrite H1, H2.
  cbn [length] in Hle. cbn [length Nat.max Nat.add app].
  eapply Qle_trans; [apply Q.le_min_l|].
  apply Qle_shift_div_r; [reflexivity|].
  unfold Qle. simpl. lia.
Qed.

(** X10. A hint other than [unknown] decides the template whatever the
    text says, and it is the first registered template of that category:
    the hint [id_document] always selects the UAN card template, so the
    Aadhaar, PAN, voter, driving license and generic ID templates are never
    selected by a hint. The document type of the response is the hint. *)
Theorem hint_decides_template (threshold : Q) (text : string)
    (hint : Schemas.DocumentTypeEnum) :
  hint <> Schemas.UNKNOWN ->
  let selected :=
    match hint with
    | Schemas.TRANSCRIPT => TranscriptTemplate
    | Schemas.CERTIFICATE => CertificateTemplate
    | _ => UANCardTemplate
    end in
  _classify_document
    {| templates := registered_templates; confidence_threshold := threshold |}
    text (Some hint)
  = Returned selected
  /\ doc_type_map (category selected) = hint.
Proof.
  intros Hh. destruct hint; try congruence; split; reflexivity.
Qed.

End Registered.

Lemma hint_decides_template_witness :
  let rt := Examples.example_runtime in
  _classify_document
    {| templates := registered_templates; confidence_threshold := 8#10 |}
    "aadhaar uidai government of india" (Some Schemas.ID_DOCUMENT)
  = Returned UANCardTemplate.
Proof.
  intros rt.
  refine (proj1 (hint_decides_template (8#10) "aadhaar uidai government of india"
                   Schemas.ID_DOCUMENT _)).
  discriminate.
Defined.

End ScoreFacts.

(** ** More on validation and on the response *)

Module ReviewFacts.
Import Templates Schemas Processor.

Section Review.
Context {rt : PyRuntime}.

Lemma validate_field_length (fields : gmap string value) (field_def : FieldDefinition) :
  (length (validate_field fields field_def) <= 1)%nat.
Proof.
  unfold validate_field.
  set (v := from_option id VNone (fields !! Templates.name field_def)).
  destruct (is_none v || is_empty_str v) eqn:E.
  - assert (Hn : negb (is_none v) && negb (is_empty_str v) = false).
    { destruct (is_none v), (is_empty_str v); simpl in *; congruence. }
    rewrite Hn, andb_false_l. destruct (required field_def); simpl; lia.
  - rewrite andb_false_r. simpl.
    destruct (negb (is_none v) && negb (is_empty_str v) && _); simpl; [|lia].
    destruct (float_of_str _); simpl; lia.
Qed.

Lemma validate_field_nil (fields : gmap string value) (field_def : FieldDefinition) :
  validate_field fields field_def = [] <->
  (required field_def = true -> Notions.filled fields field_def = true)
  /\ (Notions.filled fields field_def = true ->
      field_type field_def = "number"%string ->
      float_of_str
        (PyStr.remove ","
           (py_str (from_option id VNone (fields !! Templates.name field_def))))
      <> None).
Proof.
  unfold validate_field, Notions.filled.
  set (v := from_option id VNone (fields !! Templates.name field_def)).
  destruct (required field_def), (is_none v), (is_empty_str v); simpl;
    try (split; [discriminate|intros [H _]; specialize (H eq_refl); discriminate]);
    try (split; [intros _; split; discriminate|reflexivity]).
  all: destruct (String.eqb (field_type field_def) "number") eqn:Ht;
    [apply String.eqb_eq in Ht|apply String.eqb_neq in Ht].
  all: try (split; [intros _; split; [reflexivity|intros _ Hnum; congruence]
                   |reflexivity]).
  all: destruct (float_of_str _) eqn:Hf.
  all: try (split; [intros _; split; [reflexivity|intros _ _; discriminate]
                   |reflexivity]).
  all: split; [discriminate|intros [_ H]; exfalso; apply H; auto].
Qed.

(** X11. Validation reports at most one message for each field that the
    template declares, and it reports none exactly when every required
    field has a value other than [None] and the empty string, and every
    number field that has such a value reads as a number once its commas
    are removed. *)
Theorem validate_passes_iff (t : Template) (fields : gmap string value) :
  (length (validate t fields) <= length (field_definitions t))%nat
  /\ (validate t fields = [] <->
      forall field_def, In field_def (field_definitions t) ->
        (required field_def = true -> Notions.filled fields field_def = true)
        /\ (Notions.filled fields field_def = true ->
            field_type field_def = "number"%string ->
            float_of_str
              (PyStr.remove ","
                 (py_str (from_option id VNone
                            (fields !! Templates.name field_def))))
            <> None)).
Proof.
  unfold validate. induction (field_definitions t) as [|d ds [IHlen IHnil]]; simpl.
  - split; [lia|]. split; [intros _ ? []|reflexivity].
  - split.
    + rewrite length_app. pose proof (validate_field_length fields d). lia.
    + split.
      * intros H. apply app_eq_nil in H. destruct H as [Hd Hds].
        intros field_def [<-|Hin].
        -- apply validate_field_nil. exact Hd.
        -- apply IHnil; assumption.
      * intros H.
        assert (Hd : validate_field fields d = [])
          by (apply validate_field_nil; apply H; left; reflexivity).
        rewrite Hd. simpl. apply IHnil. intros field_def Hin. apply H. right. exact Hin.
Qed.

(** X12. In every response that [_build_response] returns, the review
    flag, the errors and the status agree: the flag is set exactly for the
    status [requires_review], the list of errors is empty exactly for the
    status [completed], the status is [failed] exactly when the LLM result
    is unsuccessful, and it is never [pending] or [processing]. *)
Theorem response_is_coherent self doc_id file_name template llm_result ocr_result
    response :
  _build_response self doc_id file_name template llm_result ocr_result
    = Returned response ->
  (requires_review response = true <-> status response = REQUIRES_REVIEW)
  /\ (errors response = [] <-> status response = COMPLETED)
  /\ (status response = FAILED <-> LLM.success llm_result = false)
  /\ status response <> PENDING
  /\ status response <> PROCESSING.
Proof.
  intros Hb.
  destruct (ResponseFacts.build_response_inv _ _ _ _ _ _ _ Hb)
    as (data & _ & _ & _ & _ & _ & Hst).
  unfold determine_status in Hst.
  destruct (LLM.success llm_result); simpl in Hst.
  - destruct (validate template data) as [|err errs].
    + destruct (Qltb _ _); injection Hst as Hs He Hr; rewrite Hs, He, Hr;
        repeat split; try discriminate; auto.
    + injection Hst as Hs He Hr; rewrite Hs, He, Hr.
      repeat split; try discriminate; auto.
  - injection Hst as Hs He Hr; rewrite Hs, He, Hr.
    repeat split; try discriminate; auto.
Qed.

Lemma adjust_for_ocr_range (ocr_result : option OCR.OCRResult) (overall : Q) :
  0 <= overall <= 1 ->
  (forall o, ocr_result = Some o -> 0 <= OCR.confidence o <= 1) ->
  0 <= adjust_for_ocr ocr_result overall <= 1.
Proof.
  intros [H0 H1] Ho. unfold adjust_for_ocr.
  destruct ocr_result as [o|]; [|auto].
  destruct (Qltb _ _); [|auto].
  destruct (Ho o eq_refl) as [Ho0 Ho1]. split.
  - apply Qmult_le_0_compat; assumption.
  - apply Qle_trans with (1 * OCR.confidence o).
    + apply Qmult_le_compat_r; assumption.
    + rewrite Qmult_1_l. exact Ho1.
Qed.

Lemma non_null_confidences_range (confidences : gmap string Q)
    (data : gmap string value) :
  (forall k c, confidences !! k = Some c -> 0 <= c <= 1) ->
  Forall (fun x => 0 <= x <= 1) (non_null_confidences confidences data).
Proof.
  intros Hall. unfold non_null_confidences. apply Forall_forall. intros x Hin.
  apply in_map_iff in Hin. destruct Hin as ([k c] & <- & Hin).
  apply filter_In in Hin. destruct Hin as [Hin _].
  apply (Hall k c). apply elem_of_map_to_list. apply list_elem_of_In. exact Hin.
Qed.

(** X13. When every field confidence of the LLM result and the confidence
    of the OCR result, if there is one, lie in [0,1], the construction of
    the response never fails: [_build_response] returns as soon as the
    post-processing of the template returns, with an overall confidence in
    [0,1]. *)
Theorem build_response_in_range self doc_id file_name template llm_result ocr_result
    data :
  post_process template (LLM.field_value <$> LLM.fields llm_result) = Returned data ->
  (forall k f, LLM.fields llm_result !! k = Some f -> 0 <= LLM.confidence f <= 1) ->
  (forall o, ocr_result = Some o -> 0 <= OCR.confidence o <= 1) ->
  exists response,
    _build_response self doc_id file_name template llm_result ocr_result
      = Returned response
    /\ extracted_data response = data
    /\ 0 <= overall_confidence response <= 1.
Proof.
  intros Hpp Hf Ho.
  assert (Hrange : 0 <= computed_overall llm_result data ocr_result <= 1).
  { unfold computed_overall. apply adjust_for_ocr_range; [|exact Ho].
    assert (Hl : Forall (fun x => 0 <= x <= 1)
                   (non_null_confidences (LLM.confidence <$> LLM.fields llm_result)
                      data)).
    { apply non_null_confidences_range. intros k c Hk.
      rewrite lookup_fmap in Hk.
      destruct (LLM.fields llm_result !! k) as [f|] eqn:Hfk; [|discriminate].
      injection Hk as <-. exact (Hf k f Hfk). }
    unfold mean_or_zero.
    destruct (non_null_confidences _ data) as [|x l] eqn:Hv.
    - split; [apply Qle_refl|discriminate].
    - apply MeanFacts.meanQ_bounds; [discriminate|exact Hl]. }
  destruct (ResponseFacts.build_response_returns self doc_id file_name template
              llm_result ocr_result data Hpp Hrange) as (response & Hb).
  exists response. split; [exact Hb|].
  destruct (ResponseFacts.build_response_inv _ _ _ _ _ _ _ Hb)
    as (data' & Hpp' & Hr & Hd & _ & Hov & _).
  rewrite Hpp in Hpp'. apply Returned_inj in Hpp'. subst data'.
  split; [exact Hd|]. rewrite Hov. exact Hr.
Qed.

End Review.

Lemma response_is_coherent_witness :
  let rt := Examples.example_runtime in
  exists response,
    _build_response Examples.processor "doc-1" "id.png" IDDocumentTemplate
      Examples.name_only None = Returned response
    /\ (requires_review response = true <-> status response = REQUIRES_REVIEW).
Proof.
  intros rt.
  destruct (_build_response Examples.processor "doc-1" "id.png" IDDocumentTemplate
              Examples.name_only None) as [response|e] eqn:Hb;
    [|vm_compute in Hb; discriminate].
  exists response. split; [reflexivity|].
  exact (proj1 (response_is_coherent _ _ _ _ _ _ _ Hb)).
Defined.

Lemma build_response_in_range_witness :
  let rt := Examples.example_runtime in
  exists response,
    _build_response Examples.processor "doc-1" "pan.png" PANCardTemplate
      Examples.name_only None = Returned response.
Proof.
  intros rt.
  destruct (build_response_in_range Examples.processor "doc-1" "pan.png"
              PANCardTemplate Examples.name_only None
              (LLM.field_value <$> LLM.fields Examples.name_only))
    as (response & Hb & _).
  - reflexivity.
  - intros k f Hk. unfold Examples.name_only, Examples.llm_result,
      Examples.one_field in Hk. simpl in Hk.
    apply lookup_singleton_Some in Hk. destruct Hk as [_ <-]. simpl.
    split; discriminate.
  - intros o [=].
  - exists response. exact Hb.
Defined.

End ReviewFacts.

(** ** The loader *)

Module LoaderFacts.
Import Loader.

Section Facts.
Context {frt : FileRuntime}.

Lemma validate_oversized (self : DocumentLoader) (path : string) (bytes : list byte) :
  (max_file_size_bytes self < Z.of_nat (length bytes))%Z ->
  validate self path bytes
  = Rejected ("File size " ++ PyText.str_of_int (Z.of_nat (length bytes))
              ++ " bytes exceeds maximum "
              ++ PyText.str_of_int (max_file_size_bytes self) ++ " bytes").
Proof.
  intros Hbig. unfold validate. apply Z.ltb_lt in Hbig. rewrite Hbig. reflexivity.
Qed.

Lemma validate_unsupported (self : DocumentLoader) (path : string) (bytes : list byte) :
  (Z.of_nat (length bytes) <= max_file_size_bytes self)%Z ->
  bytes <> [] ->
  detect_type path (Some bytes) = UNKNOWN ->
  validate self path bytes
  = Rejected ("Unsupported file type: " ++ path_suffix path
              ++ ". Supported types: PDF, JPG, PNG, DOCX").
Proof.
  intros Hsmall Hne Hunknown. unfold validate.
  apply Z.ltb_ge in Hsmall. rewrite Hsmall.
  destruct bytes as [|b bytes]; [congruence|]. simpl Nat.eqb. cbn iota.
  rewrite Hunknown. reflexivity.
Qed.

Lemma validate_accepts (self : DocumentLoader) (path : string) (bytes : list byte) :
  validate self path bytes = Accepted tt <->
  bytes <> [] /\ (Z.of_nat (length bytes) <= max_file_size_bytes self)%Z
  /\ detect_type path (Some bytes) <> UNKNOWN.
Proof.
  unfold validate.
  destruct (max_file_size_bytes self <? Z.of_nat (length bytes))%Z eqn:Hsize.
  { apply Z.ltb_lt in Hsize. split; [discriminate|]. intros (_ & Hle & _). lia. }
  apply Z.ltb_ge in Hsize.
  destruct bytes as [|b bytes]; simpl Nat.eqb; cbn iota.
  { split; [discriminate|]. intros (Hne & _). congruence. }
  destruct (detect_type path (Some (b :: bytes))) eqn:Ht.
  all: split;
    [intros H;
     first [discriminate H
           |repeat split; [discriminate|exact Hsize|discriminate]]
    |try reflexivity; intros (_ & _ & Hu); congruence].
Qed.

(** X14. [load_from_bytes] accepts content exactly when it is not empty,
    not larger than the limit and of a detected type; the document it
    gives then has that type, which is not [UNKNOWN], and holds the content
    unchanged, with its length as size and the file name as given. *)
Theorem load_from_bytes_accepts (self : DocumentLoader) (bytes : list byte)
    (filename : string) :
  ((exists document, load_from_bytes self bytes filename = Accepted document) <->
   bytes <> [] /\ (Z.of_nat (length bytes) <= max_file_size_bytes self)%Z
   /\ detect_type filename (Some bytes) <> UNKNOWN)
  /\ forall document,
       load_from_bytes self bytes filename = Accepted document ->
       document_type document = detect_type filename (Some bytes)
       /\ document_type document <> UNKNOWN
       /\ content document = bytes
       /\ file_size document = length bytes
       /\ metadata_filename document = filename.
Proof.
  unfold load_from_bytes.
  destruct (validate self filename bytes) as [[]|message] eqn:Hv.
  - apply validate_accepts in Hv. split.
    + split; [intros _; exact Hv|]. intros _. eexists. reflexivity.
    + intros document [= <-]. simpl. repeat split. apply Hv.
  - split.
    + split; [intros [document [=]]|].
      intros Hok. apply validate_accepts in Hok. congruence.
    + intros document [=].
Qed.

Lemma lookup_type_known (k : string) (table : list (string * DocumentType)) t :
  forallb (fun kt => match snd kt with UNKNOWN => false | _ => true end) table = true ->
  lookup_type k table = Some t -> t <> UNKNOWN.
Proof.
  induction table as [|[k' t'] table IH]; simpl; [discriminate|].
  intros Hall. apply andb_true_iff in Hall. destruct Hall as [Ht' Hall].
  destruct (String.eqb k k'); [|apply IH; exact Hall].
  intros [= <-]. destruct t'; congruence.
Qed.

(** X15. The type of a file is [UNKNOWN] exactly when its suffix is in
    no row of the extension table, the MIME type guessed from its name is
    in no row of the MIME table, and its content starts with none of the
    four signatures (PDF, PNG, JPEG, ZIP): the content is looked at only
    when the name says nothing, so a known suffix decides whatever the
    content is. *)
Theorem detect_type_unknown_iff (path : string) (bytes : list byte) :
  (detect_type path (Some bytes) = UNKNOWN <->
   lookup_type (PyStr.lower (path_suffix path)) EXTENSION_MAP = None
   /\ (forall mime, guess_type path = Some mime ->
                    lookup_type mime MIME_TYPE_MAP = None)
   /\ (bytes = []
       \/ (starts_with PDF_MAGIC bytes = false
           /\ starts_with PNG_MAGIC bytes = false
           /\ starts_with JPEG_MAGIC bytes = false
           /\ starts_with ZIP_MAGIC bytes = false)))
  /\ forall t, lookup_type (PyStr.lower (path_suffix path)) EXTENSION_MAP = Some t ->
               detect_type path (Some bytes) = t.
Proof.
  unfold detect_type. split.
  2:{ intros t Ht. rewrite Ht. reflexivity. }
  destruct (lookup_type (PyStr.lower (path_suffix path)) EXTENSION_MAP) as [t|] eqn:Hext.
  { split.
    - intros ->. exfalso. exact (lookup_type_known _ EXTENSION_MAP _ eq_refl Hext eq_refl).
    - intros (H & _). discriminate. }
  destruct (guess_type path) as [mime|].
  - destruct (lookup_type mime MIME_TYPE_MAP) as [t|] eqn:Hmime.
    { split.
      - intros ->. exfalso. exact (lookup_type_known _ MIME_TYPE_MAP _ eq_refl Hmime eq_refl).
      - intros (_ & H & _). specialize (H mime eq_refl). congruence. }
    unfold sniff. destruct bytes as [|b bytes].
    { split; [|reflexivity]. intros _. split; [reflexivity|].
      split; [intros ? [= <-]; exact Hmime|left; reflexivity]. }
    destruct (starts_with PDF_MAGIC (b :: bytes)),
             (starts_with PNG_MAGIC (b :: bytes)),
             (starts_with JPEG_MAGIC (b :: bytes)),
             (starts_with ZIP_MAGIC (b :: bytes));
      (split;
       [intros H;
        first [discriminate H
              |split; [reflexivity|];
               split; [intros ? [= <-]; exact Hmime|right; auto]]
       |intros Hc;
        first [reflexivity
              |destruct Hc as (_ & _ & [Hnil|(H1 & H2 & H3 & H4)]); discriminate]]).
  - unfold sniff. destruct bytes as [|b bytes].
    { split; [|reflexivity]. intros _. split; [reflexivity|].
      split; [intros ? [=]|left; reflexivity]. }
    destruct (starts_with PDF_MAGIC (b :: bytes)),
             (starts_with PNG_MAGIC (b :: bytes)),
             (starts_with JPEG_MAGIC (b :: bytes)),
             (starts_with ZIP_MAGIC (b :: bytes));
      (split;
       [intros H;
        first [discriminate H
              |split; [reflexivity|];
               split; [intros ? [=]|right; auto]]
       |intros Hc;
        first [reflexivity
              |destruct Hc as (_ & _ & [Hnil|(H1 & H2 & H3 & H4)]); discriminate]]).
Qed.

End Facts.

End LoaderFacts.

(** ** The whole pipeline *)

Module PipelineFacts.
Import Pipeline.

Section Facts.
Context {rt : PyRuntime} {frt : Loader.FileRuntime}.
Variable image : Type.
Implicit Types (self : DocumentProcessor image) (images : list image).

Lemma ocr_loop_returns self images (results : list OCR.OCRResult) :
  Forall2 (fun img r => ocr_image image self img = Returned r) images results ->
  forall all_text total,
  exists total',
    ocr_loop image self images all_text total
    = Returned ((all_text ++ map OCR.full_text results)%list, total')
    /\ total' == total + LLM.sumQ (map OCR.confidence results).
Proof.
  induction 1 as [|img r images results Hr _ IH]; intros all_text total; simpl.
  - exists total. rewrite app_nil_r. split; [reflexivity|ring].
  - rewrite Hr. simpl.
    destruct (IH (all_text ++ [OCR.full_text r])%list (total + OCR.confidence r))
      as (total' & Hloop & Htotal).
    exists total'. rewrite Hloop, <- app_assoc. split; [reflexivity|].
    rewrite Htotal. fold (LLM.sumQ (map OCR.confidence results)). ring.
Qed.

Lemma ocr_loop_raises self (before after : list image) (img : image)
    (results : list OCR.OCRResult) (e : exn) :
  Forall2 (fun img r => ocr_image image self img = Returned r) before results ->
  ocr_image image self img = Raised e ->
  forall all_text total,
    ocr_loop image self (before ++ img :: after) all_text total = Raised e.
Proof.
  intros Hbefore He.
  induction Hbefore as [|b r before results Hr _ IH]; intros all_text total; simpl.
  - rewrite He. reflexivity.
  - rewrite Hr. simpl. apply IH.
Qed.

(** X16. When the OCR of every image returns, [_run_ocr] returns one
    result for the document: its text is the texts of the images in their
    order, separated by an empty line, its words are dropped, and its
    confidence is the mean of the confidences of the images, hence in [0,1]
    when these are. *)
Theorem run_ocr_combines self images (results : list OCR.OCRResult) :
  images <> [] ->
  Forall2 (fun img r => ocr_image image self img = Returned r) images results ->
  exists combined,
    _run_ocr image self images = Returned (Some combined)
    /\ OCR.full_text combined
       = PyText.join paragraph_break (map OCR.full_text results)
    /\ OCR.words combined = []
    /\ OCR.engine_used combined = "pipeline"%string
    /\ OCR.confidence combined == LLM.meanQ (map OCR.confidence results)
    /\ (Forall (fun r => 0 <= OCR.confidence r <= 1) results ->
        0 <= OCR.confidence combined <= 1).
Proof.
  intros Hne Hall.
  destruct (ocr_loop_returns self images results Hall [] 0)
    as (total' & Hloop & Htotal).
  assert (Hlen : length images = length results) by (eapply Forall2_length; eauto).
  assert (Hmean : total' / inject_Z (Z.of_nat (length images))
                  == LLM.meanQ (map OCR.confidence results)).
  { unfold LLM.meanQ. rewrite length_map, Hlen, Htotal, Qplus_0_l. reflexivity. }
  unfold _run_ocr. destruct images as [|img images]; [congruence|].
  rewrite Hloop. simpl obind. eexists. split; [reflexivity|]. simpl.
  split; [reflexivity|]. split; [reflexivity|]. split; [reflexivity|].
  split; [exact Hmean|].
  intros Hr. rewrite Hmean.
  destruct results as [|r results]; [discriminate|].
  apply MeanFacts.meanQ_bounds; [discriminate|].
  apply Forall_forall. intros x Hin. apply in_map_iff in Hin.
  destruct Hin as (r' & <- & Hin). rewrite Forall_forall in Hr.
  apply Hr. exact Hin.
Qed.

(** X17. [_run_ocr] gives up at the first image whose enhancement or OCR
    raises: the exception leaves it as it is, and the results of the
    images before are lost. *)
Theorem run_ocr_fails_fast self (before after : list image) (img : image)
    (results : list OCR.OCRResult) (e : exn) :
  Forall2 (fun img r => ocr_image image self img = Returned r) before results ->
  ocr_image image self img = Raised e ->
  _run_ocr image self (before ++ img :: after) = Raised e.
Proof.
  intros Hbefore He. unfold _run_ocr.
  rewrite (ocr_loop_raises self before after img results e Hbefore He).
  destruct (before ++ img :: after)%list eqn:E; [|reflexivity].
  destruct before; discriminate.
Qed.

Lemma strip_empty_length (text : string) :
  String.eqb text EmptyString = true ->
  (PyText.py_len (PyText.strip text) <? 100)%nat = true.
Proof.
  intros H. apply String.eqb_eq in H. subst text. reflexivity.
Qed.

(** X18. Which documents go through OCR: a DOCX document never does and
    has no image; an image always does and has no text of its own; a PDF
    document does when it has a page and the text of its pages, joined and
    stripped of the white space around it, has fewer than 100 characters
    (characters, not bytes: 67 Devanagari letters are 67). *)
Theorem ocr_runs_by_type self (document : Loader.LoadedDocument)
    (text : string) images :
  _extract_content image self document = Returned (text, images) ->
  match Loader.document_type document with
  | Loader.DOCX => images = [] /\ needs_ocr image text images = false
  | Loader.IMAGE =>
      text = EmptyString /\ length images = 1%nat
      /\ needs_ocr image text images = true
  | Loader.PDF =>
      needs_ocr image text images
      = negb (length images =? 0)%nat
        && (PyText.py_len (PyText.strip text) <? 100)%nat
  | Loader.UNKNOWN => images = [] /\ needs_ocr image text images = false
  end.
Proof.
  unfold _extract_content.
  destruct (Loader.document_type document).
  - destruct (pdf_parse image (externals image self) document) as [pages|];
      simpl; [|discriminate].
    intros [= <- <-]. unfold needs_ocr.
    destruct (map snd pages); [reflexivity|]. simpl negb. rewrite andb_true_l.
    destruct (String.eqb _ EmptyString) eqn:E; [|reflexivity].
    rewrite (strip_empty_length _ E). reflexivity.
  - destruct (image_parse image (externals image self) document) as [img|];
      simpl; [|discriminate].
    intros [= <- <-]. repeat split.
  - destruct (docx_parse image (externals image self) document) as [full_text|];
      simpl; [|discriminate].
    intros [= <- <-]. split; reflexivity.
  - intros [= <- <-]. split; reflexivity.
Qed.

Lemma build_response_ids (core : Processor.DocumentProcessor)
    (doc_id file_name : string) template llm_result ocr_result resp :
  Processor._build_response core doc_id file_name template llm_result ocr_result
    = Returned resp ->
  Schemas.document_id resp = doc_id /\ Schemas.filename resp = file_name
  /\ Schemas.model_used resp = Some (LLM.model_used llm_result)
  /\ Forall (fun err => In (Schemas.code err)
                          ["LLM_ERROR"; "VALIDATION_ERROR"; "LOW_CONFIDENCE"]%string)
            (Schemas.errors resp).
Proof.
  unfold Processor._build_response.
  destruct (Templates.post_process template _) as [data|]; simpl; [|discriminate].
  destruct (Processor.determine_status _ _ _ _) as [[st errs] review] eqn:Hst.
  unfold Schemas.new_ExtractionResponse. simpl.
  destruct (_ && _); [|discriminate].
  intros [= <-]. simpl. repeat split.
  unfold Processor.determine_status in Hst.
  destruct (negb (LLM.success llm_result)).
  - injection Hst as _ <- _. constructor; [simpl; auto|constructor].
  - destruct (Templates.validate template data) as [|err errs'].
    + destruct (Qltb _ _); injection Hst as _ <- _;
        [constructor; [simpl; auto|constructor]|constructor].
    + injection Hst as _ <- _. apply Forall_forall. intros x Hin.
      change (In x (map Processor.validation_error (err :: errs'))) in Hin.
      apply in_map_iff in Hin. destruct Hin as (m & <- & _). simpl. auto.
Qed.

(** A successful run of the [try] block ends in [_build_response]. *)
Lemma process_file_try_done self doc_id file_path content file_name hint result :
  process_file_try image self doc_id file_path content file_name hint = Done result ->
  document_id result = doc_id /\ success result = true
  /\ exists template llm_result ocr_result,
       Processor._build_response (core image self) doc_id file_name template
         llm_result ocr_result = Returned (response result)
       /\ raw_llm_response result = LLM.raw_response llm_result.
Proof.
  unfold process_file_try.
  destruct (load image self file_path content file_name) as [document|]; simpl;
    [|discriminate].
  destruct (_extract_content image self document) as [[text images]|]; simpl;
    [|discriminate].
  destruct (ocr_step image self text images) as [[ocr_result text']|]; simpl;
    [|discriminate].
  destruct (Processor._classify_document _ _ _) as [template|]; simpl; [|discriminate].
  destruct (llm_extract image self text' template) as [llm_result|]; simpl;
    [|discriminate].
  destruct (Processor._build_response _ _ _ _ _ _) as [resp|] eqn:Hb; simpl;
    [|discriminate].
  intros [= <-]. simpl. split; [reflexivity|]. split; [reflexivity|].
  exists template, llm_result, ocr_result. split; [exact Hb|reflexivity].
Qed.

Lemma process_file_names self doc_id file_path content file_name hint :
  Schemas.filename
    (response (process_file image self doc_id file_path content file_name hint))
  = file_name.
Proof.
  unfold process_file.
  destruct (process_file_try image self doc_id file_path content file_name hint)
    as [result|message] eqn:Htry; simpl; [|reflexivity].
  destruct (process_file_try_done _ _ _ _ _ _ _ Htry)
    as (_ & _ & template & llm_result & ocr_result & Hb & _).
  apply (build_response_ids _ _ _ _ _ _ _ Hb).
Qed.

(** X19. [process_file] always answers with the identifier it drew and
    the file name it was given, and [success] is false exactly when the
    response carries the single error [PROCESSING_ERROR]; the response is
    then [failed] with confidence 0 and no data. A result with [success]
    true may still be [failed] or ask for a review: its errors are
    [LLM_ERROR], [VALIDATION_ERROR] or [LOW_CONFIDENCE]. *)
Theorem process_file_success_flag self doc_id file_path content file_name hint :
  let result := process_file image self doc_id file_path content file_name hint in
  document_id result = doc_id
  /\ Schemas.document_id (response result) = doc_id
  /\ Schemas.filename (response result) = file_name
  /\ (success result = false <->
      map Schemas.code (Schemas.errors (response result))
      = ["PROCESSING_ERROR"%string])
  /\ (success result = false ->
      Schemas.status (response result) = Schemas.FAILED
      /\ Schemas.overall_confidence (response result) = 0
      /\ Schemas.extracted_data (response result) = ∅
      /\ ocr_text result = EmptyString)
  /\ (success result = true ->
      Forall (fun err => In (Schemas.code err)
                ["LLM_ERROR"; "VALIDATION_ERROR"; "LOW_CONFIDENCE"]%string)
             (Schemas.errors (response result))).
Proof.
  unfold process_file.
  destruct (process_file_try image self doc_id file_path content file_name hint)
    as [result|message] eqn:Htry; simpl.
  - destruct (process_file_try_done _ _ _ _ _ _ _ Htry)
      as (Hid & Hs & template & llm_result & ocr_result & Hb & _).
    destruct (build_response_ids _ _ _ _ _ _ _ Hb) as (Hrid & Hname & _ & Hcodes).
    rewrite Hs.
    split; [exact Hid|]. split; [exact Hrid|]. split; [exact Hname|].
    split; [|split; [discriminate|intros _; exact Hcodes]].
    split; [discriminate|].
    intros Hc. exfalso.
    destruct (Schemas.errors (response result)) as [|err errs]; [discriminate|].
    injection Hc as Hc _. inversion Hcodes as [|? ? Hin _]; subst.
    rewrite Hc in Hin. simpl in Hin.
    destruct Hin as [H|[H|[H|[]]]]; discriminate.
  - repeat split; discriminate.
Qed.

(** X20. A call that gives nothing to read, neither a path nor content
    or only empty ones, is answered with the error [Either file_path or
    content must be provided]: for empty content the loader, which would
    say [File is empty], is not reached. *)
Theorem process_file_nothing_to_read self doc_id file_path content file_name hint :
  file_path = None \/ file_path = Some EmptyString ->
  content = None \/ content = Some [] ->
  let result := process_file image self doc_id file_path content file_name hint in
  success result = false
  /\ map Schemas.message (Schemas.errors (response result))
     = ["Either file_path or content must be provided"%string].
Proof.
  intros [-> | ->] [-> | ->]; split; reflexivity.
Qed.

(** X21. What the loader rejects is reported by [process_file] in the
    loader's words, and no parser or engine is consulted: content larger
    than the limit of the settings is answered with the two sizes, and
    content of no known type with the suffix of the file name. *)
Theorem process_file_rejected_upload self doc_id (b : byte) (bytes : list byte)
    file_name hint :
  let content := b :: bytes in
  let result := process_file image self doc_id None (Some content) file_name hint in
  let limit := Config.max_file_size_bytes (settings image self) in
  ((limit < Z.of_nat (length content))%Z ->
     success result = false
     /\ map Schemas.message (Schemas.errors (response result))
        = [("File size " ++ PyText.str_of_int (Z.of_nat (length content))
            ++ " bytes exceeds maximum " ++ PyText.str_of_int limit
            ++ " bytes")%string])
  /\ ((Z.of_nat (length content) <= limit)%Z ->
      Loader.detect_type file_name (Some content) = Loader.UNKNOWN ->
      success result = false
      /\ map Schemas.message (Schemas.errors (response result))
         = [("Unsupported file type: " ++ Loader.path_suffix file_name
             ++ ". Supported types: PDF, JPG, PNG, DOCX")%string]).
Proof.
  intros content result limit. unfold result, content, limit. split.
  - intros Hbig.
    unfold process_file, process_file_try, load, Loader.load_from_bytes.
    rewrite (LoaderFacts.validate_oversized (loader image self) file_name
               (b :: bytes) Hbig).
    split; reflexivity.
  - intros Hsmall Hunknown.
    unfold process_file, process_file_try, load, Loader.load_from_bytes.
    rewrite (LoaderFacts.validate_unsupported (loader image self) file_name
               (b :: bytes) Hsmall ltac:(discriminate) Hunknown).
    split; reflexivity.
Qed.

(** X22. An image document whose OCR cannot be done fails as a whole: when
    the primary OCR engine raises and there is no fallback engine, the
    response is the [PROCESSING_ERROR] whose message is [OCR failed: ]
    followed by the message of the engine, and no template is applied. *)
Theorem image_without_ocr_fails self doc_id (b : byte) (bytes : list byte)
    file_name hint (document : Loader.LoadedDocument) (img enhanced : image)
    (e : exn) :
  Loader.load_from_bytes (loader image self) (b :: bytes) file_name
    = Loader.Accepted document ->
  Loader.document_type document = Loader.IMAGE ->
  image_parse image (externals image self) document = Returned img ->
  enhance image (externals image self) img = Returned enhanced ->
  ocr_primary image (externals image self) enhanced 0%nat = Raised e ->
  ocr_fallback image (externals image self) = None ->
  let result :=
    process_file image self doc_id None (Some (b :: bytes)) file_name hint in
  success result = false
  /\ map Schemas.message (Schemas.errors (response result))
     = [("OCR failed: " ++ exn_msg e)%string].
Proof.
  intros Hload Htype Hparse Henh Hocr Hfb result.
  unfold result, process_file, process_file_try, load.
  rewrite Hload. simpl abind.
  unfold _extract_content. rewrite Htype, Hparse. simpl.
  unfold ocr_step. simpl needs_ocr. cbn iota.
  unfold _run_ocr, ocr_loop, ocr_image. rewrite Henh. simpl obind.
  unfold Exec.run, OCR.process, Exec.try_except, Exec.bind, Exec.call_primary,
    Exec.call_fallback, Exec.ret, Exec.throw, Exec.no_calls, ocr_pipeline.
  simpl. rewrite Hocr, Hfb. simpl. split; reflexivity.
Qed.

End Facts.

Lemma run_ocr_combines_witness :
  exists combined,
    _run_ocr nat (Inputs.processor_with Inputs.ocr_up) [0%nat; 1%nat]
    = Returned (Some combined)
    /\ 0 <= OCR.confidence combined <= 1.
Proof.
  destruct (run_ocr_combines nat (Inputs.processor_with Inputs.ocr_up)
              [0%nat; 1%nat]
              [Examples.ocr_result (9#10) "easyocr";
               Examples.ocr_result (9#10) "easyocr"])
    as (combined & Hrun & _ & _ & _ & _ & Hrange).
  - discriminate.
  - repeat constructor.
  - exists combined. split; [exact Hrun|]. apply Hrange.
    repeat constructor; discriminate.
Defined.

Lemma run_ocr_fails_fast_witness :
  _run_ocr nat (Inputs.processor_with Inputs.ocr_down) [0%nat; 1%nat]
  = Raised (OCR.primary_failed (Exn EngineError "model not loaded")).
Proof.
  apply (run_ocr_fails_fast nat (Inputs.processor_with Inputs.ocr_down)
           [] [1%nat] 0%nat []).
  - constructor.
  - reflexivity.
Defined.

Lemma ocr_runs_by_type_witness :
  needs_ocr nat "Dear committee" [] = false.
Proof.
  exact (proj2 (ocr_runs_by_type nat (Inputs.processor_with Inputs.ocr_up)
                  Inputs.docx_document "Dear committee" [] eq_refl)).
Defined.

Lemma process_file_nothing_to_read_witness :
  let rt := Examples.example_runtime in
  let frt := Inputs.file_runtime in
  success (process_file nat (Inputs.processor_with Inputs.ocr_up) "doc-1"
             None (Some []) "empty.pdf" None) = false.
Proof.
  intros rt frt.
  refine (proj1 (process_file_nothing_to_read nat
                   (Inputs.processor_with Inputs.ocr_up) "doc-1" None (Some [])
                   "empty.pdf" None _ _)).
  - left. reflexivity.
  - right. reflexivity.
Defined.

Lemma image_without_ocr_fails_witness :
  let rt := Examples.example_runtime in
  let frt := Inputs.file_runtime in
  map Schemas.message
    (Schemas.errors
       (response (process_file nat (Inputs.processor_with Inputs.ocr_down) "doc-1"
                    None (Some Inputs.png_bytes) "scan.png" None)))
  = ["OCR failed: model not loaded"%string].
Proof.
  intros rt frt.
  refine (proj2 (image_without_ocr_fails nat (Inputs.processor_with Inputs.ocr_down)
                   "doc-1" x89 [x50; x4e; x47; x0d; x0a; x1a; x0a; x00] "scan.png"
                   None Inputs.png_document 0%nat 0%nat
                   (Exn EngineError "model not loaded") _ _ _ _ _ _));
    reflexivity.
Defined.

End PipelineFacts.

(** ** The OCR engines *)

Module EngineFacts.
Import OCR Engines.

Lemma fold_min_le (rest : list Q) (x : Q) :
  fold_left (fun m y => if Qltb y m then y else m) rest x <= x.
Proof.
  revert x. induction rest as [|y rest IH]; intros x; simpl; [apply Qle_refl|].
  destruct (Qltb y x) eqn:E; [|apply IH].
  apply Qltb_lt in E. eapply Qle_trans; [apply IH|]. apply Qlt_le_weak. exact E.
Qed.

Lemma fold_max_ge (rest : list Q) (x : Q) :
  x <= fold_left (fun m y => if Qltb m y then y else m) rest x.
Proof.
  revert x. induction rest as [|y rest IH]; intros x; simpl; [apply Qle_refl|].
  destruct (Qltb x y) eqn:E; [|apply IH].
  apply Qltb_lt in E. eapply Qle_trans; [|apply IH]. apply Qlt_le_weak. exact E.
Qed.

Lemma py_min_le_max (l : list Q) (lo hi : Q) :
  py_min l = Returned lo -> py_max l = Returned hi -> lo <= hi.
Proof.
  destruct l as [|x rest]; simpl; [discriminate|].
  intros [= <-] [= <-].
  eapply Qle_trans; [apply fold_min_le|apply fold_max_ge].
Qed.

(** [int()] is monotone. *)
Lemma py_int_le (p q : Q) : p <= q -> (py_int p <= py_int q)%Z.
Proof.
  intros Hpq. unfold py_int.
  destruct (Qle_bool 0 p) eqn:Hp, (Qle_bool 0 q) eqn:Hq.
  - apply Qfloor_resp_le. exact Hpq.
  - apply Qle_bool_iff in Hp. exfalso.
    assert (H0 : Qle_bool 0 q = true)
      by (apply Qle_bool_iff; eapply Qle_trans; eauto).
    congruence.
  - apply Qle_bool_iff in Hq.
    assert (Hneg : p <= 0).
    { destruct (Qlt_le_dec p 0) as [H|H]; [apply Qlt_le_weak; exact H|].
      apply Qle_bool_iff in H. congruence. }
    apply Z.le_trans with 0%Z.
    + change 0%Z with (Qceiling 0). apply Qceiling_resp_le. exact Hneg.
    + change 0%Z with (Qfloor 0). apply Qfloor_resp_le. exact Hq.
  - apply Qceiling_resp_le. exact Hpq.
Qed.

Lemma to_word_returns (d : Detection) (w : OCRWord) :
  to_word d = Returned w ->
  text w = detected_text d
  /\ word_confidence w = detected_confidence d
  /\ let '(x1, y1, x2, y2) := bbox w in (x1 <= x2)%Z /\ (y1 <= y2)%Z.
Proof.
  unfold to_word.
  destruct (py_min (map fst (polygon d))) as [x1|] eqn:Hx1; simpl; [|discriminate].
  destruct (py_min (map snd (polygon d))) as [y1|] eqn:Hy1; simpl; [|discriminate].
  destruct (py_max (map fst (polygon d))) as [x2|] eqn:Hx2; simpl; [|discriminate].
  destruct (py_max (map snd (polygon d))) as [y2|] eqn:Hy2; simpl; [|discriminate].
  intros [= <-]. simpl. split; [reflexivity|]. split; [reflexivity|].
  split; apply py_int_le; eapply py_min_le_max; eauto.
Qed.

Lemma to_word_raises (d : Detection) :
  (exists e, to_word d = Raised e) <-> polygon d = [].
Proof.
  unfold to_word. destruct (polygon d) as [|p ps]; simpl.
  - split; [reflexivity|]. intros _. eexists. reflexivity.
  - split; [intros [e [=]]|discriminate].
Qed.

(** X23. EasyOCR's polygon of a detection becomes a well-formed box: the
    left edge is not right of the right edge and the top edge is not below
    the bottom edge; the word keeps the text and the confidence of the
    detection. The conversion raises exactly for a polygon without points. *)
Theorem to_word_box (d : Detection) :
  (forall w, to_word d = Returned w ->
     text w = detected_text d
     /\ word_confidence w = detected_confidence d
     /\ let '(x1, y1, x2, y2) := bbox w in (x1 <= x2)%Z /\ (y1 <= y2)%Z)
  /\ ((exists e, to_word d = Raised e) <-> polygon d = []).
Proof.
  split; [apply to_word_returns|apply to_word_raises].
Qed.

Lemma insert_word_perm (w : OCRWord) (l : list OCRWord) :
  Permutation (insert_word w l) (w :: l).
Proof.
  induction l as [|v l IH]; simpl; [reflexivity|].
  destruct (key_le w v); [reflexivity|].
  rewrite IH. apply perm_swap.
Qed.

Lemma sorted_words_perm (l : list OCRWord) : Permutation (sorted_words l) l.
Proof.
  induction l as [|w l IH]; simpl; [reflexivity|].
  rewrite insert_word_perm. constructor. exact IH.
Qed.

Lemma key_le_total (a b : OCRWord) : key_le a b = false -> key_le b a = true.
Proof.
  unfold key_le. intros H. apply orb_false_iff in H. destruct H as [H1 H2].
  apply Z.ltb_ge in H1.
  destruct (Z.eq_dec (top_of a) (top_of b)) as [E|E].
  - rewrite E, Z.eqb_refl in H2. simpl in H2. apply Z.leb_gt in H2.
    rewrite E, Z.eqb_refl, Z.ltb_irrefl. simpl. apply Z.leb_le. lia.
  - assert (Hlt : (top_of b <? top_of a)%Z = true) by (apply Z.ltb_lt; lia).
    rewrite Hlt. reflexivity.
Qed.

Lemma insert_word_hd (w v : OCRWord) (l : list OCRWord) :
  HdRel (fun a b => key_le a b = true) v l -> key_le v w = true ->
  HdRel (fun a b => key_le a b = true) v (insert_word w l).
Proof.
  intros Hhd Hvw. destruct l as [|u l]; simpl; [constructor; exact Hvw|].
  destruct (key_le w u); constructor; [exact Hvw|].
  inversion Hhd; assumption.
Qed.

Lemma insert_word_sorted (w : OCRWord) (l : list OCRWord) :
  Sorted (fun a b => key_le a b = true) l ->
  Sorted (fun a b => key_le a b = true) (insert_word w l).
Proof.
  induction 1 as [|v l Hs IH Hhd]; simpl; [repeat constructor|].
  destruct (key_le w v) eqn:E.
  - constructor; [constructor; assumption|constructor; exact E].
  - constructor; [exact IH|]. apply insert_word_hd; [exact Hhd|].
    apply key_le_total. exact E.
Qed.

Lemma sorted_words_sorted (l : list OCRWord) :
  Sorted (fun a b => key_le a b = true) (sorted_words l).
Proof.
  induction l as [|w l IH]; simpl; [constructor|].
  apply insert_word_sorted. exact IH.
Qed.

Lemma concat_close_line (lines : list (list OCRWord)) (current_line : list OCRWord) :
  concat (close_line lines current_line) = (concat lines ++ current_line)%list.
Proof.
  destruct current_line as [|c cs]; simpl; [rewrite app_nil_r; reflexivity|].
  rewrite concat_app. simpl. rewrite app_nil_r. reflexivity.
Qed.

Lemma line_loop_concat (ws : list OCRWord) :
  forall lines current_line current_y,
    concat (close_line (fst (line_loop ws lines current_line current_y))
                       (snd (line_loop ws lines current_line current_y)))
    = (concat lines ++ current_line ++ ws)%list.
Proof.
  induction ws as [|w ws IH]; intros lines current_line current_y; simpl.
  - rewrite concat_close_line, app_nil_r. reflexivity.
  - destruct (line_height_threshold <? Z.abs (top_of w - current_y))%Z.
    + rewrite IH, concat_close_line, <- app_assoc. reflexivity.
    + rewrite IH, <- app_assoc. reflexivity.
Qed.

Lemma close_line_forall (P : list OCRWord -> Prop) lines current_line :
  Forall P lines -> (current_line <> [] -> P current_line) ->
  Forall P (close_line lines current_line).
Proof.
  intros Hl Hc. destruct current_line as [|c cs]; simpl; [exact Hl|].
  apply Forall_app. split; [exact Hl|]. constructor; [|constructor].
  apply Hc. discriminate.
Qed.

(** The state of the loop: the line in progress starts at [current_y],
    and before the first word [current_y] is the top of that word. *)
Lemma line_loop_lines (ws : list OCRWord) :
  forall lines current_line current_y,
    Forall (fun line => Notions.anchored line) lines ->
    Forall (fun w => (Z.abs (top_of w - current_y) <= line_height_threshold)%Z)
           current_line ->
    match current_line with
    | [] => match ws with [] => True | w :: _ => top_of w = current_y end
    | c :: _ => top_of c = current_y
    end ->
    Forall (fun line => Notions.anchored line)
      (close_line (fst (line_loop ws lines current_line current_y))
                  (snd (line_loop ws lines current_line current_y))).
Proof.
  induction ws as [|w ws IH]; intros lines current_line current_y Hl Hc Hy; simpl.
  - apply close_line_forall; [exact Hl|]. intros Hne.
    destruct current_line as [|c cs]; [congruence|].
    split; [discriminate|]. cbn [hd]. rewrite Hy. exact Hc.
  - destruct (line_height_threshold <? Z.abs (top_of w - current_y))%Z eqn:E.
    + apply IH.
      * apply close_line_forall; [exact Hl|]. intros Hne.
        destruct current_line as [|c cs]; [congruence|].
        split; [discriminate|]. cbn [hd]. rewrite Hy. exact Hc.
      * constructor; [|constructor]. rewrite Z.sub_diag. simpl.
        unfold line_height_threshold. lia.
      * reflexivity.
    + apply Z.ltb_ge in E. apply IH.
      * exact Hl.
      * apply Forall_app. split; [exact Hc|]. constructor; [exact E|constructor].
      * destruct current_line as [|c cs]; simpl; [exact Hy|exact Hy].
Qed.

(** X24. The lines of the text that EasyOCR's words are laid out in: the
    words are sorted by their top edge and then their left edge; the lines,
    one after the other, are exactly the sorted words, so every word is in
    one line and none is lost or repeated; no line is empty; and every word
    of a line has its top edge within 20 pixels of the top edge of the first
    word of the line. *)
Theorem lines_partition_words (words : list OCRWord) :
  concat (lines_of words) = sorted_words words
  /\ Permutation (sorted_words words) words
  /\ Sorted (fun a b => key_le a b = true) (sorted_words words)
  /\ Forall (fun line => Notions.anchored line) (lines_of words).
Proof.
  split; [|split; [apply sorted_words_perm|split; [apply sorted_words_sorted|]]].
  - unfold lines_of. destruct (sorted_words words) as [|first rest] eqn:Hs;
      [reflexivity|].
    pose proof (line_loop_concat (first :: rest) [] [] (top_of first)) as H.
    destruct (line_loop (first :: rest) [] [] (top_of first)) as [lines current_line].
    exact H.
  - unfold lines_of. destruct (sorted_words words) as [|first rest] eqn:Hs;
      [constructor|].
    pose proof (line_loop_lines (first :: rest) [] [] (top_of first)) as H.
    destruct (line_loop (first :: rest) [] [] (top_of first)) as [lines current_line].
    apply H; [constructor|constructor|reflexivity].
Qed.

Lemma recognize_loop_returns (results : list Detection) :
  Forall (fun d => polygon d <> []) results ->
  forall words total,
  exists new_words total',
    recognize_loop results words total = Returned ((words ++ new_words)%list, total')
    /\ map text new_words = map detected_text results
    /\ map word_confidence new_words = map detected_confidence results
    /\ total' == total + LLM.sumQ (map detected_confidence results).
Proof.
  induction 1 as [|d results Hd _ IH]; intros words total; simpl.
  - exists [], total. rewrite app_nil_r. repeat split; ring.
  - destruct (to_word d) as [w|e] eqn:Hw.
    2:{ exfalso. apply Hd. apply to_word_raises. eauto. }
    destruct (to_word_returns d w Hw) as (Ht & Hc & _).
    simpl. destruct (IH (words ++ [w])%list (total + detected_confidence d))
      as (new_words & total' & Hloop & Htexts & Hconfs & Htotal).
    exists (w :: new_words), total'. rewrite Hloop, <- app_assoc. simpl.
    rewrite Ht, Hc, Htexts, Hconfs. repeat split.
    rewrite Htotal. fold (LLM.sumQ (map detected_confidence results)). ring.
Qed.

(** X25. When EasyOCR's reader returns detections whose polygons have
    points, [EasyOCREngine.recognize] returns: one word for each detection,
    in their order, with its text and confidence, and a confidence that is
    the mean of the confidences of the detections, 0 when there is none,
    hence in [0,1] when these are. *)
Theorem easyocr_recognize_returns (languages : list string)
    (results : list Detection) :
  Forall (fun d => polygon d <> []) results ->
  exists r,
    EasyOCR_recognize languages (Returned results) = Returned r
    /\ map text (words r) = map detected_text results
    /\ map word_confidence (words r) = map detected_confidence results
    /\ full_text r = _build_text_from_words (words r)
    /\ engine_used r = "easyocr"%string
    /\ (results = [] -> confidence r = 0 /\ full_text r = EmptyString)
    /\ (results <> [] ->
        confidence r == LLM.meanQ (map detected_confidence results))
    /\ (Forall (fun d => 0 <= detected_confidence d <= 1) results ->
        0 <= confidence r <= 1).
Proof.
  intros Hpoly.
  destruct (recognize_loop_returns results Hpoly [] 0)
    as (ws & total' & Hloop & Htexts & Hconfs & Htotal).
  unfold EasyOCR_recognize. simpl obind. rewrite Hloop. simpl.
  eexists. split; [reflexivity|]. simpl.
  split; [exact Htexts|]. split; [exact Hconfs|].
  split; [reflexivity|]. split; [reflexivity|].
  assert (Hlen : length ws = length results).
  { rewrite <- (length_map text ws), Htexts, length_map. reflexivity. }
  assert (Hmean : results <> [] ->
            match ws with
            | [] => 0
            | _ => total' / inject_Z (Z.of_nat (length ws))
            end == LLM.meanQ (map detected_confidence results)).
  { intros Hne. destruct ws as [|w ws']; [destruct results; [congruence|discriminate]|].
    unfold LLM.meanQ. rewrite length_map, Hlen, Htotal, Qplus_0_l. reflexivity. }
  split; [|split; [exact Hmean|]].
  - intros ->. destruct ws; [split; reflexivity|discriminate].
  - intros Hr. destruct results as [|d results'].
    + destruct ws; [split; [apply Qle_refl|discriminate]|discriminate].
    + rewrite (Hmean ltac:(discriminate)).
      apply MeanFacts.meanQ_bounds; [discriminate|].
      apply Forall_forall. intros x Hin. apply in_map_iff in Hin.
      destruct Hin as (d' & <- & Hin). rewrite Forall_forall in Hr.
      apply Hr. exact Hin.
Qed.

Lemma easyocr_recognize_returns_witness :
  exists r,
    EasyOCR_recognize ["en"%string] (Returned [Inputs.detection]) = Returned r
    /\ 0 <= confidence r <= 1.
Proof.
  destruct (easyocr_recognize_returns ["en"%string] [Inputs.detection])
    as (r & Hr & _ & _ & _ & _ & _ & _ & Hrange).
  - repeat constructor. discriminate.
  - exists r. split; [exact Hr|]. apply Hrange.
    repeat constructor; discriminate.
Defined.

Lemma tesseract_loop_spec (data : list TesseractRow) :
  forall words total n,
  exists total',
    tesseract_loop data (words, total, n)
    = ((words ++ map row_word (List.filter valid_row data))%list, total',
       (n + length (List.filter valid_row data))%nat)
    /\ total' == total
                 + LLM.sumQ (map word_confidence
                               (map row_word (List.filter valid_row data))).
Proof.
  induction data as [|r data IH]; intros words total n; simpl.
  - exists total. rewrite app_nil_r, Nat.add_0_r. split; [reflexivity|ring].
  - destruct (valid_row r); simpl.
    + destruct (IH (words ++ [row_word r])%list (total + row_conf r / 100) (S n))
        as (total' & Hloop & Htotal).
      exists total'. rewrite Hloop, <- app_assoc. simpl.
      rewrite Nat.add_succ_r. split; [reflexivity|].
      rewrite Htotal. fold (LLM.sumQ (map word_confidence
                                       (map row_word (List.filter valid_row data)))).
      ring.
    + apply IH.
Qed.

(** X26. [TesseractEngine.recognize] keeps exactly the rows of
    Tesseract's table whose text is not blank and whose confidence is
    positive, in their order, with the confidence divided by 100; its
    confidence is the mean of these, 0 when no row is kept, and lies in
    [0,1] when Tesseract's confidences are at most 100; its text is the
    stripped text of Tesseract. *)
Theorem tesseract_recognize_returns (lang : string) (data : list TesseractRow)
    (text_of_image : string) :
  exists r,
    Tesseract_recognize lang (Returned data) (Returned text_of_image) = Returned r
    /\ words r = map row_word (List.filter valid_row data)
    /\ full_text r = PyStr.strip text_of_image
    /\ engine_used r = "tesseract"%string
    /\ (words r = [] -> confidence r = 0)
    /\ (words r <> [] -> confidence r == LLM.meanQ (map word_confidence (words r)))
    /\ (Forall (fun row => row_conf row <= 100) data -> 0 <= confidence r <= 1).
Proof.
  destruct (tesseract_loop_spec data [] 0 0%nat) as (total' & Hloop & Htotal).
  unfold Tesseract_recognize. simpl obind. rewrite Hloop. simpl.
  eexists. split; [reflexivity|]. simpl.
  split; [reflexivity|]. split; [reflexivity|]. split; [reflexivity|].
  set (kept := List.filter valid_row data) in *.
  assert (Hmean : kept <> [] ->
            match length kept with
            | O => 0
            | S _ => total' / inject_Z (Z.of_nat (length kept))
            end == LLM.meanQ (map word_confidence (map row_word kept))).
  { intros Hne. destruct kept as [|k kept']; [congruence|].
    unfold LLM.meanQ. rewrite !length_map. cbn [length].
    rewrite Htotal, Qplus_0_l. reflexivity. }
  split; [|split].
  - intros Hnil. destruct kept; [reflexivity|discriminate].
  - intros Hne. apply Hmean. intros ->. apply Hne. reflexivity.
  - intros Hr. destruct kept as [|k kept'] eqn:Hk.
    + split; [apply Qle_refl|discriminate].
    + rewrite (Hmean ltac:(discriminate)).
      apply MeanFacts.meanQ_bounds; [discriminate|].
      apply Forall_forall. intros x Hin.
      apply in_map_iff in Hin. destruct Hin as (w & <- & Hin).
      apply in_map_iff in Hin. destruct Hin as (row & <- & Hin).
      assert (Hrow : In row (List.filter valid_row data))
        by (fold kept; rewrite Hk; exact Hin).
      apply filter_In in Hrow. destruct Hrow as [Hdata Hvalid].
      rewrite Forall_forall in Hr. specialize (Hr row Hdata).
      unfold valid_row in Hvalid. apply andb_true_iff in Hvalid.
      destruct Hvalid as [_ Hpos]. apply Qltb_lt in Hpos. simpl. split.
      * apply Qle_shift_div_l; [reflexivity|]. rewrite Qmult_0_l.
        apply Qlt_le_weak. exact Hpos.
      * apply Qle_shift_div_r; [reflexivity|]. rewrite Qmult_1_l. exact Hr.
Qed.

End EngineFacts.

(** ** The API *)

Module ApiFacts.
Import Api.

Lemma split_no_sep (sep : ascii) (s : string) :
  PyText.has_char sep (fst (PyText.split sep s)) = false
  /\ Forall (fun piece => PyText.has_char sep piece = false)
            (snd (PyText.split sep s)).
Proof.
  induction s as [|c s [IHhd IHtl]]; simpl; [split; [reflexivity|constructor]|].
  destruct (PyText.split sep s) as [piece pieces]. simpl in *.
  destruct (Ascii.eqb c sep) eqn:E; simpl.
  - split; [reflexivity|]. constructor; assumption.
  - rewrite E, IHhd. split; [reflexivity|exact IHtl].
Qed.

Lemma last_piece_no_sep (sep : ascii) (s : string) :
  PyText.has_char sep (PyText.last_piece sep s) = false.
Proof.
  unfold PyText.last_piece. destruct (split_no_sep sep s) as [Hhd Htl].
  revert Htl. generalize (snd (PyText.split sep s)).
  induction l as [|p l IH]; intros Htl; simpl; [exact Hhd|].
  inversion Htl; subst. destruct l; [assumption|]. apply IH. assumption.
Qed.

(** The pieces are parts of the string: a character that is not in the
    string is in none of them. *)
Lemma split_keeps_absent (c sep : ascii) (s : string) :
  PyText.has_char c s = false ->
  PyText.has_char c (fst (PyText.split sep s)) = false
  /\ Forall (fun piece => PyText.has_char c piece = false)
            (snd (PyText.split sep s)).
Proof.
  induction s as [|d s IH]; simpl; [split; [reflexivity|constructor]|].
  intros H. apply orb_false_iff in H. destruct H as [Hd Hs].
  destruct (IH Hs) as [IHhd IHtl].
  destruct (PyText.split sep s) as [piece pieces]. simpl in *.
  destruct (Ascii.eqb d sep); simpl.
  - split; [reflexivity|]. constructor; assumption.
  - rewrite Hd, IHhd. split; [reflexivity|exact IHtl].
Qed.

Lemma split_without_sep (sep : ascii) (s : string) :
  PyText.has_char sep s = false -> PyText.split sep s = (s, []).
Proof.
  induction s as [|c s IH]; simpl; [reflexivity|].
  intros H. apply orb_false_iff in H. destruct H as [Hc Hs].
  rewrite (IH Hs), Hc. reflexivity.
Qed.

Lemma split_at_sep (sep : ascii) (name rest : string) :
  PyText.has_char sep name = false ->
  PyText.split sep (name ++ String sep rest)
  = (name, fst (PyText.split sep rest) :: snd (PyText.split sep rest)).
Proof.
  induction name as [|c name IH]; intros H.
  - rewrite StrFacts.append_empty. simpl. rewrite Ascii.eqb_refl.
    destruct (PyText.split sep rest). reflexivity.
  - simpl in H. apply orb_false_iff in H. destruct H as [Hc Hn].
    rewrite StrFacts.append_cons. simpl. rewrite (IH Hn), Hc. reflexivity.
Qed.

Lemma last_cons {A} (x d : A) (l : list A) : List.last (x :: l) d = List.last l x.
Proof.
  revert x d. induction l as [|y l IH]; intros x d; [reflexivity|].
  change (List.last (x :: y :: l) d) with (List.last (y :: l) d).
  rewrite !IH. reflexivity.
Qed.

Lemma last_piece_after_sep (sep : ascii) (s rest : string) :
  PyText.last_piece sep (s ++ String sep rest) = PyText.last_piece sep rest.
Proof.
  unfold PyText.last_piece. induction s as [|c s IH].
  - rewrite StrFacts.append_empty. simpl. rewrite Ascii.eqb_refl.
    destruct (PyText.split sep rest) as [piece pieces]. cbn [fst snd].
    apply last_cons.
  - rewrite StrFacts.append_cons. simpl.
    destruct (PyText.split sep (s ++ String sep rest)) as [piece pieces] eqn:E.
    cbn [fst snd] in IH.
    destruct (Ascii.eqb c sep); cbn [fst snd].
    + rewrite last_cons. exact IH.
    + rewrite <- IH. destruct pieces as [|p ps]; [|rewrite !last_cons; reflexivity].
      exfalso. clear IH. revert piece E.
      induction s as [|d s IHs]; intros piece.
      * rewrite StrFacts.append_empty. simpl. rewrite Ascii.eqb_refl.
        destruct (PyText.split sep rest). discriminate.
      * rewrite StrFacts.append_cons. simpl.
        destruct (PyText.split sep (s ++ String sep rest)) as [p ps] eqn:E'.
        destruct (Ascii.eqb d sep); [discriminate|].
        intros [= <- ->]. eapply IHs. reflexivity.
Qed.

(** X27. The file name that [extract_from_url] takes from a URL is never
    empty and contains neither a slash nor a question mark. It is what
    follows the last slash of the whole URL, up to the first question mark
    after it, and [document] when that is empty: for a URL that ends in
    [/name] or [/name?query], with no slash in the query, it is [name]. *)
Theorem url_filename_is_a_name (url : string) :
  url_filename url <> EmptyString
  /\ PyText.has_char "/" (url_filename url) = false
  /\ PyText.has_char "?" (url_filename url) = false
  /\ (forall base name query,
       name <> EmptyString ->
       PyText.has_char "/" name = false ->
       PyText.has_char "?" name = false ->
       PyText.has_char "/" query = false ->
       (url = (base ++ "/" ++ name)%string
        \/ url = (base ++ "/" ++ name ++ "?" ++ query)%string) ->
       url_filename url = name)
  /\ (PyText.first_piece "?" (PyText.last_piece "/" url) = EmptyString ->
      url_filename url = "document"%string).
Proof.
  unfold url_filename, PyText.first_piece.
  pose proof (last_piece_no_sep "/" url) as Hslash.
  pose proof (split_keeps_absent "/" "?" (PyText.last_piece "/" url) Hslash)
    as [Hkeep _].
  pose proof (split_no_sep "?" (PyText.last_piece "/" url)) as [Hq _].
  split; [|split; [|split; [|split]]].
  5:{ intros Hempty. rewrite Hempty. reflexivity. }
  - destruct (fst (PyText.split "?" (PyText.last_piece "/" url))); discriminate.
  - destruct (fst (PyText.split "?" (PyText.last_piece "/" url))); [reflexivity|].
    exact Hkeep.
  - destruct (fst (PyText.split "?" (PyText.last_piece "/" url))); [reflexivity|].
    exact Hq.
  - intros base name query Hne Hs Hm Hqs [-> | ->].
    + change (base ++ "/" ++ name)%string with (base ++ String "/" name)%string.
      rewrite last_piece_after_sep.
      unfold PyText.last_piece at 1. rewrite (split_without_sep "/" name Hs). simpl.
      rewrite (split_without_sep "?" name Hm). simpl.
      destruct name; [congruence|reflexivity].
    + change (base ++ "/" ++ name ++ "?" ++ query)%string
        with (base ++ String "/" (name ++ String "?" query))%string.
      rewrite last_piece_after_sep.
      assert (Hnq : PyText.has_char "/" (name ++ String "?" query) = false).
      { clear -Hs Hqs. induction name as [|c name IH].
        - rewrite StrFacts.append_empty. simpl. exact Hqs.
        - simpl in Hs. apply orb_false_iff in Hs. destruct Hs as [Hc Hn].
          rewrite StrFacts.append_cons. simpl. rewrite Hc, (IH Hn). reflexivity. }
      unfold PyText.last_piece at 1. rewrite (split_without_sep "/" _ Hnq). simpl.
      rewrite (split_at_sep "?" name query Hm). simpl.
      destruct name; [congruence|reflexivity].
Qed.

(** X28. The document type given to a task as a string becomes a hint
    exactly when it is the value of a document type, and the hint is then
    that type; any other string, the empty one included, gives no hint. *)
Theorem doc_type_hint_round_trip :
  (forall t, doc_type_hint (Some (Schemas.type_value t)) = Some t)
  /\ (forall s t, doc_type_hint (Some s) = Some t -> s = Schemas.type_value t)
  /\ doc_type_hint None = None
  /\ doc_type_hint (Some EmptyString) = None.
Proof.
  split; [intros []; reflexivity|].
  split; [|split; reflexivity].
  intros s t. unfold doc_type_hint, DocumentTypeEnum_of.
  destruct s as [|c s]; [discriminate|]. cbn [List.find].
  destruct (String.eqb (Schemas.type_value Schemas.TRANSCRIPT) (String c s)) eqn:E1.
  { apply String.eqb_eq in E1. intros [= <-]. congruence. }
  destruct (String.eqb (Schemas.type_value Schemas.ID_DOCUMENT) (String c s)) eqn:E2.
  { apply String.eqb_eq in E2. intros [= <-]. congruence. }
  destruct (String.eqb (Schemas.type_value Schemas.CERTIFICATE) (String c s)) eqn:E3.
  { apply String.eqb_eq in E3. intros [= <-]. congruence. }
  destruct (String.eqb (Schemas.type_value Schemas.UNKNOWN) (String c s)) eqn:E4.
  { apply String.eqb_eq in E4. intros [= <-]. congruence. }
  discriminate.
Qed.

Section Endpoints.
Context {rt : PyRuntime} {frt : Loader.FileRuntime}.
Variable image : Type.

(** X29. When [extract_document] answers with a response and not with an
    HTTP error, the upload has a name and content that is neither empty nor
    larger than the limit, which is also the limit of the loader: the
    loader then accepts the upload or rejects it for its type, and the
    response never says [File is empty] or reports the file size. *)
Theorem extract_document_checks_size (processor : Pipeline.DocumentProcessor image)
    (doc_id : string) (file : UploadFile)
    (document_type : option Schemas.DocumentTypeEnum)
    (resp : Schemas.ExtractionResponse) :
  extract_document image processor doc_id file document_type = Ok resp ->
  exists name,
    upload_filename file = Some name /\ name <> EmptyString
    /\ upload_content file <> []
    /\ (Z.of_nat (length (upload_content file))
        <= Loader.max_file_size_bytes (Pipeline.loader image processor))%Z
    /\ resp = Pipeline.response
                (Pipeline.process_file image processor doc_id None
                   (Some (upload_content file)) name document_type)
    /\ ((exists document,
           Loader.load_from_bytes (Pipeline.loader image processor)
             (upload_content file) name = Loader.Accepted document)
        \/ Loader.load_from_bytes (Pipeline.loader image processor)
             (upload_content file) name
           = Loader.Rejected
               ("Unsupported file type: " ++ Loader.path_suffix name
                ++ ". Supported types: PDF, JPG, PNG, DOCX")).
Proof.
  unfold extract_document.
  destruct (upload_filename file) as [[|c s]|]; try discriminate.
  destruct (length (upload_content file) =? 0)%nat eqn:Hempty; [discriminate|].
  destruct (Config.max_file_size_bytes (Pipeline.settings image processor)
              <? Z.of_nat (length (upload_content file)))%Z eqn:Hbig;
    [discriminate|].
  intros [= <-]. exists (String c s).
  apply Nat.eqb_neq in Hempty. apply Z.ltb_ge in Hbig.
  assert (Hne : upload_content file <> []).
  { intros Hnil. rewrite Hnil in Hempty. simpl in Hempty. congruence. }
  split; [reflexivity|]. split; [discriminate|]. split; [exact Hne|].
  split; [exact Hbig|]. split; [reflexivity|].
  destruct (Loader.detect_type (String c s) (Some (upload_content file))) eqn:Ht.
  4:{ right. unfold Loader.load_from_bytes.
      rewrite (LoaderFacts.validate_unsupported (Pipeline.loader image processor)
                 _ _ Hbig Hne Ht).
      reflexivity. }
  all: left; unfold Loader.load_from_bytes;
    assert (Hv : Loader.validate (Pipeline.loader image processor) (String c s)
                   (upload_content file) = Loader.Accepted tt)
      by (apply LoaderFacts.validate_accepts; repeat split;
          [exact Hne|exact Hbig|congruence]);
    rewrite Hv; eexists; reflexivity.
Qed.

(** The files of a batch that are processed: the ones with a name and
    with content. *)
Lemma batch_loop_results (processor : Pipeline.DocumentProcessor image)
    (doc_ids : nat -> string) (files : list UploadFile) :
  forall drawn,
    map Schemas.filename (batch_loop image processor doc_ids drawn files)
    = map Notions.upload_name (List.filter Notions.processed files).
Proof.
  induction files as [|file files IH]; intros drawn; [reflexivity|].
  cbn [batch_loop List.filter].
  assert (Hp : Notions.processed file
               = match upload_filename file, upload_content file with
                 | Some (String _ _), _ :: _ => true
                 | _, _ => false
                 end).
  { unfold Notions.processed, no_filename.
    destruct (upload_filename file) as [[|c s]|], (upload_content file);
      reflexivity. }
  rewrite Hp.
  destruct (upload_filename file) as [[|c s]|] eqn:Hn; try apply IH.
  destruct (upload_content file) as [|b bytes] eqn:Hc; [apply IH|].
  cbn [map]. rewrite IH. f_equal.
  unfold Notions.upload_name. rewrite Hn.
  apply PipelineFacts.process_file_names.
Qed.

(** X30. A batch of 1 to 20 files is always answered as [completed],
    with the number of files sent as [total_documents]; a file without a
    name or without content is skipped without a trace, so the results may
    be fewer than [total_documents]: there is one result, in order and
    under its file name, for each file that has a name and content. *)
Theorem extract_batch_results (processor : Pipeline.DocumentProcessor image)
    (new_batch_id : string) (doc_ids : nat -> string) (files : list UploadFile) :
  (forall resp,
     extract_batch image processor new_batch_id doc_ids files = Ok resp ->
     batch_status resp = "completed"%string
     /\ total_documents resp = length files
     /\ map Schemas.filename (results resp)
        = map Notions.upload_name (List.filter Notions.processed files)
     /\ (length (results resp) <= total_documents resp)%nat)
  /\ ((exists resp, extract_batch image processor new_batch_id doc_ids files = Ok resp)
      <-> (1 <= length files <= 20)%nat).
Proof.
  unfold extract_batch. split.
  - intros resp. destruct files as [|file files]; [discriminate|].
    destruct (20 <? length (file :: files))%nat; [discriminate|].
    intros [= <-]. cbn [batch_status total_documents results].
    pose proof (batch_loop_results processor doc_ids (file :: files) 0%nat) as Hr.
    assert (Hlen : length (batch_loop image processor doc_ids 0 (file :: files))
                   = length (List.filter Notions.processed (file :: files))).
    { rewrite <- (length_map Schemas.filename), Hr, length_map. reflexivity. }
    split; [reflexivity|]. split; [reflexivity|]. split; [exact Hr|].
    eapply Nat.le_trans;
      [apply Nat.eq_le_incl; exact Hlen
      |apply (ScoreFacts.filter_length_le Notions.processed)].
  - destruct files as [|file files].
    + split; [intros [resp [=]]|simpl; lia].
    + destruct (20 <? length (file :: files))%nat eqn:E.
      * apply Nat.ltb_lt in E. split; [intros [resp [=]]|lia].
      * apply Nat.ltb_ge in E. split; [intros _; simpl in *; lia|].
        intros _. eexists. reflexivity.
Qed.

End Endpoints.

Lemma extract_document_checks_size_witness :
  let rt := Examples.example_runtime in
  let frt := Inputs.file_runtime in
  exists name,
    upload_filename Inputs.png_upload = Some name /\ name <> EmptyString.
Proof.
  intros rt frt.
  destruct (extract_document_checks_size nat
              (Inputs.processor_with Inputs.ocr_down) "doc-1" Inputs.png_upload None
              (Pipeline.response
                 (Pipeline.process_file nat (Inputs.processor_with Inputs.ocr_down)
                    "doc-1" None (Some Inputs.png_bytes) "scan.png" None))
              eq_refl) as (name & Hname & Hne & _).
  exists name. split; [exact Hname|exact Hne].
Defined.

End ApiFacts.

(** * Processed documents, ASCII text and the construction of the engines *)

(** ** The status and the confidence of every processed document *)

Module DocumentFacts.
Import Templates Schemas Processor Spec.

Section Document.
Context {rt : PyRuntime} {frt : Loader.FileRuntime}.

Lemma build_response_out_of_range self doc_id file_name template llm_result
    ocr_result data :
  post_process template (LLM.field_value <$> LLM.fields llm_result) = Returned data ->
  ~ (0 <= computed_overall llm_result data ocr_result <= 1) ->
  exists e,
    _build_response self doc_id file_name template llm_result ocr_result = Raised e.
Proof.
  intros Hpp Hout. unfold _build_response. rewrite Hpp. simpl.
  fold (computed_overall llm_result data ocr_result).
  destruct (determine_status _ _ _ _) as [[st errs] review].
  unfold new_ExtractionResponse. cbn [overall_confidence].
  destruct (Qle_bool 0 _) eqn:H0; simpl; [|eauto].
  destruct (Qle_bool _ 1) eqn:H1; simpl; [|eauto].
  exfalso. apply Hout. apply Qle_bool_iff in H0, H1. split; assumption.
Qed.

Lemma build_response_post_process_raises self doc_id file_name template llm_result
    ocr_result e :
  post_process template (LLM.field_value <$> LLM.fields llm_result) = Raised e ->
  _build_response self doc_id file_name template llm_result ocr_result = Raised e.
Proof.
  intros Hpp. unfold _build_response. rewrite Hpp. reflexivity.
Qed.

(** [process_file] as a whole: an exception of any step gives the response
    of the [PROCESSING_ERROR]; otherwise the response is the one that
    [_build_response] returned for the template and the results of the
    engines of this call. *)
Lemma process_file_cases (image : Type) (p : Pipeline.DocumentProcessor image)
    (doc_id : string) (file_path : option string) (content : option (list byte))
    (file_name : string) (hint : option DocumentTypeEnum) :
  let result :=
    Pipeline.process_file image p doc_id file_path content file_name hint in
  (Pipeline.success result = false
   /\ exists message,
        Pipeline.response result
        = Pipeline.error_response doc_id file_name message)
  \/ (Pipeline.success result = true
      /\ exists template llm_result ocr_result,
           _build_response (Pipeline.core image p) doc_id file_name template
             llm_result ocr_result = Returned (Pipeline.response result)
           /\ Pipeline.response result
              = process_file_response (Pipeline.core image p) doc_id file_name
                  template llm_result ocr_result).
Proof.
  unfold Pipeline.process_file.
  destruct (Pipeline.process_file_try image p doc_id file_path content file_name hint)
    as [result|message] eqn:Htry; cbv zeta.
  - right.
    destruct (PipelineFacts.process_file_try_done _ _ _ _ _ _ _ _ Htry)
      as (_ & Hs & template & llm_result & ocr_result & Hb & _).
    split; [exact Hs|]. exists template, llm_result, ocr_result.
    split; [exact Hb|]. unfold process_file_response. rewrite Hb. reflexivity.
  - left. split; [reflexivity|]. exists message. reflexivity.
Qed.



(** The voter card read at the confidence 7, under any runtime: the LLM
    result is successful and the validation finds nothing, the mean of the
    confidences is 7, and the response is the one of the
    [PROCESSING_ERROR]. *)
Lemma overconfident_document :
  let response :=
    process_file_response Examples.processor "doc-1" "voter.png" VoterIDTemplate
      Inputs.overconfident None in
  LLM.success Inputs.overconfident = true
  /\ post_process VoterIDTemplate
       (LLM.field_value <$> LLM.fields Inputs.overconfident)
     = Returned (LLM.field_value <$> LLM.fields Inputs.overconfident)
  /\ validate VoterIDTemplate (LLM.field_value <$> LLM.fields Inputs.overconfident)
     = []
  /\ spec_overall_confidence (LLM.fields Inputs.overconfident)
       (LLM.field_value <$> LLM.fields Inputs.overconfident) None == 7
  /\ status response = FAILED
  /\ map code (errors response) = ["PROCESSING_ERROR"%string]
  /\ overall_confidence response == 0
  /\ extracted_data response = ∅.
Proof.
  split; [reflexivity|]. split; [reflexivity|].
  split; [vm_compute; reflexivity|]. split; [vm_compute; reflexivity|].
  assert (Hr : _build_response Examples.processor "doc-1" "voter.png" VoterIDTemplate
                 Inputs.overconfident None
               = Raised (Exn ValidationError
                   "1 validation error for ExtractionResponse: overall_confidence"))
    by (vm_compute; reflexivity).
  unfold process_file_response. rewrite Hr. repeat split.
Qed.

End Document.





End DocumentFacts.

(** ** Post-processing of ASCII text *)

Module AsciiFacts.
Import PyStr Templates Spec.

Lemma ascii_to_upper c :
  (code c <? 128)%nat = true -> (code (to_upper c) <? 128)%nat = true.
Proof. StrFacts.by_cases_on_char c. Qed.

Lemma ascii_to_lower c :
  (code c <? 128)%nat = true -> (code (to_lower c) <? 128)%nat = true.
Proof. StrFacts.by_cases_on_char c. Qed.

Lemma is_ascii_cons c s :
  PyText.is_ascii (String c s) = true <->
  (code c <? 128)%nat = true /\ PyText.is_ascii s = true.
Proof. simpl. apply andb_true_iff. Qed.

Lemma is_ascii_app s t :
  PyText.is_ascii s = true -> PyText.is_ascii t = true ->
  PyText.is_ascii (s ++ t) = true.
Proof.
  intros Hs Ht. induction s as [|c s IH]; [exact Ht|].
  apply is_ascii_cons in Hs. destruct Hs as [Hc Hs].
  rewrite StrFacts.append_cons. apply is_ascii_cons. auto.
Qed.

Lemma is_ascii_upper s : PyText.is_ascii s = true -> PyText.is_ascii (upper s) = true.
Proof.
  induction s as [|c s IH]; [reflexivity|]. intros H.
  apply is_ascii_cons in H. destruct H as [Hc Hs].
  unfold upper in *. simpl smap. apply is_ascii_cons.
  split; [apply ascii_to_upper; exact Hc|apply IH; exact Hs].
Qed.

Lemma is_ascii_lstrip s : PyText.is_ascii s = true -> PyText.is_ascii (lstrip s) = true.
Proof.
  induction s as [|c s IH]; [reflexivity|]. intros H. simpl.
  destruct (isspace c); [|exact H].
  apply is_ascii_cons in H. apply IH. apply H.
Qed.

Lemma is_ascii_rstrip s : PyText.is_ascii s = true -> PyText.is_ascii (rstrip s) = true.
Proof.
  induction s as [|c s IH]; [reflexivity|]. intros H.
  apply is_ascii_cons in H. destruct H as [Hc Hs]. specialize (IH Hs). simpl.
  destruct (rstrip s) as [|d r].
  - destruct (isspace c); [reflexivity|]. apply is_ascii_cons. auto.
  - apply is_ascii_cons. auto.
Qed.

Lemma is_ascii_strip s : PyText.is_ascii s = true -> PyText.is_ascii (strip s) = true.
Proof. intros H. apply is_ascii_rstrip, is_ascii_lstrip, H. Qed.

Lemma is_ascii_title_from b s :
  PyText.is_ascii s = true -> PyText.is_ascii (title_from b s) = true.
Proof.
  revert b. induction s as [|c s IH]; intros b H; [reflexivity|].
  apply is_ascii_cons in H. destruct H as [Hc Hs]. simpl.
  destruct (iscased c); apply is_ascii_cons; (split; [|apply IH; exact Hs]).
  - destruct b; [apply ascii_to_lower|apply ascii_to_upper]; exact Hc.
  - exact Hc.
Qed.

Lemma is_ascii_remove c s :
  PyText.is_ascii s = true -> PyText.is_ascii (remove c s) = true.
Proof.
  induction s as [|d s IH]; [reflexivity|]. intros H.
  apply is_ascii_cons in H. destruct H as [Hd Hs]. simpl.
  destruct (Ascii.eqb d c); [apply IH; exact Hs|].
  apply is_ascii_cons. auto.
Qed.

Lemma is_ascii_drop n s : PyText.is_ascii s = true -> PyText.is_ascii (drop n s) = true.
Proof.
  revert s. induction n as [|n IH]; intros s H; [destruct s; exact H|].
  destruct s as [|c s]; [reflexivity|]. simpl.
  apply is_ascii_cons in H. apply IH. apply H.
Qed.

Lemma is_ascii_take n s : PyText.is_ascii s = true -> PyText.is_ascii (take n s) = true.
Proof.
  revert s. induction n as [|n IH]; intros s H; [destruct s; reflexivity|].
  destruct s as [|c s]; [reflexivity|]. simpl.
  apply is_ascii_cons in H. destruct H as [Hc Hs].
  apply is_ascii_cons. auto.
Qed.

Section Ascii.
Context {rt : PyRuntime}.

Lemma reads_ascii_insert (fields : gmap string value) (k s : string) :
  Notions.reads_ascii fields -> PyText.is_ascii s = true ->
  Notions.reads_ascii (<[k := VStr s]> fields).
Proof.
  intros Hm Hs j v. destruct (decide (j = k)) as [->|Hne].
  - rewrite lookup_insert_eq. intros [= <-]. exact Hs.
  - rewrite lookup_insert_ne by congruence. apply Hm.
Qed.

(** What a rule reads at a key, through [str()], is ASCII. *)
Lemma reads_ascii_at (fields : gmap string value) (k : string) (default : value) :
  Notions.reads_ascii fields -> PyText.is_ascii (py_str default) = true ->
  PyText.is_ascii (py_str (from_option id default (fields !! k))) = true.
Proof.
  intros Hm Hd. destruct (fields !! k) as [v|] eqn:Hk; simpl; [|exact Hd].
  exact (Hm k v Hk).
Qed.

Lemma present_and_truthy_some (fields : gmap string value) (k : string) :
  present_and_truthy fields k = true -> exists v, fields !! k = Some v.
Proof.
  unfold present_and_truthy. destruct (fields !! k) as [v|]; [eauto|discriminate].
Qed.

Lemma normalize_name_ascii (k : string) (fields out : gmap string value) :
  Notions.reads_ascii fields -> normalize_name k fields = Returned out ->
  Notions.reads_ascii out.
Proof.
  intros Hm. unfold normalize_name.
  destruct (present_and_truthy fields k) eqn:Hp; [|intros [= <-]; exact Hm].
  destruct (present_and_truthy_some _ _ Hp) as [v Hv]. rewrite Hv. simpl.
  destruct v; simpl; try discriminate.
  intros [= <-]. apply reads_ascii_insert; [exact Hm|].
  apply is_ascii_title_from, is_ascii_strip. exact (Hm k (VStr s) Hv).
Qed.

Lemma normalize_gender_ascii (males females : list string)
    (fields : gmap string value) :
  Notions.reads_ascii fields ->
  Notions.reads_ascii (normalize_gender males females fields).
Proof.
  intros Hm. unfold normalize_gender.
  destruct (present_and_truthy fields "gender"); [|exact Hm].
  destruct (existsb _ males); [apply reads_ascii_insert; [exact Hm|reflexivity]|].
  destruct (existsb _ females); [apply reads_ascii_insert; [exact Hm|reflexivity]|].
  exact Hm.
Qed.

Lemma combine_names_ascii (fields : gmap string value) :
  Notions.reads_ascii fields -> Notions.reads_ascii (combine_names fields).
Proof.
  intros Hm. unfold combine_names.
  destruct (negb _); [|exact Hm].
  destruct (_ || _); [|exact Hm].
  apply reads_ascii_insert; [exact Hm|].
  apply is_ascii_strip, is_ascii_app; [apply reads_ascii_at; [exact Hm|reflexivity]|].
  apply (is_ascii_app " "); [reflexivity|].
  apply reads_ascii_at; [exact Hm|reflexivity].
Qed.

Lemma format_aadhaar_ascii (fields : gmap string value) :
  Notions.reads_ascii fields -> Notions.reads_ascii (format_aadhaar fields).
Proof.
  intros Hm. unfold format_aadhaar.
  destruct (present_and_truthy fields "aadhaar_number") eqn:Hp; [|exact Hm].
  destruct (present_and_truthy_some _ _ Hp) as [v Hv]. rewrite Hv.
  change (from_option id VNone (Some v)) with v.
  pose proof (Hm _ _ Hv) as Ha.
  assert (Hr : PyText.is_ascii (remove "-" (remove " " (py_str v))) = true)
    by (apply is_ascii_remove, is_ascii_remove, Ha).
  destruct (_ && _); [|exact Hm].
  apply reads_ascii_insert; [exact Hm|].
  apply is_ascii_app; [apply is_ascii_take; exact Hr|].
  apply (is_ascii_app " "); [reflexivity|].
  apply is_ascii_app; [unfold slice; apply is_ascii_take, is_ascii_drop; exact Hr|].
  apply (is_ascii_app " "); [reflexivity|].
  apply is_ascii_drop. exact Hr.
Qed.

Lemma format_uan_ascii (fields : gmap string value) :
  Notions.reads_ascii fields -> Notions.reads_ascii (format_uan fields).
Proof.
  intros Hm. unfold format_uan.
  destruct (present_and_truthy fields "uan_number") eqn:Hp; [|exact Hm].
  destruct (present_and_truthy_some _ _ Hp) as [v Hv]. rewrite Hv.
  change (from_option id VNone (Some v)) with v.
  destruct (isdigit _); [|exact Hm].
  apply reads_ascii_insert; [exact Hm|].
  apply is_ascii_remove, is_ascii_remove. exact (Hm _ _ Hv).
Qed.

Lemma PAN_post_process_ascii (fields out : gmap string value) :
  Notions.reads_ascii fields -> PAN_post_process fields = Returned out ->
  Notions.reads_ascii out.
Proof.
  intros Hm. unfold PAN_post_process.
  destruct (present_and_truthy fields "pan_number") eqn:Hp; [|intros [= <-]; exact Hm].
  destruct (present_and_truthy_some _ _ Hp) as [v Hv]. rewrite Hv.
  change (from_option id VNone (Some v)) with v.
  intros [= <-]. apply reads_ascii_insert; [exact Hm|].
  apply is_ascii_strip, is_ascii_upper. exact (Hm _ _ Hv).
Qed.

Lemma IDDocument_post_process_ascii (fields out : gmap string value) :
  Notions.reads_ascii fields -> IDDocument_post_process fields = Returned out ->
  Notions.reads_ascii out.
Proof.
  intros Hm. unfold IDDocument_post_process.
  destruct (normalize_name "full_name" (combine_names fields)) as [p1|] eqn:H1;
    simpl; [|discriminate].
  destruct (normalize_name "first_name" p1) as [p2|] eqn:H2; simpl; [|discriminate].
  destruct (normalize_name "last_name" p2) as [p3|] eqn:H3; simpl; [|discriminate].
  intros [= <-]. apply normalize_gender_ascii.
  apply (normalize_name_ascii _ _ _ (normalize_name_ascii _ _ _
           (normalize_name_ascii _ _ _ (combine_names_ascii _ Hm) H1) H2) H3).
Qed.

Lemma post_process_ascii (t : Template) (fields out : gmap string value) :
  In t idempotent_templates ->
  Notions.reads_ascii fields -> post_process t fields = Returned out ->
  Notions.reads_ascii out.
Proof.
  intros Ht Hm.
  repeat (destruct Ht as [<-|Ht]); try destruct Ht;
    cbn [post_process UANCardTemplate AadhaarCardTemplate PANCardTemplate
         VoterIDTemplate DrivingLicenseTemplate base_post_process].
  - unfold UAN_post_process.
    destruct (normalize_name "member_name" fields) as [p|] eqn:Hn; simpl;
      [|discriminate].
    intros [= <-]. apply format_uan_ascii. exact (normalize_name_ascii _ _ _ Hm Hn).
  - unfold Aadhaar_post_process. intros [= <-].
    apply normalize_gender_ascii, format_aadhaar_ascii, Hm.
  - apply PAN_post_process_ascii. exact Hm.
  - intros [= <-]. exact Hm.
  - intros [= <-]. exact Hm.
Qed.


End Ascii.


(** Two applications to the transcript of the example: the first reads
    the GPA [0.00001] as a number, the second reads the [1] of its printed
    form [1e-05]. *)
Lemma transcript_two_applications :
  let rt := Inputs.float_runtime in
  post_process TranscriptTemplate Inputs.small_gpa
  = Returned {[ "gpa"%string := VFloat (1#100000) ]}
  /\ post_process TranscriptTemplate {[ "gpa"%string := VFloat (1#100000) ]}
     = Returned {[ "gpa"%string := VFloat 1 ]}
  /\ obind (post_process TranscriptTemplate Inputs.small_gpa)
       (post_process TranscriptTemplate)
     <> post_process TranscriptTemplate Inputs.small_gpa.
Proof.
  intros rt.
  assert (H1 : post_process TranscriptTemplate Inputs.small_gpa
               = Returned {[ "gpa"%string := VFloat (1#100000) ]})
    by (vm_compute; reflexivity).
  assert (H2 : post_process TranscriptTemplate {[ "gpa"%string := VFloat (1#100000) ]}
               = Returned {[ "gpa"%string := VFloat 1 ]})
    by (vm_compute; reflexivity).
  split; [exact H1|]. split; [exact H2|].
  rewrite H1. cbn [obind]. rewrite H2. intros E. apply Returned_inj in E.
  apply (f_equal (fun m => m !! "gpa"%string)) in E.
  rewrite !lookup_singleton_eq in E. discriminate.
Qed.


End AsciiFacts.

(** ** The pipelines with the construction of their engines *)

Module ConstructionFacts.

(** X2. [OCRPipeline.process] raises in two ways only. When the object
    has no primary engine yet and [EasyOCREngine()] raises, that exception
    leaves the method as it is, and no engine is invoked. Otherwise the
    method raises only when the primary engine raised, and then a
    [RuntimeError]: the one that names both causes when the fallback
    engine raised too, the one that names the cause of the primary when no
    fallback engine is usable. A pipeline that was given its primary
    engine raises nothing but the [RuntimeError]. *)
Theorem process_raises_runtime_error_or_construction
    (new_EasyOCREngine new_TesseractEngine : outcome OCR.OCREngine)
    (self : OCRObject.OCRPipelineObject) (e : exn) :
  fst (OCRObject.process new_EasyOCREngine new_TesseractEngine self) = Raised e ->
  ((OCRObject.primary_engine self = None
    /\ OCRObject._primary_initialized self = false
    /\ new_EasyOCREngine = Raised e
    /\ snd (OCRObject.process new_EasyOCREngine new_TesseractEngine self)
       = Exec.no_calls)
   \/ (exn_kind e = RuntimeError
       /\ exists self' pe,
            OCRObject._ensure_primary new_EasyOCREngine self = Returned self'
            /\ OCRObject.recognize_of (OCRObject.primary_engine self') 0%nat
               = Raised pe
            /\ match OCRObject.usable_fallback
                       (OCRObject._ensure_fallback new_TesseractEngine self') with
               | Some fb =>
                   exists fe, fb 0%nat = Raised fe /\ e = OCR.both_failed pe fe
               | None => e = OCR.primary_failed pe
               end))
  /\ (OCRObject.primary_engine self <> None -> exn_kind e = RuntimeError).
Proof.
  unfold OCRObject.process.
  destruct (OCRObject._ensure_primary new_EasyOCREngine self) as [self'|ce] eqn:He.
  - intros Hr.
    destruct (OCRPipelineFacts.process_raises_only_runtime_error _ _ Hr)
      as (Hk & pe & Hpe & Hfb).
    split; [|intros _; exact Hk].
    right. split; [exact Hk|]. exists self', pe. split; [reflexivity|].
    split; [exact Hpe|exact Hfb].
  - simpl. intros [= <-].
    unfold OCRObject._ensure_primary in He.
    destruct (OCRObject._primary_initialized self); [discriminate|].
    destruct (OCRObject.primary_engine self) as [engine|]; [discriminate|].
    destruct new_EasyOCREngine as [engine|ce']; [discriminate|].
    simpl in He. injection He as ->.
    split; [|congruence]. left. repeat split.
Qed.

Lemma process_raises_runtime_error_or_construction_witness :
  fst (OCRObject.process (Raised (Inputs.not_installed "easyocr"))
         (Raised (Inputs.not_installed "pytesseract")) Inputs.ocr_unbuilt)
  = Raised (Inputs.not_installed "easyocr")
  /\ exn_kind (Inputs.not_installed "easyocr") <> RuntimeError.
Proof.
  split; [reflexivity|].
  destruct (process_raises_runtime_error_or_construction
              (Raised (Inputs.not_installed "easyocr"))
              (Raised (Inputs.not_installed "pytesseract")) Inputs.ocr_unbuilt
              (Inputs.not_installed "easyocr") eq_refl) as [_ _].
  discriminate.
Defined.

Import LLM LLMObject.

(** The steps of a call, unfolded. *)
Ltac unfold_call :=
  unfold primary_after_ensure, run, extract, bind, try_except, _ensure_primary,
    _ensure_fallback, call_primary, call_fallback, has_fallback, ret,
    resolve_primary, extract_of;
  cbn [self made constructions primary fallback use_fallback_on_low_confidence
       confidence_threshold _primary_initialized _fallback_initialized
       with_primary with_fallback Exec.no_calls Exec.primary_calls
       Exec.fallback_calls fst snd obind].

(** X3. The LLM pipeline without a fallback extractor (none was given,
    and [GeminiExtractor()] raises the [ValueError] of the missing API
    key, or an earlier call found none). When the object has no primary
    extractor yet and [OllamaExtractor()] raises, that exception leaves
    [extract] as it is and no extractor is invoked. Otherwise [extract]
    does not raise: it invokes the primary extractor exactly once and
    returns its result as it is, successful or not, or, when the primary
    raised, the unsuccessful result with no field whose error is
    [All extractors failed: ] followed by the message of the exception. *)
Theorem extract_without_fallback_extractor (env : Constructors) (doc_type : string)
    (o : LLMPipelineObject) :
  fallback o = None ->
  _fallback_initialized o = true
  \/ (forall k, exists msg,
        new_GeminiExtractor env k = Raised (Exn ValueError msg)) ->
  match primary_after_ensure env o with
  | Raised e =>
      fst (run env doc_type o) = Raised e
      /\ made (snd (run env doc_type o)) = Exec.no_calls
  | Returned p =>
      exists x,
        fst (run env doc_type o) = Returned x
        /\ made (snd (run env doc_type o)) = Exec.Calls 1 0
        /\ (p 0%nat = Returned x
            \/ exists e, p 0%nat = Raised e
                         /\ x = all_failed doc_type e
                         /\ success x = false /\ fields x = ∅)
  end.
Proof.
  intros Hnone Hwhy. destruct o as [p f u t pi fi]. simpl in Hnone. subst f.
  assert (Hg : fi = true
               \/ exists msg, new_GeminiExtractor env 0 = Raised (Exn ValueError msg)).
  { destruct Hwhy as [H|H]; [left; exact H|right; apply H]. }
  clear Hwhy. unfold_call.
  destruct pi; [|destruct p as [p|]; [|destruct (new_OllamaExtractor env) as [p|e]]];
    cbn; try (split; reflexivity).
  all: try destruct p as [p|]; cbn.
  all: try (destruct (p 0%nat) as [r|e] eqn:Hp; cbn;
            [destruct (success r); cbn;
             [destruct (Qle_bool t (_average_confidence r)); cbn;
              [|destruct u; cbn]|]
            |]).
  all: try (destruct Hg as [-> | [msg Hg]]; cbn;
            [|destruct fi; cbn; [|rewrite Hg; cbn]]).
  all: try (eexists; split; [reflexivity|]; split; [reflexivity|];
            first [left; reflexivity
                  |right; eexists; repeat split; reflexivity]).
Qed.

Lemma extract_without_fallback_extractor_witness :
  exists x,
    fst (run Inputs.ollama_only "id_document" Inputs.llm_unbuilt) = Returned x
    /\ made (snd (run Inputs.ollama_only "id_document" Inputs.llm_unbuilt))
       = Exec.Calls 1 0.
Proof.
  pose proof (extract_without_fallback_extractor Inputs.ollama_only "id_document"
                Inputs.llm_unbuilt eq_refl
                (or_intror (fun _ => ex_intro _ _ eq_refl))) as H.
  cbn in H. destruct H as (x & Hx & Hm & _).
  exists x. split; [exact Hx|exact Hm].
Defined.

Ltac call_step :=
  match goal with
  | |- context [match ?x with _ => _ end] =>
      lazymatch x with
      | context [match _ with _ => _ end] => fail
      | _ => first [is_var x; destruct x | destruct x eqn:?]
      end
  end.

Ltac call_cases :=
  repeat (cbn [self made constructions primary fallback
               use_fallback_on_low_confidence confidence_threshold
               _primary_initialized _fallback_initialized with_primary
               with_fallback Exec.no_calls Exec.primary_calls
               Exec.fallback_calls fst snd obind andb];
          call_step).

(** X4. In every call the LLM pipeline invokes its primary extractor at
    most once (exactly once when [_ensure_primary()] returns), its
    fallback extractor at most twice, and constructs a Gemini extractor at
    most twice. An exception leaves [extract] in three ways only: from the
    construction of the primary extractor, and then no extractor was
    invoked; from the last construction of the Gemini extractor, when it
    raised something else than a [ValueError]; or from the last invocation
    of the fallback extractor. No exception of the primary extractor
    leaves it. *)
Theorem extract_raises_from_construction_or_fallback (env : Constructors)
    (doc_type : string) (o : LLMPipelineObject) :
  let out := fst (run env doc_type o) in
  let st := snd (run env doc_type o) in
  (Exec.primary_calls (made st) <= 1)%nat
  /\ (Exec.fallback_calls (made st) <= 2)%nat
  /\ (constructions st <= 2)%nat
  /\ (forall p, primary_after_ensure env o = Returned p ->
                Exec.primary_calls (made st) = 1%nat)
  /\ forall e, out = Raised e ->
       (primary_after_ensure env o = Raised e /\ made st = Exec.no_calls)
       \/ (exists k, constructions st = S k
                     /\ new_GeminiExtractor env k = Raised e
                     /\ exn_kind e <> ValueError)
       \/ (exists fb k, fallback (self st) = Some fb
                        /\ Exec.fallback_calls (made st) = S k
                        /\ fb k = Raised e).
Proof.
  destruct o as [p f u t pi fi]. unfold_call. call_cases.
  all: cbn [self made constructions primary fallback
               use_fallback_on_low_confidence confidence_threshold
               _primary_initialized _fallback_initialized with_primary
               with_fallback Exec.no_calls Exec.primary_calls
               Exec.fallback_calls fst snd obind andb].
  all: split; [lia|]; split; [lia|]; split; [lia|]; split;
    [intros; first [reflexivity|discriminate]|].
  all: intros e0 He0; try discriminate He0.
  all: try (injection He0 as <-).
  all: try (left; split; reflexivity).
  all: try (right; left; eexists; split; [reflexivity|]; split;
            [eassumption|discriminate]).
  all: try (right; right; eexists _, _; split; [reflexivity|]; split;
            [reflexivity|]; eassumption).
Qed.

(** On a pipeline that was given its extractors, or its primary extractor
    when there is no API key for Gemini, the method is its body
    [LLM.extract]: the same outcome after the same invocations. *)
Lemma extract_with_given_extractors (env : Constructors) (doc_type : string)
    (p : LLMExtractor) (f : option LLMExtractor) (u : bool) (t : Q) :
  (f = None ->
   exists msg, new_GeminiExtractor env 0 = Raised (Exn ValueError msg)) ->
  let body :=
    Exec.run (LLM.extract
                {| LLM.primary := p; LLM.fallback := f;
                   LLM.use_fallback_on_low_confidence := u;
                   LLM.confidence_threshold := t |} doc_type) in
  fst (run env doc_type (new_LLMPipeline (Some p) f u t)) = fst body
  /\ made (snd (run env doc_type (new_LLMPipeline (Some p) f u t))) = snd body.
Proof.
  intros Hf body. unfold body, new_LLMPipeline, Exec.run, LLM.extract,
    Exec.try_except, Exec.bind, Exec.call_primary, Exec.call_fallback, Exec.ret.
  unfold_call. cbn [LLM.primary LLM.fallback LLM.use_fallback_on_low_confidence
                    LLM.confidence_threshold].
  destruct f as [f|].
  - clear Hf. call_cases; split; reflexivity.
  - destruct (Hf eq_refl) as [msg Hg]. clear Hf.
    destruct (p 0%nat) as [r|e]; cbn.
    + destruct (success r); cbn.
      * destruct (Qle_bool t (_average_confidence r)); cbn; [split; reflexivity|].
        destruct u; cbn; [|split; reflexivity].
        rewrite Hg. cbn. split; reflexivity.
      * rewrite Hg. cbn. split; reflexivity.
    + rewrite Hg. cbn. split; reflexivity.
Qed.

End ConstructionFacts.
